(** * Dense-reward phase machine of the Sawyer furniture-assembly environment

    A shallow embedding of [furniture/env/furniture_sawyer_dense.py]
    (class [FurnitureSawyerDenseRewardEnv]) and the properties of its
    multi-phase reward computation.

    Modelling conventions.
    - Python floats are exact rationals ([Q]); numeric results are compared
      with [==] ([Qeq]).
    - A numpy vector is a [list Q]; slices are [firstn], indexing is [idx].
    - The mutable attributes of the environment instance form the record
      [State]; every function that assigns an attribute returns the new
      state.  The attributes that [__init__] and the base class fix once are
      the record [Config].
    - What the physics backend and the base class answer during one call of
      [_compute_reward] is the record [Backend].
    - The numerical kernel that is not part of this repository's sources
      ([np.linalg.norm], [T.cos_siml], [np.exp]) is the record [Geometry];
      every theorem holds for every such kernel.
    - A Python dict is an association list looked up from the front, so that
      [{**a, **b}] is [b ++ a]; only lookups are observable.
    - A raised exception is [Raise e] in the error monad [Result]; the
      attributes that a call had assigned before it raised are not kept.
    - [State] describes an instance whose attributes have been assigned,
      with one exception: [_prev_grasp_dist] is assigned by
      [_update_reward_variables] only in differential mode and by
      [_grasp_leg_reward] only after it has read it, so it is an [option],
      [None] while the instance has no such attribute, and reading it then
      raises AttributeError.  Every other attribute is assigned on the way
      into the phase that reads it.
    - The phases are counted from 0 as in [self._phase_i]: lift_leg is
      index 3, move_leg_fine is index 6. *)

From Stdlib Require Import QArith Qabs Qminmax Lqa Lia List String Ascii Bool Arith.
Import ListNotations.
Open Scope string_scope.
Open Scope Q_scope.

(** ** Numbers and vectors *)

Definition Qltb (x y : Q) : bool := negb (Qle_bool y x).
Definition Qgtb (x y : Q) : bool := Qltb y x.

(** Python's [int(b)] used as a number. *)
Definition b2q (b : bool) : Q := if b then 1 else 0.

Definition n2q (n : nat) : Q := inject_Z (Z.of_nat n).

Definition vec := list Q.

Fixpoint vzip (f : Q -> Q -> Q) (a b : vec) : vec :=
  match a, b with
  | x :: a', y :: b' => f x y :: vzip f a' b'
  | _, _ => []
  end.

Definition vadd : vec -> vec -> vec := vzip Qplus.
Definition vsub : vec -> vec -> vec := vzip Qminus.
Definition vneg (a : vec) : vec := map Qopp a.
Definition vhalf (a : vec) : vec := map (fun x => x / 2) a.

(** [a[i]]; the backend's positions have three components. *)
Definition idx (a : vec) (i : nat) : Q := nth i a 0.

(** [a[i] = x] on an array that has index [i]. *)
Fixpoint vset (a : vec) (i : nat) (x : Q) : vec :=
  match a, i with
  | [], _ => []
  | _ :: a', O => x :: a'
  | y :: a', S i' => y :: vset a' i' x
  end.

Record Geometry := {
  norm : vec -> Q;              (* np.linalg.norm *)
  cos_siml : vec -> vec -> Q;   (* T.cos_siml *)
  np_exp : Q -> Q               (* np.exp *)
}.

(** ** Exceptions *)

Inductive PyError :=
  IndexError | KeyError | TypeError | AssertionError | AttributeError.

Inductive Result (A : Type) : Type :=
| Ok (a : A)
| Raise (e : PyError).
Arguments Ok {A} a.
Arguments Raise {A} e.

Definition bind {A B} (r : Result A) (k : A -> Result B) : Result B :=
  match r with
  | Ok a => k a
  | Raise e => Raise e
  end.

Notation "x <- r ;; k" := (bind r (fun x => k))
  (at level 61, r at next level, right associativity).
Notation "' p <- r ;; k" := (bind r (fun p => k))
  (at level 61, p pattern, r at next level, right associativity).

Definition py_assert (b : bool) : Result unit :=
  if b then Ok tt else Raise AssertionError.

(** Reading an attribute that may not have been assigned yet. *)
Definition getattr {A} (a : option A) : Result A :=
  match a with
  | Some x => Ok x
  | None => Raise AttributeError
  end.

Definition list_index {A} (l : list A) (i : nat) : Result A :=
  match nth_error l i with
  | Some a => Ok a
  | None => Raise IndexError
  end.

(** ** Dictionaries *)

Inductive Val :=
| VNum (q : Q)
| VBool (b : bool)      (* Python bools and the ints produced by [int(...)] *)
| VIdx (n : nat)
| VVec (v : vec).

Definition dict := list (string * Val).

Fixpoint dict_get (k : string) (d : dict) : option Val :=
  match d with
  | [] => None
  | (k', v) :: d' => if String.eqb k k' then Some v else dict_get k d'
  end.

Definition dict_set (k : string) (v : Val) (d : dict) : dict := (k, v) :: d.

(** [{**a, **b}] *)
Definition dict_merge (a b : dict) : dict := (b ++ a)%list.

Definition truthy (v : Val) : bool :=
  match v with
  | VNum q => negb (Qeq_bool q 0)
  | VBool b => b
  | VIdx n => negb (Nat.eqb n 0)
  | VVec v => negb (Nat.eqb (List.length v) 0)
  end.

(** [d[k]] used as a condition. *)
Definition dict_flag (k : string) (d : dict) : Result bool :=
  match dict_get k d with
  | Some v => Ok (truthy v)
  | None => Raise KeyError
  end.

(** [d[k]] used as a number. *)
Definition dict_num (k : string) (d : dict) : option Q :=
  match dict_get k d with
  | Some (VNum q) => Some q
  | _ => None
  end.

(** ** Strings *)

(** [s.split(",")] *)
Fixpoint split_comma_aux (s : string) (cur : string) : list string :=
  match s with
  | EmptyString => [cur]
  | String c s' =>
      if Ascii.eqb c ","%char then cur :: split_comma_aux s' EmptyString
      else split_comma_aux s' (cur ++ String c EmptyString)
  end.

Definition split_comma (s : string) : list string := split_comma_aux s EmptyString.

(** [l[1:-1]] *)
Definition slice_1_m1 {A} (l : list A) : list A := removelast (tl l).

Definition nonempty (s : string) : bool :=
  match s with
  | EmptyString => false
  | _ => true
  end.

(** ** Configuration, backend and state *)

(** One entry of [self._site_recipe]: the two connection sites and, when the
    entry has a third element, the required relative angle. *)
Record SiteEntry := {
  se_leg_site : string;
  se_table_site : string;
  se_angle : option Q
}.

(** The attributes fixed at construction: the reward configuration read in
    [__init__] and what the base class loads for the furniture. *)
Record Config := {
  _diff_rew : bool;
  _phase_bonus : Q;
  _ctrl_penalty_coef : Q;
  _pos_threshold : Q;
  _rot_threshold : Q;
  _eef_rot_dist_coef : Q;
  _eef_up_rot_dist_coef : Q;
  _eef_pos_dist_coef : Q;
  _lower_eef_pos_dist_coef : Q;
  _lift_dist_coef : Q;
  _grasp_dist_coef : Q;
  _gripper_penalty_coef : Q;
  _align_pos_dist_coef : Q;
  _align_rot_dist_coef : Q;
  _align_pos_threshold : Q;
  _align_rot_threshold : Q;
  _move_pos_dist_coef : Q;
  _move_rot_dist_coef : Q;
  _move_pos_threshold : Q;
  _move_rot_threshold : Q;
  _move_fine_rot_dist_coef : Q;
  _move_fine_pos_dist_coef : Q;
  _touch_coef : Q;
  _aligned_bonus_coef : Q;
  _move_other_part_penalty_coef : Q;
  (* base class *)
  recipe : list (string * string);                  (* self._recipe["recipe"] *)
  grip_site_recipe : option (list (string * string)); (* self._recipe["grip_site_recipe"], when present *)
  z_finedist : Q;                                   (* self._recipe["z_finedist"] *)
  _site_recipe : list SiteEntry;
  _object_name2id : list (string * nat);
  _success_num_conn : nat;
  _preassembled : nat;                              (* len(self._preassembled) *)
  max_episode_steps : nat                           (* self._env_config["max_episode_steps"] *)
}.

Definition _grip_open_phases : list string :=
  ["move_eef_above_leg"; "lower_eef_to_leg"].

Definition _phases : list string :=
  ["move_eef_above_leg"; "lower_eef_to_leg"; "grasp_leg"; "lift_leg";
   "align_leg"; "move_leg"; "move_leg_fine"].

(** The action vector [ac]: [ac[:-2]], [ac[-2]] and [ac[-1]]. *)
Record Action := {
  ac_arm : vec;
  ac_grip : Q;
  ac_connect : Q
}.

(** The answers of the simulator and of the base class during one call. *)
Record Backend := {
  _get_pos : string -> vec;
  _get_up_vector : string -> vec;
  _get_forward_vector : string -> vec;
  _finger_contact : string -> bool * bool;
  _project_connector_forward : string -> string -> option Q -> vec;
  _is_aligned : string -> string -> bool;
  _connected : bool;
  _episode_length : nat;
  super_info : dict            (* the info of super()._compute_reward(ac) *)
}.

(** The attributes that the reward code assigns.  [_grasp_sites] is the pair
    [g1, g2] captured by the closures [_get_leg_grasp_pos] and
    [_get_leg_grasp_vector]. *)
Record State := mkState {
  _phase_i : nat;
  _subtask_step : nat;
  _success : bool;
  _leg : string;
  _table : string;
  _leg_site : string;
  _table_site : string;
  _table_leg_angle : option Q;
  _subtask_part1 : nat;
  _subtask_part2 : nat;
  _leg_touched : bool;
  _leg_lift : bool;
  _init_table_site_pos : vec;
  _init_lift_leg_pos : vec;
  _lift_leg_pos : vec;
  _leg_fine_aligned : nat;
  _leg_allowed_angles : list string;
  _grasp_sites : string * string;
  _prev_eef_above_leg_dist : Q;
  _prev_grasp_dist : option Q;
  _prev_lift_leg_z_dist : Q;
  _prev_lift_leg_xy_dist : Q;
  _prev_eef_leg_dist : Q;
  _align_leg_pos : vec;
  _prev_move_pos_dist : Q;
  _prev_move_ang_dist : Q;
  _prev_move_forward_ang_dist : Q;
  _prev_proj_t : Q;
  _prev_proj_l : Q
}.

Definition set_phase_i (x : nat) (s : State) : State :=
  mkState
    x (_subtask_step s) (_success s) (_leg s) (_table s) (_leg_site s)
    (_table_site s) (_table_leg_angle s) (_subtask_part1 s) (_subtask_part2 s)
    (_leg_touched s) (_leg_lift s) (_init_table_site_pos s)
    (_init_lift_leg_pos s) (_lift_leg_pos s) (_leg_fine_aligned s)
    (_leg_allowed_angles s) (_grasp_sites s) (_prev_eef_above_leg_dist s)
    (_prev_grasp_dist s) (_prev_lift_leg_z_dist s) (_prev_lift_leg_xy_dist s)
    (_prev_eef_leg_dist s) (_align_leg_pos s) (_prev_move_pos_dist s)
    (_prev_move_ang_dist s) (_prev_move_forward_ang_dist s) (_prev_proj_t s)
    (_prev_proj_l s).

Definition set_success (x : bool) (s : State) : State :=
  mkState
    (_phase_i s) (_subtask_step s) x (_leg s) (_table s) (_leg_site s)
    (_table_site s) (_table_leg_angle s) (_subtask_part1 s) (_subtask_part2 s)
    (_leg_touched s) (_leg_lift s) (_init_table_site_pos s)
    (_init_lift_leg_pos s) (_lift_leg_pos s) (_leg_fine_aligned s)
    (_leg_allowed_angles s) (_grasp_sites s) (_prev_eef_above_leg_dist s)
    (_prev_grasp_dist s) (_prev_lift_leg_z_dist s) (_prev_lift_leg_xy_dist s)
    (_prev_eef_leg_dist s) (_align_leg_pos s) (_prev_move_pos_dist s)
    (_prev_move_ang_dist s) (_prev_move_forward_ang_dist s) (_prev_proj_t s)
    (_prev_proj_l s).

Definition set_leg_touched (x : bool) (s : State) : State :=
  mkState
    (_phase_i s) (_subtask_step s) (_success s) (_leg s) (_table s)
    (_leg_site s) (_table_site s) (_table_leg_angle s) (_subtask_part1 s)
    (_subtask_part2 s) x (_leg_lift s) (_init_table_site_pos s)
    (_init_lift_leg_pos s) (_lift_leg_pos s) (_leg_fine_aligned s)
    (_leg_allowed_angles s) (_grasp_sites s) (_prev_eef_above_leg_dist s)
    (_prev_grasp_dist s) (_prev_lift_leg_z_dist s) (_prev_lift_leg_xy_dist s)
    (_prev_eef_leg_dist s) (_align_leg_pos s) (_prev_move_pos_dist s)
    (_prev_move_ang_dist s) (_prev_move_forward_ang_dist s) (_prev_proj_t s)
    (_prev_proj_l s).

Definition set_leg_lift (x : bool) (s : State) : State :=
  mkState
    (_phase_i s) (_subtask_step s) (_success s) (_leg s) (_table s)
    (_leg_site s) (_table_site s) (_table_leg_angle s) (_subtask_part1 s)
    (_subtask_part2 s) (_leg_touched s) x (_init_table_site_pos s)
    (_init_lift_leg_pos s) (_lift_leg_pos s) (_leg_fine_aligned s)
    (_leg_allowed_angles s) (_grasp_sites s) (_prev_eef_above_leg_dist s)
    (_prev_grasp_dist s) (_prev_lift_leg_z_dist s) (_prev_lift_leg_xy_dist s)
    (_prev_eef_leg_dist s) (_align_leg_pos s) (_prev_move_pos_dist s)
    (_prev_move_ang_dist s) (_prev_move_forward_ang_dist s) (_prev_proj_t s)
    (_prev_proj_l s).

Definition set_leg_fine_aligned (x : nat) (s : State) : State :=
  mkState
    (_phase_i s) (_subtask_step s) (_success s) (_leg s) (_table s)
    (_leg_site s) (_table_site s) (_table_leg_angle s) (_subtask_part1 s)
    (_subtask_part2 s) (_leg_touched s) (_leg_lift s) (_init_table_site_pos s)
    (_init_lift_leg_pos s) (_lift_leg_pos s) x (_leg_allowed_angles s)
    (_grasp_sites s) (_prev_eef_above_leg_dist s) (_prev_grasp_dist s)
    (_prev_lift_leg_z_dist s) (_prev_lift_leg_xy_dist s)
    (_prev_eef_leg_dist s) (_align_leg_pos s) (_prev_move_pos_dist s)
    (_prev_move_ang_dist s) (_prev_move_forward_ang_dist s) (_prev_proj_t s)
    (_prev_proj_l s).

Definition set_prev_eef_above_leg_dist (x : Q) (s : State) : State :=
  mkState
    (_phase_i s) (_subtask_step s) (_success s) (_leg s) (_table s)
    (_leg_site s) (_table_site s) (_table_leg_angle s) (_subtask_part1 s)
    (_subtask_part2 s) (_leg_touched s) (_leg_lift s) (_init_table_site_pos s)
    (_init_lift_leg_pos s) (_lift_leg_pos s) (_leg_fine_aligned s)
    (_leg_allowed_angles s) (_grasp_sites s) x (_prev_grasp_dist s)
    (_prev_lift_leg_z_dist s) (_prev_lift_leg_xy_dist s)
    (_prev_eef_leg_dist s) (_align_leg_pos s) (_prev_move_pos_dist s)
    (_prev_move_ang_dist s) (_prev_move_forward_ang_dist s) (_prev_proj_t s)
    (_prev_proj_l s).

Definition set_prev_grasp_dist (x : option Q) (s : State) : State :=
  mkState
    (_phase_i s) (_subtask_step s) (_success s) (_leg s) (_table s)
    (_leg_site s) (_table_site s) (_table_leg_angle s) (_subtask_part1 s)
    (_subtask_part2 s) (_leg_touched s) (_leg_lift s) (_init_table_site_pos s)
    (_init_lift_leg_pos s) (_lift_leg_pos s) (_leg_fine_aligned s)
    (_leg_allowed_angles s) (_grasp_sites s) (_prev_eef_above_leg_dist s) x
    (_prev_lift_leg_z_dist s) (_prev_lift_leg_xy_dist s)
    (_prev_eef_leg_dist s) (_align_leg_pos s) (_prev_move_pos_dist s)
    (_prev_move_ang_dist s) (_prev_move_forward_ang_dist s) (_prev_proj_t s)
    (_prev_proj_l s).

Definition set_prev_lift_leg_z_dist (x : Q) (s : State) : State :=
  mkState
    (_phase_i s) (_subtask_step s) (_success s) (_leg s) (_table s)
    (_leg_site s) (_table_site s) (_table_leg_angle s) (_subtask_part1 s)
    (_subtask_part2 s) (_leg_touched s) (_leg_lift s) (_init_table_site_pos s)
    (_init_lift_leg_pos s) (_lift_leg_pos s) (_leg_fine_aligned s)
    (_leg_allowed_angles s) (_grasp_sites s) (_prev_eef_above_leg_dist s)
    (_prev_grasp_dist s) x (_prev_lift_leg_xy_dist s) (_prev_eef_leg_dist s)
    (_align_leg_pos s) (_prev_move_pos_dist s) (_prev_move_ang_dist s)
    (_prev_move_forward_ang_dist s) (_prev_proj_t s) (_prev_proj_l s).

Definition set_prev_lift_leg_xy_dist (x : Q) (s : State) : State :=
  mkState
    (_phase_i s) (_subtask_step s) (_success s) (_leg s) (_table s)
    (_leg_site s) (_table_site s) (_table_leg_angle s) (_subtask_part1 s)
    (_subtask_part2 s) (_leg_touched s) (_leg_lift s) (_init_table_site_pos s)
    (_init_lift_leg_pos s) (_lift_leg_pos s) (_leg_fine_aligned s)
    (_leg_allowed_angles s) (_grasp_sites s) (_prev_eef_above_leg_dist s)
    (_prev_grasp_dist s) (_prev_lift_leg_z_dist s) x (_prev_eef_leg_dist s)
    (_align_leg_pos s) (_prev_move_pos_dist s) (_prev_move_ang_dist s)
    (_prev_move_forward_ang_dist s) (_prev_proj_t s) (_prev_proj_l s).

Definition set_prev_eef_leg_dist (x : Q) (s : State) : State :=
  mkState
    (_phase_i s) (_subtask_step s) (_success s) (_leg s) (_table s)
    (_leg_site s) (_table_site s) (_table_leg_angle s) (_subtask_part1 s)
    (_subtask_part2 s) (_leg_touched s) (_leg_lift s) (_init_table_site_pos s)
    (_init_lift_leg_pos s) (_lift_leg_pos s) (_leg_fine_aligned s)
    (_leg_allowed_angles s) (_grasp_sites s) (_prev_eef_above_leg_dist s)
    (_prev_grasp_dist s) (_prev_lift_leg_z_dist s) (_prev_lift_leg_xy_dist s)
    x (_align_leg_pos s) (_prev_move_pos_dist s) (_prev_move_ang_dist s)
    (_prev_move_forward_ang_dist s) (_prev_proj_t s) (_prev_proj_l s).

Definition set_align_leg_pos (x : vec) (s : State) : State :=
  mkState
    (_phase_i s) (_subtask_step s) (_success s) (_leg s) (_table s)
    (_leg_site s) (_table_site s) (_table_leg_angle s) (_subtask_part1 s)
    (_subtask_part2 s) (_leg_touched s) (_leg_lift s) (_init_table_site_pos s)
    (_init_lift_leg_pos s) (_lift_leg_pos s) (_leg_fine_aligned s)
    (_leg_allowed_angles s) (_grasp_sites s) (_prev_eef_above_leg_dist s)
    (_prev_grasp_dist s) (_prev_lift_leg_z_dist s) (_prev_lift_leg_xy_dist s)
    (_prev_eef_leg_dist s) x (_prev_move_pos_dist s) (_prev_move_ang_dist s)
    (_prev_move_forward_ang_dist s) (_prev_proj_t s) (_prev_proj_l s).

Definition set_prev_move_pos_dist (x : Q) (s : State) : State :=
  mkState
    (_phase_i s) (_subtask_step s) (_success s) (_leg s) (_table s)
    (_leg_site s) (_table_site s) (_table_leg_angle s) (_subtask_part1 s)
    (_subtask_part2 s) (_leg_touched s) (_leg_lift s) (_init_table_site_pos s)
    (_init_lift_leg_pos s) (_lift_leg_pos s) (_leg_fine_aligned s)
    (_leg_allowed_angles s) (_grasp_sites s) (_prev_eef_above_leg_dist s)
    (_prev_grasp_dist s) (_prev_lift_leg_z_dist s) (_prev_lift_leg_xy_dist s)
    (_prev_eef_leg_dist s) (_align_leg_pos s) x (_prev_move_ang_dist s)
    (_prev_move_forward_ang_dist s) (_prev_proj_t s) (_prev_proj_l s).

Definition set_prev_move_ang_dist (x : Q) (s : State) : State :=
  mkState
    (_phase_i s) (_subtask_step s) (_success s) (_leg s) (_table s)
    (_leg_site s) (_table_site s) (_table_leg_angle s) (_subtask_part1 s)
    (_subtask_part2 s) (_leg_touched s) (_leg_lift s) (_init_table_site_pos s)
    (_init_lift_leg_pos s) (_lift_leg_pos s) (_leg_fine_aligned s)
    (_leg_allowed_angles s) (_grasp_sites s) (_prev_eef_above_leg_dist s)
    (_prev_grasp_dist s) (_prev_lift_leg_z_dist s) (_prev_lift_leg_xy_dist s)
    (_prev_eef_leg_dist s) (_align_leg_pos s) (_prev_move_pos_dist s) x
    (_prev_move_forward_ang_dist s) (_prev_proj_t s) (_prev_proj_l s).

Definition set_prev_move_forward_ang_dist (x : Q) (s : State) : State :=
  mkState
    (_phase_i s) (_subtask_step s) (_success s) (_leg s) (_table s)
    (_leg_site s) (_table_site s) (_table_leg_angle s) (_subtask_part1 s)
    (_subtask_part2 s) (_leg_touched s) (_leg_lift s) (_init_table_site_pos s)
    (_init_lift_leg_pos s) (_lift_leg_pos s) (_leg_fine_aligned s)
    (_leg_allowed_angles s) (_grasp_sites s) (_prev_eef_above_leg_dist s)
    (_prev_grasp_dist s) (_prev_lift_leg_z_dist s) (_prev_lift_leg_xy_dist s)
    (_prev_eef_leg_dist s) (_align_leg_pos s) (_prev_move_pos_dist s)
    (_prev_move_ang_dist s) x (_prev_proj_t s) (_prev_proj_l s).

Definition set_prev_proj_t (x : Q) (s : State) : State :=
  mkState
    (_phase_i s) (_subtask_step s) (_success s) (_leg s) (_table s)
    (_leg_site s) (_table_site s) (_table_leg_angle s) (_subtask_part1 s)
    (_subtask_part2 s) (_leg_touched s) (_leg_lift s) (_init_table_site_pos s)
    (_init_lift_leg_pos s) (_lift_leg_pos s) (_leg_fine_aligned s)
    (_leg_allowed_angles s) (_grasp_sites s) (_prev_eef_above_leg_dist s)
    (_prev_grasp_dist s) (_prev_lift_leg_z_dist s) (_prev_lift_leg_xy_dist s)
    (_prev_eef_leg_dist s) (_align_leg_pos s) (_prev_move_pos_dist s)
    (_prev_move_ang_dist s) (_prev_move_forward_ang_dist s) x (_prev_proj_l s).

Definition set_prev_proj_l (x : Q) (s : State) : State :=
  mkState
    (_phase_i s) (_subtask_step s) (_success s) (_leg s) (_table s)
    (_leg_site s) (_table_site s) (_table_leg_angle s) (_subtask_part1 s)
    (_subtask_part2 s) (_leg_touched s) (_leg_lift s) (_init_table_site_pos s)
    (_init_lift_leg_pos s) (_lift_leg_pos s) (_leg_fine_aligned s)
    (_leg_allowed_angles s) (_grasp_sites s) (_prev_eef_above_leg_dist s)
    (_prev_grasp_dist s) (_prev_lift_leg_z_dist s) (_prev_lift_leg_xy_dist s)
    (_prev_eef_leg_dist s) (_align_leg_pos s) (_prev_move_pos_dist s)
    (_prev_move_ang_dist s) (_prev_move_forward_ang_dist s) (_prev_proj_t s) x.

Definition set_subtask_step (x : nat) (s : State) : State :=
  mkState
    (_phase_i s) x (_success s) (_leg s) (_table s) (_leg_site s)
    (_table_site s) (_table_leg_angle s) (_subtask_part1 s) (_subtask_part2 s)
    (_leg_touched s) (_leg_lift s) (_init_table_site_pos s)
    (_init_lift_leg_pos s) (_lift_leg_pos s) (_leg_fine_aligned s)
    (_leg_allowed_angles s) (_grasp_sites s) (_prev_eef_above_leg_dist s)
    (_prev_grasp_dist s) (_prev_lift_leg_z_dist s) (_prev_lift_leg_xy_dist s)
    (_prev_eef_leg_dist s) (_align_leg_pos s) (_prev_move_pos_dist s)
    (_prev_move_ang_dist s) (_prev_move_forward_ang_dist s) (_prev_proj_t s)
    (_prev_proj_l s).

(** The dict [self._current_values] built by [_collect_values]. *)
Record Values := {
  v_left : bool;
  v_right : bool;
  v_leg_touched : bool;
  v_leg_pos : vec;
  v_lift : bool;
  v_leg_site_pos : vec;
  v_table_site_pos : vec;
  v_above_table_site_pos : vec;
  v_move_pos_dist : Q;
  v_move_above_pos_dist : Q;
  v_leg_up : vec;
  v_table_up : vec;
  v_move_ang_dist : Q;
  v_leg_forward : vec;
  v_target_forward : vec;
  v_move_forward_ang_dist : Q;
  v_proj_table : Q;
  v_proj_leg : Q;
  v_table_displacement : Q
}.

(** [d[k]] used as a number. *)
Definition dict_q (k : string) (d : dict) : Result Q :=
  match dict_get k d with
  | Some (VNum q) => Ok q
  | Some (VBool b) => Ok (b2q b)
  | Some (VIdx n) => Ok (n2q n)
  | Some (VVec _) => Raise TypeError
  | None => Raise KeyError
  end.

(** ** The reward code *)

Section Reward.

Variable G : Geometry.
Variable cfg : Config.
Variable bk : Backend.

(** [self._object_name2id[name]] *)
Definition object_id (name : string) : Result nat :=
  match find (fun p => String.eqb name (fst p)) (_object_name2id cfg) with
  | Some p => Ok (snd p)
  | None => Raise KeyError
  end.

(** The closures bound in [_update_reward_variables]. *)
Definition _get_leg_grasp_pos (st : State) : vec :=
  let '(g1, g2) := _grasp_sites st in
  vhalf (vadd (_get_pos bk g1) (_get_pos bk g2)).

Definition _get_leg_grasp_vector (st : State) : vec :=
  let '(g1, g2) := _grasp_sites st in
  vsub (_get_pos bk g2) (_get_pos bk g1).

(** [np.concatenate([griptip_site, grip_site])] *)
Definition _get_gripper_pos : vec :=
  (_get_pos bk "griptip_site" ++ _get_pos bk "grip_site")%list.

Definition _update_reward_variables (subtask_step : nat) (st : State) : Result State :=
  '(leg, table) <- list_index (recipe cfg) subtask_step ;;
  se <- list_index (_site_recipe cfg) subtask_step ;;
  let leg_site := se_leg_site se in
  let table_site := se_table_site se in
  let table_leg_angle := se_angle se in
  part1 <- object_id leg ;;
  part2 <- object_id table ;;
  let leg_pos := _get_pos bk leg in
  let allowed := filter nonempty (slice_1_m1 (split_comma leg_site)) in
  let g_default := (leg ++ "_ltgt_site0", leg ++ "_rtgt_site0") in
  let g :=
    match grip_site_recipe cfg with
    | Some l =>
        if Nat.ltb (_subtask_step st) (List.length l)
        then nth (_subtask_step st) l g_default
        else g_default
    | None => g_default
    end in
  let st1 :=
    {| _phase_i := 0;
       _subtask_step := _subtask_step st;
       _success := _success st;
       _leg := leg;
       _table := table;
       _leg_site := leg_site;
       _table_site := table_site;
       _table_leg_angle := table_leg_angle;
       _subtask_part1 := part1;
       _subtask_part2 := part2;
       _leg_touched := false;
       _leg_lift := false;
       _init_table_site_pos := _get_pos bk table_site;
       _init_lift_leg_pos := leg_pos;
       _lift_leg_pos := vadd leg_pos [0; 0; 0.2];
       _leg_fine_aligned := 0;
       _leg_allowed_angles := allowed;
       _grasp_sites := g;
       _prev_eef_above_leg_dist := _prev_eef_above_leg_dist st;
       _prev_grasp_dist := _prev_grasp_dist st;
       _prev_lift_leg_z_dist := _prev_lift_leg_z_dist st;
       _prev_lift_leg_xy_dist := _prev_lift_leg_xy_dist st;
       _prev_eef_leg_dist := _prev_eef_leg_dist st;
       _align_leg_pos := _align_leg_pos st;
       _prev_move_pos_dist := _prev_move_pos_dist st;
       _prev_move_ang_dist := _prev_move_ang_dist st;
       _prev_move_forward_ang_dist := _prev_move_forward_ang_dist st;
       _prev_proj_t := _prev_proj_t st;
       _prev_proj_l := _prev_proj_l st |} in
  if _diff_rew cfg then
    let eef_pos := _get_pos bk "griptip_site" in
    let leg_pos := vset (_get_leg_grasp_pos st1) 2 0.08 in
    let xy_dist := norm G (vsub (firstn 2 eef_pos) (firstn 2 leg_pos)) in
    let z_dist := Qabs (idx eef_pos 2 - idx leg_pos 2) in
    Ok (set_prev_lift_leg_xy_dist 0.0
         (set_prev_lift_leg_z_dist 0.2
           (set_prev_grasp_dist (Some (-1))
             (set_prev_eef_above_leg_dist (xy_dist + z_dist) st1))))
  else Ok st1.

Definition _reset_reward_variables (st : State) : Result State :=
  let st := set_subtask_step (_preassembled cfg) st in
  _update_reward_variables (_subtask_step st) st.

(** Returns [true] when all attaching steps are done. *)
Definition _set_next_subtask (st : State) : Result (State * bool) :=
  let st := set_subtask_step (_subtask_step st + 1) st in
  if Nat.eqb (_subtask_step st) (_success_num_conn cfg) then Ok (st, true)
  else
    st' <- _update_reward_variables (_subtask_step st) st ;;
    Ok (st', false).

(** [_reset]: the base class resets the simulation, then the reward
    variables are reset. *)
Definition _reset (st : State) : Result State := _reset_reward_variables st.

Definition _collect_values (st : State) : Values :=
  let '(left_, right_) := _finger_contact bk (_leg st) in
  let leg_up := _get_up_vector bk (_leg_site st) in
  let table_up := _get_up_vector bk (_table_site st) in
  let leg_forward := _get_forward_vector bk (_leg_site st) in
  let target_forward :=
    if negb (Nat.eqb (List.length (_leg_allowed_angles st)) 0)
    then _project_connector_forward bk (_table_site st) (_leg_site st)
           (_table_leg_angle st)
    else leg_forward in
  let leg_site_pos := _get_pos bk (_leg_site st) in
  let leg_pos := _get_pos bk (_leg st) in
  let table_site_pos := _get_pos bk (_table_site st) in
  let above_table_site_pos := vadd table_site_pos [0; 0; z_finedist cfg] in
  {| v_left := left_;
     v_right := right_;
     v_leg_touched := left_ && right_;
     v_leg_pos := leg_pos;
     v_lift := Qgtb (idx leg_pos 2) (idx (_lift_leg_pos st) 2);
     v_leg_site_pos := leg_site_pos;
     v_table_site_pos := table_site_pos;
     v_above_table_site_pos := above_table_site_pos;
     v_move_pos_dist := norm G (vsub table_site_pos leg_site_pos);
     v_move_above_pos_dist := norm G (vsub above_table_site_pos leg_site_pos);
     v_leg_up := leg_up;
     v_table_up := table_up;
     v_move_ang_dist := cos_siml G leg_up table_up;
     v_leg_forward := leg_forward;
     v_target_forward := target_forward;
     v_move_forward_ang_dist := cos_siml G leg_forward target_forward;
     v_proj_table := cos_siml G (vneg table_up) (vsub leg_site_pos table_site_pos);
     v_proj_leg := cos_siml G leg_up (vsub table_site_pos leg_site_pos);
     v_table_displacement := norm G (vsub table_site_pos (_init_table_site_pos st)) |}.

Definition _ctrl_penalty (action : Action) : Result (Q * dict) :=
  let rew := norm G (ac_arm action) * - _ctrl_penalty_coef cfg in
  let info := [("ctrl_penalty", VNum rew)] in
  _ <- py_assert (Qle_bool rew 0) ;;
  Ok (rew, info).

(** At any point the robot should not displace the other part. *)
Definition _move_other_part_penalty (v : Values) : Q * dict :=
  let table_displacement := v_table_displacement v in
  let rew := - _move_other_part_penalty_coef cfg * table_displacement in
  (rew, [("move_other_part_penalty", VNum rew);
         ("table_displacement", VNum table_displacement)]).

(** Penalty on the gripper outside the phases in which it should be open. *)
Definition _gripper_penalty (ac : Action) (st : State) : Result (Q * dict) :=
  phase <- list_index _phases (_phase_i st) ;;
  let grip_open := existsb (String.eqb phase) _grip_open_phases in
  let rew :=
    if negb grip_open then
      (if grip_open then -1 - ac_grip ac else ac_grip ac - 1)
      * _gripper_penalty_coef cfg
    else 0 in
  _ <- py_assert (Qle_bool rew 0) ;;
  Ok (rew, [("gripper_penalty", VNum rew); ("gripper_action", VNum (ac_grip ac))]).

(** The end effector and the object axes should be aligned. *)
Definition _stable_grip_reward (st : State) : Q * dict :=
  let eef_up := _get_up_vector bk "grip_site" in
  let eef_up_grasp_dist := cos_siml G eef_up [0; 0; -1] in
  let eef_up_grasp_rew := _eef_up_rot_dist_coef cfg * (eef_up_grasp_dist - 1) in
  let grasp_vec := _get_leg_grasp_vector st in
  let eef_forward := _get_forward_vector bk "grip_site" in
  let eef_forward_grasp_dist := cos_siml G eef_forward grasp_vec in
  let eef_forward_grasp_rew :=
    (Qabs eef_forward_grasp_dist - 1) * _eef_rot_dist_coef cfg in
  let rew := eef_up_grasp_rew + eef_forward_grasp_rew in
  let info :=
    [("stable_grip_succ",
      VBool (Qgtb eef_up_grasp_dist (1 - _rot_threshold cfg)
             && Qgtb (Qabs eef_forward_grasp_dist) (1 - _rot_threshold cfg)))] in
  if Nat.ltb (_phase_i st) 3 then
    (rew,
     (info ++ [("eef_up_grasp_dist", VNum eef_up_grasp_dist);
               ("eef_up_grasp_rew", VNum eef_up_grasp_rew);
               ("eef_forward_grasp_dist", VNum eef_forward_grasp_dist);
               ("eef_forward_grasp_rew", VNum eef_forward_grasp_rew)])%list)
  else (0, info).

(** Phase [move_eef_above_leg]. *)
Definition _move_eef_above_leg_reward (st : State) : Q * dict * State :=
  let eef_pos := _get_pos bk "griptip_site" in
  let leg_pos := vset (_get_leg_grasp_pos st) 2 0.08 in
  let xy_dist := norm G (vsub (firstn 2 eef_pos) (firstn 2 leg_pos)) in
  let z_dist := Qabs (idx eef_pos 2 - idx leg_pos 2) in
  let eef_above_leg_dist := xy_dist + z_dist in
  let '(rew, st) :=
    if _diff_rew cfg then
      let offset := _prev_eef_above_leg_dist st - eef_above_leg_dist in
      (offset * _eef_pos_dist_coef cfg * 10,
       set_prev_eef_above_leg_dist eef_above_leg_dist st)
    else (- eef_above_leg_dist * _eef_pos_dist_coef cfg, st) in
  (rew,
   [("eef_above_leg_dist", VNum eef_above_leg_dist);
    ("eef_above_leg_rew", VNum rew);
    ("move_eef_above_leg_succ", VBool (Qltb xy_dist 0.02 && Qltb z_dist 0.02))],
   st).

(** Phase [lower_eef_to_leg]. *)
Definition _lower_eef_to_leg_reward (st : State) : Q * dict * State :=
  let eef_pos := _get_gripper_pos in
  let leg_pos := vadd (_get_leg_grasp_pos st) [0; 0; -0.015] in
  let xy_dist := norm G (vsub (firstn 2 eef_pos) (firstn 2 leg_pos)) in
  let z_dist := Qabs (idx eef_pos 2 - idx leg_pos 2) in
  let eef_leg_dist := Qmin (xy_dist + z_dist) 0.3 in
  let '(rew, st) :=
    if _diff_rew cfg then
      let offset := _prev_eef_leg_dist st - eef_leg_dist in
      (offset * _lower_eef_pos_dist_coef cfg * 10,
       set_prev_eef_leg_dist eef_leg_dist st)
    else (- eef_leg_dist * _lower_eef_pos_dist_coef cfg, st) in
  (rew,
   [("lower_eef_to_leg_succ", VBool (Qltb xy_dist 0.02 && Qltb z_dist 0.01));
    ("eef_leg_dist", VNum eef_leg_dist);
    ("eef_leg_rew", VNum rew)],
   st).

(** Phase [grasp_leg].  The gripper baseline is read before it is
    assigned. *)
Definition _grasp_leg_reward (ac : Action) (v : Values) (st : State)
  : Result (Q * dict * State) :=
  let '(rew, info, st) := _lower_eef_to_leg_reward st in
  let leg_touched := v_leg_touched v in
  let info := dict_set "grasp_leg_succ" (VBool leg_touched) info in
  let touch_rew := 0 in
  prev_grasp_dist <- getattr (_prev_grasp_dist st) ;;
  let offset := ac_grip ac - prev_grasp_dist in
  let grasp_leg_rew := offset * _grasp_dist_coef cfg in
  let st := set_prev_grasp_dist (Some (ac_grip ac)) st in
  let info := dict_set "grasp_leg_rew" (VNum grasp_leg_rew) info in
  let '(touch_rew, st) :=
    if leg_touched && negb (_leg_touched st)
    then (touch_rew + _touch_coef cfg * 10, set_leg_touched true st)
    else (touch_rew, st) in
  let info := dict_set "touch_rew" (VNum touch_rew) info in
  Ok (rew + (grasp_leg_rew + touch_rew), info, st).

(** Phase [lift_leg]. *)
Definition _lift_leg_reward (v : Values) (st : State) : Q * dict * State :=
  let leg_touched := v_leg_touched v in
  let touch_rew := b2q leg_touched * _touch_coef cfg / 5 in
  let leg_pos := v_leg_pos v in
  let xy_dist := norm G (vsub (firstn 2 (_lift_leg_pos st)) (firstn 2 leg_pos)) in
  let z_dist := Qabs (idx (_lift_leg_pos st) 2 - idx leg_pos 2) in
  let '(lift_leg_rew, st) :=
    if _diff_rew cfg then
      let z_offset := _prev_lift_leg_z_dist st - z_dist in
      let lift_leg_rew := z_offset * _lift_dist_coef cfg * 10 in
      let st := set_prev_lift_leg_z_dist z_dist st in
      let xy_offset := _prev_lift_leg_xy_dist st - xy_dist in
      let lift_leg_rew := lift_leg_rew + xy_offset * _lift_dist_coef cfg * 10 in
      (lift_leg_rew, set_prev_lift_leg_xy_dist xy_dist st)
    else (- (z_dist + xy_dist) * _lift_dist_coef cfg, st) in
  let leg_lift := Qgtb (idx leg_pos 2) (idx (_init_lift_leg_pos st) 2 + 0.01) in
  let '(lift_leg_rew, st) :=
    if (leg_touched && leg_lift) && negb (_leg_lift st)
    then (lift_leg_rew + _phase_bonus cfg / 10, set_leg_lift true st)
    else (lift_leg_rew, st) in
  let rew := lift_leg_rew + touch_rew in
  (rew,
   [("touch_rew", VNum touch_rew);
    ("lift", VBool leg_lift);
    ("lift_leg_rew", VNum lift_leg_rew);
    ("lift_leg_xy_dist", VNum xy_dist);
    ("lift_leg_z_dist", VNum z_dist);
    ("lift_leg_succ", VBool (Qltb xy_dist 0.03 && Qltb z_dist 0.01));
    ("lift_leg_pos", VVec leg_pos);
    ("lift_leg_target", VVec (_lift_leg_pos st))],
   st).

(** Phase [align_leg]. *)
Definition _align_leg_reward (v : Values) (st : State) : Q * dict * State :=
  let leg_touched := v_leg_touched v in
  let touch_rew := 0 in
  let leg_pos := _get_pos bk (_leg st) in
  let move_pos_dist := norm G (vsub (_align_leg_pos st) leg_pos) in
  let '(pos_rew, st) :=
    if _diff_rew cfg then
      let offset := _prev_move_pos_dist st - move_pos_dist in
      (offset * _align_pos_dist_coef cfg * 10,
       set_prev_move_pos_dist move_pos_dist st)
    else (- move_pos_dist * _align_pos_dist_coef cfg, st) in
  let move_ang_dist := v_move_ang_dist v in
  let '(ang_rew, st) :=
    if _diff_rew cfg then
      let offset := move_ang_dist - _prev_move_ang_dist st in
      (offset * _align_rot_dist_coef cfg * 10,
       set_prev_move_ang_dist move_ang_dist st)
    else ((move_ang_dist - 1) * _align_rot_dist_coef cfg, st) in
  let move_forward_ang_dist := v_move_forward_ang_dist v in
  let '(forward_ang_rew, st) :=
    if _diff_rew cfg then
      let offset := move_forward_ang_dist - _prev_move_forward_ang_dist st in
      (offset * _align_rot_dist_coef cfg * 10,
       set_prev_move_forward_ang_dist move_forward_ang_dist st)
    else ((move_forward_ang_dist - 1) * _align_rot_dist_coef cfg, st) in
  let rew := pos_rew + ang_rew + forward_ang_rew + touch_rew in
  (rew,
   [("touch_rew", VNum touch_rew);
    ("align_pos_dist", VNum move_pos_dist);
    ("align_pos_rew", VNum pos_rew);
    ("align_ang_dist", VNum move_ang_dist);
    ("align_ang_rew", VNum ang_rew);
    ("align_forward_ang_dist", VNum move_forward_ang_dist);
    ("align_forward_ang_rew", VNum forward_ang_rew);
    ("align_leg_succ",
     VBool (Qltb move_pos_dist (_align_pos_threshold cfg)
            && Qgtb move_ang_dist (_align_rot_threshold cfg)
            && Qgtb move_forward_ang_dist (_align_rot_threshold cfg)
            && leg_touched))],
   st).

(** Phase [move_leg]. *)
Definition _move_leg_reward (v : Values) (st : State) : Q * dict * State :=
  let leg_touched := v_leg_touched v in
  let touch_rew := 0 in
  let move_pos_dist := v_move_above_pos_dist v in
  let '(pos_rew, st) :=
    if _diff_rew cfg then
      let offset := _prev_move_pos_dist st - move_pos_dist in
      (offset * _move_pos_dist_coef cfg * 10,
       set_prev_move_pos_dist move_pos_dist st)
    else (- move_pos_dist * _move_pos_dist_coef cfg, st) in
  let move_ang_dist := v_move_ang_dist v in
  let '(ang_rew, st) :=
    if _diff_rew cfg then
      let offset := move_ang_dist - _prev_move_ang_dist st in
      (offset * _move_rot_dist_coef cfg * 10,
       set_prev_move_ang_dist move_ang_dist st)
    else ((move_ang_dist - 1) * _move_rot_dist_coef cfg, st) in
  let move_forward_ang_dist := v_move_forward_ang_dist v in
  let '(forward_ang_rew, st) :=
    if _diff_rew cfg then
      let offset := move_forward_ang_dist - _prev_move_forward_ang_dist st in
      (offset * _move_rot_dist_coef cfg * 10,
       set_prev_move_forward_ang_dist move_forward_ang_dist st)
    else ((move_forward_ang_dist - 1) * _move_rot_dist_coef cfg, st) in
  let rew := pos_rew + ang_rew + forward_ang_rew + touch_rew in
  (rew,
   [("touch_rew", VNum touch_rew);
    ("move_pos_dist", VNum move_pos_dist);
    ("move_pos_rew", VNum pos_rew);
    ("move_ang_dist", VNum move_ang_dist);
    ("move_ang_rew", VNum ang_rew);
    ("move_forward_ang_dist", VNum move_forward_ang_dist);
    ("move_forward_ang_rew", VNum forward_ang_rew);
    ("move_leg_succ",
     VBool (Qltb move_pos_dist (_move_pos_threshold cfg)
            && Qgtb move_ang_dist (_move_rot_threshold cfg)
            && Qgtb move_forward_ang_dist (_move_rot_threshold cfg)
            && leg_touched))],
   st).

(** Phase [move_leg_fine]; no dense reward once the parts are connected. *)
Definition _move_leg_fine_reward (ac : Action) (v : Values) (st : State)
  : Q * dict * State :=
  let info := [("connect_succ", VBool (_connected bk))] in
  if _connected bk then (0, info, st)
  else
    let touch_rew := 0 in
    let move_pos_dist := v_move_pos_dist v in
    let '(pos_rew, st) :=
      if _diff_rew cfg then
        let f := fun x => np_exp G (-25 * x) in
        let offset := f move_pos_dist - f (_prev_move_pos_dist st) in
        (offset * _move_fine_pos_dist_coef cfg * 10,
         set_prev_move_pos_dist move_pos_dist st)
      else (- move_pos_dist * _move_fine_pos_dist_coef cfg, st) in
    let move_ang_dist := v_move_ang_dist v in
    let '(ang_rew, st) :=
      if _diff_rew cfg then
        let f := fun x => np_exp G (-3 * (1 - x)) in
        let offset := f move_ang_dist - f (_prev_move_ang_dist st) in
        (offset * _move_fine_rot_dist_coef cfg * 10,
         set_prev_move_ang_dist move_ang_dist st)
      else ((move_ang_dist - 1) * _move_fine_rot_dist_coef cfg, st) in
    let move_forward_ang_dist := v_move_forward_ang_dist v in
    let '(forward_ang_rew, st) :=
      if _diff_rew cfg then
        let f := fun x => np_exp G (-3 * (1 - x)) in
        let offset := f move_forward_ang_dist - f (_prev_move_forward_ang_dist st) in
        (offset * _move_fine_rot_dist_coef cfg * 10,
         set_prev_move_forward_ang_dist move_forward_ang_dist st)
      else ((move_forward_ang_dist - 1) * _move_fine_rot_dist_coef cfg, st) in
    let proj_t := v_proj_table v in
    let proj_l := v_proj_leg v in
    let '(proj_t_rew, proj_l_rew, st) :=
      if _diff_rew cfg then
        let f := fun x => np_exp G (-3 * (1 - x)) in
        let offset := f proj_t - f (_prev_proj_t st) in
        let proj_t_rew := offset * _move_fine_rot_dist_coef cfg * 5 in
        let st := set_prev_proj_t proj_t st in
        let offset := f proj_l - f (_prev_proj_l st) in
        let proj_l_rew := offset * _move_fine_rot_dist_coef cfg * 5 in
        (proj_t_rew, proj_l_rew, set_prev_proj_l proj_l st)
      else ((proj_t - 1) * _move_fine_rot_dist_coef cfg / 10,
            (proj_l - 1) * _move_fine_rot_dist_coef cfg / 10, st) in
    let move_leg_fine_succ := _is_aligned bk (_leg_site st) (_table_site st) in
    let info :=
      ([("move_leg_fine_succ", VBool move_leg_fine_succ);
        ("proj_l_rew", VNum proj_l_rew); ("proj_l", VNum proj_l);
        ("proj_t_rew", VNum proj_t_rew); ("proj_t", VNum proj_t);
        ("move_fine_forward_ang_rew", VNum forward_ang_rew);
        ("move_fine_forward_ang_dist", VNum move_forward_ang_dist);
        ("move_fine_ang_rew", VNum ang_rew);
        ("move_fine_ang_dist", VNum move_ang_dist);
        ("move_fine_pos_rew", VNum pos_rew);
        ("move_fine_pos_dist", VNum move_pos_dist);
        ("touch_rew", VNum touch_rew)] ++ info)%list in
    let rew :=
      pos_rew + ang_rew + forward_ang_rew + touch_rew + proj_t_rew + proj_l_rew in
    if move_leg_fine_succ then
      let st := set_leg_fine_aligned (_leg_fine_aligned st + 1) st in
      let connect_rew := (ac_connect ac + 1) * _aligned_bonus_coef cfg in
      (rew + connect_rew, dict_set "connect_rew" (VNum connect_rew) info, st)
    else (rew, info, st).

(** *** The phase machine *)

(** Lines "detect early picking": contact with a stable grip before the
    grasp phase skips to [lift_leg]. *)
Definition detect_early_picking (v : Values) (sg_info : dict) (st : State)
  : Result State :=
  sg <- dict_flag "stable_grip_succ" sg_info ;;
  if v_leg_touched v && sg && Nat.ltb (_phase_i st) 2
  then Ok (set_phase_i 3 st)
  else Ok st.

(** Lines "detect early fine alignment without lifting or coarse
    alignment". *)
Definition detect_early_fine (v : Values) (st : State) : State :=
  if existsb (Nat.eqb (_phase_i st)) [3; 4]%nat then
    let move_pos_dist := v_move_pos_dist v in
    let move_ang_dist := v_move_ang_dist v in
    let move_forward_ang_dist := v_move_forward_ang_dist v in
    if Qltb move_pos_dist (_move_pos_threshold cfg)
       && Qgtb move_ang_dist (_move_rot_threshold cfg)
       && Qgtb move_forward_ang_dist (_move_rot_threshold cfg)
    then
      set_prev_proj_l (v_proj_leg v)
        (set_prev_proj_t (v_proj_table v)
          (set_prev_move_forward_ang_dist move_forward_ang_dist
            (set_prev_move_ang_dist move_ang_dist
              (set_prev_move_pos_dist move_pos_dist
                (set_phase_i 6 st)))))
    else st
  else st.

(** Lines "detect early alignment without lifting". *)
Definition detect_early_align (v : Values) (st : State) : State :=
  if Nat.eqb (_phase_i st) 3 then
    let move_above_pos_dist := v_move_above_pos_dist v in
    let move_ang_dist := v_move_ang_dist v in
    let move_forward_ang_dist := v_move_forward_ang_dist v in
    if Qgtb move_ang_dist (_align_rot_threshold cfg)
       && Qgtb move_forward_ang_dist (_align_rot_threshold cfg)
    then
      set_prev_move_forward_ang_dist move_forward_ang_dist
        (set_prev_move_ang_dist move_ang_dist
          (set_prev_move_pos_dist move_above_pos_dist
            (set_phase_i 5 st)))
    else st
  else st.

(** What the [if phase == ...] chain leaves behind: the state, the phase
    reward and info, [done] and [phase_bonus]. *)
Record Outcome := mkOutcome {
  o_state : State;
  o_phase_reward : Q;
  o_phase_info : dict;
  o_done : bool;
  o_phase_bonus : Q
}.

(** The chain [if phase == "move_eef_above_leg": ... else: ...], entered with
    [done = False] and [phase_bonus = 0]. *)
Definition phase_dispatch (phase : string) (ac : Action) (v : Values)
    (sg_info move_info : dict) (st : State) : Result Outcome :=
  let leg_touched := v_leg_touched v in
  let phase_bonus := 0 in
  let done := false in
  if String.eqb phase "move_eef_above_leg" then
    let '(phase_reward, phase_info, st) := _move_eef_above_leg_reward st in
    succ <- dict_flag (phase ++ "_succ") phase_info ;;
    sg <- dict_flag "stable_grip_succ" sg_info ;;
    if succ && sg then
      let st := set_phase_i (_phase_i st + 1) st in
      let phase_bonus := phase_bonus + _phase_bonus cfg in
      let eef_pos := _get_gripper_pos in
      let leg_pos := vadd (_get_leg_grasp_pos st) [0; 0; -0.015] in
      let xy_dist := norm G (vsub (firstn 2 eef_pos) (firstn 2 leg_pos)) in
      let z_dist := Qabs (idx eef_pos 2 - idx leg_pos 2) in
      let st := set_prev_eef_leg_dist (Qmin (xy_dist + z_dist) 0.3) st in
      Ok (mkOutcome st phase_reward phase_info done phase_bonus)
    else Ok (mkOutcome st phase_reward phase_info done phase_bonus)
  else if String.eqb phase "lower_eef_to_leg" then
    let '(phase_reward, phase_info, st) := _lower_eef_to_leg_reward st in
    succ <- dict_flag (phase ++ "_succ") phase_info ;;
    sg <- dict_flag "stable_grip_succ" sg_info ;;
    if succ && sg then
      let phase_bonus := phase_bonus + _phase_bonus cfg in
      let st := set_phase_i (_phase_i st + 1) st in
      Ok (mkOutcome st phase_reward phase_info done phase_bonus)
    else Ok (mkOutcome st phase_reward phase_info done phase_bonus)
  else if String.eqb phase "grasp_leg" then
    '(phase_reward, phase_info, st) <- _grasp_leg_reward ac v st ;;
    succ <- dict_flag "grasp_leg_succ" phase_info ;;
    sg <- dict_flag "stable_grip_succ" sg_info ;;
    if succ && sg then
      let st := set_phase_i (_phase_i st + 1) st in
      let phase_bonus := phase_bonus + _phase_bonus cfg in
      Ok (mkOutcome st phase_reward phase_info done phase_bonus)
    else Ok (mkOutcome st phase_reward phase_info done phase_bonus)
  else if String.eqb phase "lift_leg" then
    let '(phase_reward, phase_info, st) := _lift_leg_reward v st in
    if negb leg_touched then
      Ok (mkOutcome st phase_reward phase_info true
            (phase_bonus + - _phase_bonus cfg / 2))
    else
    displacement <- dict_q "table_displacement" move_info ;;
    if Qgtb displacement 0.1 then
      Ok (mkOutcome st phase_reward phase_info true
            (phase_bonus + - _phase_bonus cfg / 2))
    else
    succ <- dict_flag "lift_leg_succ" phase_info ;;
    if succ then
      let st := set_phase_i (_phase_i st + 1) st in
      let phase_bonus := phase_bonus + _phase_bonus cfg in
      let st := set_align_leg_pos (_get_pos bk (_leg st)) st in
      let st := set_prev_move_pos_dist 0 st in
      let st := set_prev_move_ang_dist (v_move_ang_dist v) st in
      let st := set_prev_move_forward_ang_dist (v_move_forward_ang_dist v) st in
      Ok (mkOutcome st phase_reward phase_info done phase_bonus)
    else Ok (mkOutcome st phase_reward phase_info done phase_bonus)
  else if String.eqb phase "align_leg" then
    let '(phase_reward, phase_info, st) := _align_leg_reward v st in
    if negb leg_touched then
      Ok (mkOutcome st phase_reward phase_info true
            (phase_bonus + - _phase_bonus cfg / 2))
    else
    displacement <- dict_q "table_displacement" move_info ;;
    if Qgtb displacement 0.1 then
      Ok (mkOutcome st phase_reward phase_info true
            (phase_bonus + - _phase_bonus cfg / 2))
    else
    succ <- dict_flag "align_leg_succ" phase_info ;;
    if succ then
      let st := set_phase_i (_phase_i st + 1) st in
      let phase_bonus := phase_bonus + _phase_bonus cfg in
      let st := set_prev_move_pos_dist (v_move_above_pos_dist v) st in
      Ok (mkOutcome st phase_reward phase_info done phase_bonus)
    else Ok (mkOutcome st phase_reward phase_info done phase_bonus)
  else if String.eqb phase "move_leg" then
    let '(phase_reward, phase_info, st) := _move_leg_reward v st in
    if negb leg_touched then
      Ok (mkOutcome st phase_reward phase_info true
            (phase_bonus + - _phase_bonus cfg / 2))
    else
    displacement <- dict_q "table_displacement" move_info ;;
    if Qgtb displacement 0.1 then
      Ok (mkOutcome st phase_reward phase_info true
            (phase_bonus + - _phase_bonus cfg / 2))
    else
    succ <- dict_flag "move_leg_succ" phase_info ;;
    if succ then
      let st := set_phase_i (_phase_i st + 1) st in
      let phase_bonus := phase_bonus + _phase_bonus cfg * 5 in
      let st := set_prev_move_pos_dist (v_move_pos_dist v) st in
      let st := set_prev_proj_t (v_proj_table v) st in
      let st := set_prev_proj_l (v_proj_leg v) st in
      Ok (mkOutcome st phase_reward phase_info done phase_bonus)
    else Ok (mkOutcome st phase_reward phase_info done phase_bonus)
  else if String.eqb phase "move_leg_fine" then
    let '(phase_reward, phase_info, st) := _move_leg_fine_reward ac v st in
    displacement <- dict_q "table_displacement" move_info ;;
    if Qgtb displacement 0.1 then
      Ok (mkOutcome st phase_reward phase_info true
            (phase_bonus + - _phase_bonus cfg / 2))
    else
    connect_succ <- dict_flag "connect_succ" phase_info ;;
    if connect_succ then
      let phase_bonus := phase_bonus + _phase_bonus cfg * 5 in
      (* discourage staying in aligned mode *)
      let phase_bonus :=
        phase_bonus - n2q (_leg_fine_aligned st) * _aligned_bonus_coef cfg in
      let st := set_phase_i 0 st in
      (* update reward variables for next attachment *)
      '(st, all_done) <- _set_next_subtask st ;;
      Ok (mkOutcome (set_success all_done st) phase_reward phase_info all_done
            phase_bonus)
    else if negb leg_touched then
      Ok (mkOutcome st phase_reward phase_info true
            (phase_bonus + - _phase_bonus cfg * 2))
    else Ok (mkOutcome st phase_reward phase_info done phase_bonus)
  else Ok (mkOutcome st 0 [] true phase_bonus).

(** Computes the multi-phase reward: the new state, and
    [(reward, done, info)]. *)
Definition _compute_reward (ac : Action) (st : State)
  : Result (State * (Q * bool * dict)) :=
  let reward := 0 in
  let info := super_info bk in
  (* clear the original success and done *)
  let st := set_success false st in
  let v := _collect_values st in
  '(ctrl_penalty, ctrl_info) <- _ctrl_penalty ac ;;
  let '(stable_grip_rew, sg_info) := _stable_grip_reward st in
  let '(move_other_part_penalty, move_info) := _move_other_part_penalty v in
  let leg_touched := v_leg_touched v in
  st <- detect_early_picking v sg_info st ;;
  let st := detect_early_fine v st in
  let st := detect_early_align v st in
  (* compute phase-based reward *)
  phase <- list_index _phases (_phase_i st) ;;
  let info :=
    dict_set "phase_i"
      (VIdx (_phase_i st + List.length _phases * _subtask_step st)) info in
  let info := dict_set "subtask" (VIdx (_subtask_step st)) info in
  let info := dict_set "touch" (VBool leg_touched) info in
  '(grip_penalty, grip_info) <- _gripper_penalty ac st ;;
  o <- phase_dispatch phase ac v sg_info move_info st ;;
  let st := o_state o in
  let reward :=
    reward + (ctrl_penalty + o_phase_reward o + stable_grip_rew) in
  let reward :=
    reward + (grip_penalty + o_phase_bonus o + move_other_part_penalty) in
  let info := dict_set "phase_bonus" (VNum (o_phase_bonus o)) info in
  let info :=
    dict_merge
      (dict_merge
        (dict_merge (dict_merge (dict_merge info ctrl_info) (o_phase_info o))
          sg_info)
        grip_info)
      move_info in
  (* log phase if last frame *)
  let info :=
    if Nat.eqb (S (_episode_length bk)) (max_episode_steps cfg) || o_done o
    then
      dict_set "phase"
        (VIdx (_phase_i st + List.length _phases * _subtask_step st)) info
    else info in
  Ok (st, (reward, o_done o, info)).

End Reward.

(** ** Notions used in the statements *)

Section Notions.

Variable G : Geometry.
Variable cfg : Config.
Variable bk : Backend.

(** The sensor values of a step, collected after [self._success] is
    cleared. *)
Definition values (st : State) : Values :=
  _collect_values G cfg bk (set_success false st).

(** [sg_info["stable_grip_succ"]] of a step. *)
Definition stable_grip_succ (st : State) : bool :=
  match dict_flag "stable_grip_succ"
          (snd (_stable_grip_reward G cfg bk (set_success false st))) with
  | Ok b => b
  | Raise _ => false
  end.

(** The state after the "detect early picking" check. *)
Definition after_picking (st : State) : State :=
  match detect_early_picking (values st)
          (snd (_stable_grip_reward G cfg bk (set_success false st)))
          (set_success false st) with
  | Ok s => s
  | Raise _ => set_success false st
  end.

(** The state in which the phase is dispatched: after the three skip
    checks. *)
Definition dispatch_state (st : State) : State :=
  detect_early_align cfg (values st)
    (detect_early_fine cfg (values st) (after_picking st)).

(** The variable [phase] of [_compute_reward]. *)
Definition current_phase (st : State) : Result string :=
  list_index _phases (_phase_i (dispatch_state st)).

(** Neither [assert rew <= 0] fires: the one of [_ctrl_penalty], and the one
    of [_gripper_penalty] in a phase that wants the gripper closed. *)
Definition assertions_hold (ac : Action) : Prop :=
  norm G (ac_arm ac) * - _ctrl_penalty_coef cfg <= 0 /\
  (ac_grip ac - 1) * _gripper_penalty_coef cfg <= 0.

(** [reward] and [info] as [_compute_reward] assembles them from the
    penalties and the outcome of the dispatch. *)
Definition total_reward (ctrl_penalty grip_penalty : Q) (st : State) (o : Outcome) : Q :=
  0 + (ctrl_penalty + o_phase_reward o
       + fst (_stable_grip_reward G cfg bk (set_success false st)))
  + (grip_penalty + o_phase_bonus o
     + fst (_move_other_part_penalty cfg (values st))).

Definition report (ctrl_info grip_info : dict) (st : State) (o : Outcome) : dict :=
  let ds := dispatch_state st in
  let info :=
    dict_set "phase_bonus" (VNum (o_phase_bonus o))
      (dict_set "touch" (VBool (v_leg_touched (values st)))
        (dict_set "subtask" (VIdx (_subtask_step ds))
          (dict_set "phase_i"
            (VIdx (_phase_i ds + List.length _phases * _subtask_step ds))
            (super_info bk)))) in
  let info :=
    dict_merge
      (dict_merge
        (dict_merge (dict_merge (dict_merge info ctrl_info) (o_phase_info o))
          (snd (_stable_grip_reward G cfg bk (set_success false st))))
        grip_info)
      (snd (_move_other_part_penalty cfg (values st))) in
  if Nat.eqb (S (_episode_length bk)) (max_episode_steps cfg) || o_done o
  then
    dict_set "phase"
      (VIdx (_phase_i (o_state o)
             + List.length _phases * _subtask_step (o_state o))) info
  else info.

End Notions.

(** The recipe describes subtask [k]: [_update_reward_variables] finds its
    parts and sites. *)
Definition subtask_defined (cfg : Config) (k : nat) : bool :=
  match nth_error (recipe cfg) k, nth_error (_site_recipe cfg) k with
  | Some (leg, table), Some _ =>
      match object_id cfg leg, object_id cfg table with
      | Ok _, Ok _ => true
      | _, _ => false
      end
  | _, _ => false
  end.

(** The episode driver: one call of [_compute_reward] per simulation step,
    each with the backend's answers at that step. *)
Fixpoint run (G : Geometry) (cfg : Config) (steps : list (Backend * Action))
    (st : State) : Result (State * list (Q * bool * dict)) :=
  match steps with
  | [] => Ok (st, [])
  | (bk, ac) :: rest =>
      '(st1, out) <- _compute_reward G cfg bk ac st ;;
      '(st2, outs) <- run G cfg rest st1 ;;
      Ok (st2, out :: outs)
  end.

(** States of an episode: a reset, then steps for as long as [done] is
    false.  The flag is the [done] of the step that produced the state. *)
Inductive reachable (G : Geometry) (cfg : Config) : State -> bool -> Prop :=
| reach_reset (bk : Backend) (st0 st : State) :
    _reset G cfg bk st0 = Ok st -> reachable G cfg st false
| reach_step (bk : Backend) (ac : Action) (st st' : State)
    (rew : Q) (done : bool) (info : dict) :
    reachable G cfg st false ->
    _compute_reward G cfg bk ac st = Ok (st', (rew, done, info)) ->
    reachable G cfg st' done.

(** Keys that [_compute_reward] itself writes into [info]. *)
Definition reserved_keys : list string :=
  ["phase_i"; "subtask"; "touch"; "phase_bonus"].

(** Keys of the dicts merged after [phase_info], and the key ["phase"]
    written last. *)
Definition later_keys : list string :=
  ["phase"; "stable_grip_succ"; "eef_up_grasp_dist"; "eef_up_grasp_rew";
   "eef_forward_grasp_dist"; "eef_forward_grasp_rew"; "gripper_penalty";
   "gripper_action"; "move_other_part_penalty"; "table_displacement"].

(** What the [info] of a step reports about the dispatch outcome [o]. *)
Definition reported (G : Geometry) (cfg : Config) (bk : Backend)
    (st : State) (o : Outcome) (info : dict) : Prop :=
  let ds := dispatch_state G cfg bk st in
  dict_get "phase_bonus" info = Some (VNum (o_phase_bonus o)) /\
  dict_get "phase_i" info
    = Some (VIdx (_phase_i ds + 7 * _subtask_step ds)) /\
  dict_get "subtask" info = Some (VIdx (_subtask_step ds)) /\
  dict_get "touch" info = Some (VBool (v_leg_touched (values G cfg bk st))) /\
  (forall k v, ~ In k later_keys ->
     dict_get k (o_phase_info o) = Some v -> dict_get k info = Some v).

(** The distances that the first two phases reward, as their reward
    functions measure them. *)
Definition eef_above_leg_dist (G : Geometry) (bk : Backend) (st : State) : Q :=
  let eef_pos := _get_pos bk "griptip_site" in
  let leg_pos := vset (_get_leg_grasp_pos bk st) 2 0.08 in
  norm G (vsub (firstn 2 eef_pos) (firstn 2 leg_pos))
  + Qabs (idx eef_pos 2 - idx leg_pos 2).

Definition eef_grasp_dist (G : Geometry) (bk : Backend) (st : State) : Q :=
  let eef_pos := _get_gripper_pos bk in
  let leg_pos := vadd (_get_leg_grasp_pos bk st) [0; 0; -0.015] in
  norm G (vsub (firstn 2 eef_pos) (firstn 2 leg_pos))
  + Qabs (idx eef_pos 2 - idx leg_pos 2).

(** In the words of the specification: "consecutive frames spent in a fully
    aligned state before connecting", the length of the run of aligned frames
    that ends at the connect event.  [frames] lists, oldest first, whether
    each frame before the connect event was aligned. *)
Fixpoint leading_run (l : list bool) : nat :=
  match l with
  | true :: l' => S (leading_run l')
  | _ => O
  end.

Definition consecutive_aligned_frames (frames : list bool) : nat :=
  leading_run (rev frames).

(** A position distance that its phase rewards, in differential mode, by the
    decrease since the previous step: the phase that rewards it, the keys of
    the distance and of its reward in [info], the attribute that holds the
    previous distance, and the coefficient. *)
Record Tracked := {
  t_phase : nat;
  t_dist_key : string;
  t_rew_key : string;
  t_prev : State -> Q;
  t_coef : Config -> Q
}.

Definition tracked_terms : list Tracked :=
  [ {| t_phase := 0; t_dist_key := "eef_above_leg_dist";
       t_rew_key := "eef_above_leg_rew";
       t_prev := _prev_eef_above_leg_dist; t_coef := _eef_pos_dist_coef |};
    {| t_phase := 1; t_dist_key := "eef_leg_dist";
       t_rew_key := "eef_leg_rew";
       t_prev := _prev_eef_leg_dist; t_coef := _lower_eef_pos_dist_coef |};
    {| t_phase := 2; t_dist_key := "eef_leg_dist";
       t_rew_key := "eef_leg_rew";
       t_prev := _prev_eef_leg_dist; t_coef := _lower_eef_pos_dist_coef |};
    {| t_phase := 4; t_dist_key := "align_pos_dist";
       t_rew_key := "align_pos_rew";
       t_prev := _prev_move_pos_dist; t_coef := _align_pos_dist_coef |};
    {| t_phase := 5; t_dist_key := "move_pos_dist";
       t_rew_key := "move_pos_rew";
       t_prev := _prev_move_pos_dist; t_coef := _move_pos_dist_coef |} ].

(** [info[key]] of one step's result, as a number. *)
Definition info_num (key : string) (out : Q * bool * dict) : Q :=
  match dict_num key (snd out) with
  | Some q => q
  | None => 0
  end.

Definition Qsum (l : list Q) : Q := fold_right Qplus 0 l.

(** The trajectory stays in phase [i]: every step starts in it and dispatches
    it, with an action for which the assertions hold. *)
Fixpoint stays_in (G : Geometry) (cfg : Config) (i : nat)
    (steps : list (Backend * Action)) (st : State) : Prop :=
  match steps with
  | [] => True
  | (bk, ac) :: rest =>
      _phase_i st = i /\
      _phase_i (dispatch_state G cfg bk st) = i /\
      assertions_hold G cfg ac /\
      match _compute_reward G cfg bk ac st with
      | Ok (st1, _) => stays_in G cfg i rest st1
      | Raise _ => False
      end
  end.

(** ** A concrete furniture, for examples

    Two legs to attach to one table top.  Every position difference that is
    measured lies on a coordinate axis, and so does every direction; there
    the Euclidean norm is the sum of the absolute values and the cosine
    similarity is the dot product over the product of the norms, so that
    [geometry] computes what numpy computes.  No measured vector is zero
    where a cosine is taken.  [np.exp] is only evaluated by the fine phase in
    differential mode, which no example enters. *)

Module Scenario.

Definition norm_axis (v : vec) : Q := fold_right (fun x acc => Qabs x + acc) 0 v.

Definition dot (a b : vec) : Q := fold_right Qplus 0 (vzip Qmult a b).

Definition cos_axis (a b : vec) : Q := dot a b / (norm_axis a * norm_axis b).

Definition geometry : Geometry :=
  {| norm := norm_axis; cos_siml := cos_axis; np_exp := fun _ => 1 |}.

Definition leg_site1 : string := "leg1-table,0,90,180,270,conn_site1".
Definition leg_site2 : string := "leg2-table,0,90,180,270,conn_site2".
Definition table_site1 : string := "table-leg,0,90,180,270,conn_site1".
Definition table_site2 : string := "table-leg,0,90,180,270,conn_site2".

Definition config (diff : bool) : Config :=
  {| _diff_rew := diff;
     _phase_bonus := 10;
     _ctrl_penalty_coef := 1;
     _pos_threshold := 0.015;
     _rot_threshold := 0.1;
     _eef_rot_dist_coef := 1;
     _eef_up_rot_dist_coef := 1;
     _eef_pos_dist_coef := 1;
     _lower_eef_pos_dist_coef := 1;
     _lift_dist_coef := 1;
     _grasp_dist_coef := 1;
     _gripper_penalty_coef := 1;
     _align_pos_dist_coef := 1;
     _align_rot_dist_coef := 1;
     _align_pos_threshold := 0.05;
     _align_rot_threshold := 0.9;
     _move_pos_dist_coef := 1;
     _move_rot_dist_coef := 1;
     _move_pos_threshold := 0.02;
     _move_rot_threshold := 0.95;
     _move_fine_rot_dist_coef := 1;
     _move_fine_pos_dist_coef := 1;
     _touch_coef := 1;
     _aligned_bonus_coef := 1;
     _move_other_part_penalty_coef := 1;
     recipe := [("leg1", "table_top"); ("leg2", "table_top")];
     grip_site_recipe := None;
     z_finedist := 0.05;
     _site_recipe :=
       [ {| se_leg_site := leg_site1; se_table_site := table_site1;
            se_angle := Some 90 |};
         {| se_leg_site := leg_site2; se_table_site := table_site2;
            se_angle := None |} ];
     _object_name2id := [("leg1", 0%nat); ("leg2", 1%nat); ("table_top", 2%nat)];
     _success_num_conn := 2;
     _preassembled := 0;
     max_episode_steps := 100 |}.

(** The attributes before the first reset; no gripper baseline is assigned
    yet. *)
Definition blank : State :=
  mkState 0 0 false "" "" "" "" None 0 0 false false [] [] [] 0 [] ("", "")
    0 None 0 0 0 [] 0 0 0 0 0.

(** What the simulator shows at one step. *)
Record Scene := {
  sc_touch : bool;          (* both fingers touch the leg *)
  sc_stable : bool;         (* the gripper points down *)
  sc_upright : bool;        (* the leg's up vector is the table's *)
  sc_griptip_z : Q;
  sc_leg_z : Q;
  sc_leg_site_z : Q;
  sc_table_site_z : Q;
  sc_aligned : bool;        (* self._is_aligned(...) *)
  sc_connected : bool;      (* self._connected *)
  sc_step : nat             (* self._episode_length *)
}.

Definition is_leg_site (name : string) : bool :=
  String.eqb name leg_site1 || String.eqb name leg_site2.

Definition backend (s : Scene) : Backend :=
  {| _get_pos := fun name =>
       if String.eqb name "griptip_site" then [0; 0; sc_griptip_z s]
       else if String.eqb name "grip_site" then [0; 0; sc_griptip_z s + 0.1]
       else if String.eqb name "leg1_ltgt_site0" || String.eqb name "leg2_ltgt_site0"
       then [-0.02; 0; sc_leg_z s]
       else if String.eqb name "leg1_rtgt_site0" || String.eqb name "leg2_rtgt_site0"
       then [0.02; 0; sc_leg_z s]
       else if String.eqb name "leg1" || String.eqb name "leg2"
       then [0; 0; sc_leg_z s]
       else if is_leg_site name then [0; 0; sc_leg_site_z s]
       else [0; 0; sc_table_site_z s];
     _get_up_vector := fun name =>
       if String.eqb name "grip_site"
       then (if sc_stable s then [0; 0; -1] else [0; 1; 0])
       else if is_leg_site name
       then (if sc_upright s then [0; 0; 1] else [0; 1; 0])
       else [0; 0; 1];
     _get_forward_vector := fun _ => [1; 0; 0];
     _finger_contact := fun _ => (sc_touch s, sc_touch s);
     _project_connector_forward := fun _ _ _ => [1; 0; 0];
     _is_aligned := fun _ _ => sc_aligned s;
     _connected := sc_connected s;
     _episode_length := sc_step s;
     super_info := [] |}.

(** An action that moves nothing and holds the gripper closed. *)
Definition hold : Action := {| ac_arm := [0; 0; 0; 0; 0; 0]; ac_grip := 1; ac_connect := 0 |}.

(** The gripper hangs 8 cm above the floor over the lying leg; the table
    site is one metre up. *)
Definition at_rest : Scene :=
  {| sc_touch := false; sc_stable := true; sc_upright := false;
     sc_griptip_z := 0.08; sc_leg_z := 0.02; sc_leg_site_z := 0.02;
     sc_table_site_z := 1; sc_aligned := false; sc_connected := false;
     sc_step := 0 |}.

(** The gripper lowered onto the grasp point. *)
Definition lowered : Scene :=
  {| sc_touch := false; sc_stable := true; sc_upright := false;
     sc_griptip_z := 0.005; sc_leg_z := 0.02; sc_leg_site_z := 0.02;
     sc_table_site_z := 1; sc_aligned := false; sc_connected := false;
     sc_step := 1 |}.

(** Both fingers touch the leg but the gripper lies on its side. *)
Definition touched_unstable : Scene :=
  {| sc_touch := true; sc_stable := false; sc_upright := false;
     sc_griptip_z := 0.005; sc_leg_z := 0.02; sc_leg_site_z := 0.02;
     sc_table_site_z := 1; sc_aligned := false; sc_connected := false;
     sc_step := 2 |}.

(** The leg stands upright under the table site and is held firmly. *)
Definition held_upright : Scene :=
  {| sc_touch := true; sc_stable := true; sc_upright := true;
     sc_griptip_z := 0.08; sc_leg_z := 0.02; sc_leg_site_z := 0.02;
     sc_table_site_z := 1; sc_aligned := false; sc_connected := false;
     sc_step := 0 |}.

(** Both fingers touch the lying leg with a stable grip. *)
Definition gripped : Scene :=
  {| sc_touch := true; sc_stable := true; sc_upright := false;
     sc_griptip_z := 0.005; sc_leg_z := 0.02; sc_leg_site_z := 0.02;
     sc_table_site_z := 1; sc_aligned := false; sc_connected := false;
     sc_step := 0 |}.

(** The gripper hovers at height [z] over the lying leg. *)
Definition hovering (z : Q) (n : nat) : Scene :=
  {| sc_touch := false; sc_stable := true; sc_upright := false;
     sc_griptip_z := z; sc_leg_z := 0.02; sc_leg_site_z := 0.02;
     sc_table_site_z := 1; sc_aligned := false; sc_connected := false;
     sc_step := n |}.

(** The gripped leg hangs at the lift target while the table site is 0.2
    away from where it was at the reset. *)
Definition lifted_table_moved : Scene :=
  {| sc_touch := true; sc_stable := true; sc_upright := false;
     sc_griptip_z := 0.205; sc_leg_z := 0.22; sc_leg_site_z := 0.22;
     sc_table_site_z := 1.2; sc_aligned := false; sc_connected := false;
     sc_step := 1 |}.

(** The held upright leg has its site at the point above the table site. *)
Definition above_site : Scene :=
  {| sc_touch := true; sc_stable := true; sc_upright := true;
     sc_griptip_z := 1.1; sc_leg_z := 1.1; sc_leg_site_z := 1.05;
     sc_table_site_z := 1; sc_aligned := false; sc_connected := false;
     sc_step := 1 |}.

(** The held upright leg has its site 1 cm under the table site, which is at
    height [table_z]. *)
Definition at_site (aligned connected : bool) (table_z : Q) (n : nat) : Scene :=
  {| sc_touch := true; sc_stable := true; sc_upright := true;
     sc_griptip_z := table_z - 0.1; sc_leg_z := table_z - 0.1;
     sc_leg_site_z := table_z - 0.01;
     sc_table_site_z := table_z; sc_aligned := aligned;
     sc_connected := connected; sc_step := n |}.

(** The state after a reset in the scene [at_rest]. *)
Definition start (diff : bool) : Result State :=
  _reset geometry (config diff) (backend at_rest) blank.

(** An episode: a reset in [at_rest], then the given scenes with the action
    [hold]. *)
Definition episode (diff : bool) (scenes : list Scene)
  : Result (State * list (Q * bool * dict)) :=
  st <- start diff ;;
  run geometry (config diff) (map (fun s => (backend s, hold)) scenes) st.

End Scenario.

(** The keys under which the phase rewards log their terms. *)
Definition phase_reward_terms : list string :=
  ["eef_above_leg_rew"; "eef_leg_rew"; "grasp_leg_rew"; "touch_rew";
   "lift_leg_rew";
   "align_pos_rew"; "align_ang_rew"; "align_forward_ang_rew";
   "move_pos_rew"; "move_ang_rew"; "move_forward_ang_rew";
   "move_fine_pos_rew"; "move_fine_ang_rew"; "move_fine_forward_ang_rew";
   "proj_t_rew"; "proj_l_rew"; "connect_rew"].

(** The keys under which the terms of the reward are logged: the penalties,
    the phase bonus, the two stable-grip terms and the terms of the phase
    rewards. *)
Definition reward_terms : list string :=
  ["ctrl_penalty"; "gripper_penalty"; "phase_bonus"; "move_other_part_penalty";
   "eef_up_grasp_rew"; "eef_forward_grasp_rew"] ++ phase_reward_terms.

(** The sum of the numbers that [d] holds under [keys]; a key that [d] does
    not hold counts 0. *)
Definition dict_total (keys : list string) (d : dict) : Q :=
  Qsum (map (fun k => match dict_num k d with Some q => q | None => 0 end) keys).

(** What the phase reward functions return: the reward is the sum of the
    terms in the info, and the info holds none of the keys of the other
    terms. *)
Definition phase_info_ok (r : Q) (d : dict) : Prop :=
  r == dict_total phase_reward_terms d /\
  dict_get "ctrl_penalty" d = None /\
  dict_get "eef_up_grasp_rew" d = None /\
  dict_get "eef_forward_grasp_rew" d = None.

(** Two states hold the same subtask: the variables that
    [_update_reward_variables] assigns in both reward modes. *)
Definition same_subtask_variables (s t : State) : Prop :=
  _phase_i s = _phase_i t /\
  _subtask_step s = _subtask_step t /\
  _leg s = _leg t /\ _table s = _table t /\
  _leg_site s = _leg_site t /\ _table_site s = _table_site t /\
  _table_leg_angle s = _table_leg_angle t /\
  _subtask_part1 s = _subtask_part1 t /\
  _subtask_part2 s = _subtask_part2 t /\
  _leg_touched s = _leg_touched t /\ _leg_lift s = _leg_lift t /\
  _init_table_site_pos s = _init_table_site_pos t /\
  _init_lift_leg_pos s = _init_lift_leg_pos t /\
  _lift_leg_pos s = _lift_leg_pos t /\
  _leg_fine_aligned s = _leg_fine_aligned t /\
  _leg_allowed_angles s = _leg_allowed_angles t /\
  _grasp_sites s = _grasp_sites t.

(** The baselines that [_update_reward_variables] seeds in differential
    mode. *)
Definition same_seeded_baselines (s t : State) : Prop :=
  _prev_eef_above_leg_dist s = _prev_eef_above_leg_dist t /\
  _prev_grasp_dist s = _prev_grasp_dist t /\
  _prev_lift_leg_z_dist s = _prev_lift_leg_z_dist t /\
  _prev_lift_leg_xy_dist s = _prev_lift_leg_xy_dist t.

(** The baselines that [_update_reward_variables] leaves as they are. *)
Definition same_carried_baselines (s t : State) : Prop :=
  _prev_eef_leg_dist s = _prev_eef_leg_dist t /\
  _align_leg_pos s = _align_leg_pos t /\
  _prev_move_pos_dist s = _prev_move_pos_dist t /\
  _prev_move_ang_dist s = _prev_move_ang_dist t /\
  _prev_move_forward_ang_dist s = _prev_move_forward_ang_dist t /\
  _prev_proj_t s = _prev_proj_t t /\
  _prev_proj_l s = _prev_proj_l t.

(** A measurement that its phase rewards, in differential mode, by the
    increase of a potential since the previous step: the phase, the keys of
    the measurement and of its reward in [info], the attribute that holds
    the previous measurement, the potential and the scale of the reward. *)
Record Potential := {
  p_phase : nat;
  p_val_key : string;
  p_rew_key : string;
  p_prev : State -> Q;
  p_shape : Geometry -> Q -> Q;
  p_scale : Config -> Q
}.

(** The gripper baseline of an instance that has one; 0 stands in where the
    attribute is not assigned, from where no step of grasp_leg returns. *)
Definition assigned_grasp_dist (s : State) : Q :=
  match _prev_grasp_dist s with
  | Some g => g
  | None => 0
  end.

(** The angular similarities of align_leg and move_leg enter as they are;
    the measurements of move_leg_fine enter through [np.exp]; the gripper
    action of grasp_leg enters as it is. *)
Definition potential_terms : list Potential :=
  [ {| p_phase := 2; p_val_key := "gripper_action";
       p_rew_key := "grasp_leg_rew"; p_prev := assigned_grasp_dist;
       p_shape := fun _ x => x;
       p_scale := fun cfg => _grasp_dist_coef cfg |};
    {| p_phase := 4; p_val_key := "align_ang_dist";
       p_rew_key := "align_ang_rew"; p_prev := _prev_move_ang_dist;
       p_shape := fun _ x => x;
       p_scale := fun cfg => _align_rot_dist_coef cfg * 10 |};
    {| p_phase := 4; p_val_key := "align_forward_ang_dist";
       p_rew_key := "align_forward_ang_rew";
       p_prev := _prev_move_forward_ang_dist;
       p_shape := fun _ x => x;
       p_scale := fun cfg => _align_rot_dist_coef cfg * 10 |};
    {| p_phase := 5; p_val_key := "move_ang_dist";
       p_rew_key := "move_ang_rew"; p_prev := _prev_move_ang_dist;
       p_shape := fun _ x => x;
       p_scale := fun cfg => _move_rot_dist_coef cfg * 10 |};
    {| p_phase := 5; p_val_key := "move_forward_ang_dist";
       p_rew_key := "move_forward_ang_rew";
       p_prev := _prev_move_forward_ang_dist;
       p_shape := fun _ x => x;
       p_scale := fun cfg => _move_rot_dist_coef cfg * 10 |};
    {| p_phase := 6; p_val_key := "move_fine_pos_dist";
       p_rew_key := "move_fine_pos_rew"; p_prev := _prev_move_pos_dist;
       p_shape := fun G x => np_exp G (-25 * x);
       p_scale := fun cfg => _move_fine_pos_dist_coef cfg * 10 |};
    {| p_phase := 6; p_val_key := "move_fine_ang_dist";
       p_rew_key := "move_fine_ang_rew"; p_prev := _prev_move_ang_dist;
       p_shape := fun G x => np_exp G (-3 * (1 - x));
       p_scale := fun cfg => _move_fine_rot_dist_coef cfg * 10 |};
    {| p_phase := 6; p_val_key := "move_fine_forward_ang_dist";
       p_rew_key := "move_fine_forward_ang_rew";
       p_prev := _prev_move_forward_ang_dist;
       p_shape := fun G x => np_exp G (-3 * (1 - x));
       p_scale := fun cfg => _move_fine_rot_dist_coef cfg * 10 |};
    {| p_phase := 6; p_val_key := "proj_t";
       p_rew_key := "proj_t_rew"; p_prev := _prev_proj_t;
       p_shape := fun G x => np_exp G (-3 * (1 - x));
       p_scale := fun cfg => _move_fine_rot_dist_coef cfg * 5 |};
    {| p_phase := 6; p_val_key := "proj_l";
       p_rew_key := "proj_l_rew"; p_prev := _prev_proj_l;
       p_shape := fun G x => np_exp G (-3 * (1 - x));
       p_scale := fun cfg => _move_fine_rot_dist_coef cfg * 5 |} ].

(** No step of the trajectory sees the parts connected. *)
Definition never_connected (steps : list (Backend * Action)) : Prop :=
  Forall (fun step => _connected (fst step) = false) steps.

(** [",".join(fields)] *)
Fixpoint join_comma (fields : list string) : string :=
  match fields with
  | [] => EmptyString
  | [a] => a
  | a :: rest => a ++ String ","%char (join_comma rest)
  end.

(** The string holds no comma. *)
Fixpoint no_comma (s : string) : bool :=
  match s with
  | EmptyString => true
  | String c s' => negb (Ascii.eqb c ","%char) && no_comma s'
  end.

(** ** Further examples *)

Module Scenario2.

(** An action that moves nothing and opens the gripper. *)
Definition release : Action :=
  {| ac_arm := [0; 0; 0; 0; 0; 0]; ac_grip := -1; ac_connect := 0 |}.

(** The example furniture with a third connection to make that the recipe
    does not describe. *)
Definition config_three (diff : bool) : Config :=
  let c := Scenario.config diff in
  {| _diff_rew := _diff_rew c;
     _phase_bonus := _phase_bonus c;
     _ctrl_penalty_coef := _ctrl_penalty_coef c;
     _pos_threshold := _pos_threshold c;
     _rot_threshold := _rot_threshold c;
     _eef_rot_dist_coef := _eef_rot_dist_coef c;
     _eef_up_rot_dist_coef := _eef_up_rot_dist_coef c;
     _eef_pos_dist_coef := _eef_pos_dist_coef c;
     _lower_eef_pos_dist_coef := _lower_eef_pos_dist_coef c;
     _lift_dist_coef := _lift_dist_coef c;
     _grasp_dist_coef := _grasp_dist_coef c;
     _gripper_penalty_coef := _gripper_penalty_coef c;
     _align_pos_dist_coef := _align_pos_dist_coef c;
     _align_rot_dist_coef := _align_rot_dist_coef c;
     _align_pos_threshold := _align_pos_threshold c;
     _align_rot_threshold := _align_rot_threshold c;
     _move_pos_dist_coef := _move_pos_dist_coef c;
     _move_rot_dist_coef := _move_rot_dist_coef c;
     _move_pos_threshold := _move_pos_threshold c;
     _move_rot_threshold := _move_rot_threshold c;
     _move_fine_rot_dist_coef := _move_fine_rot_dist_coef c;
     _move_fine_pos_dist_coef := _move_fine_pos_dist_coef c;
     _touch_coef := _touch_coef c;
     _aligned_bonus_coef := _aligned_bonus_coef c;
     _move_other_part_penalty_coef := _move_other_part_penalty_coef c;
     recipe := recipe c;
     grip_site_recipe := grip_site_recipe c;
     z_finedist := z_finedist c;
     _site_recipe := _site_recipe c;
     _object_name2id := _object_name2id c;
     _success_num_conn := 3;
     _preassembled := _preassembled c;
     max_episode_steps := max_episode_steps c |}.

End Scenario2.

(** * Insertion-ordered dicts

    The dicts of the utilities below are iterated over, so the order of the
    keys matters: they are association lists with distinct keys, in the
    order of insertion. *)

(** [d[k]] *)
Fixpoint lookup {A} (k : string) (d : list (string * A)) : option A :=
  match d with
  | [] => None
  | (k', v) :: d' => if String.eqb k k' then Some v else lookup k d'
  end.

(** [d[k] = v]: replaces the value of a key that is there, appends a new
    key. *)
Fixpoint assign {A} (k : string) (v : A) (d : list (string * A))
  : list (string * A) :=
  match d with
  | [] => [(k, v)]
  | (k', v') :: d' =>
      if String.eqb k k' then (k, v) :: d' else (k', v') :: assign k v d'
  end.

(** [d.pop(k)] on a copy. *)
Fixpoint pop {A} (k : string) (d : list (string * A))
  : option (list (string * A)) :=
  match d with
  | [] => None
  | (k', v) :: d' =>
      if String.eqb k k' then Some d'
      else match pop k d' with
           | Some d'' => Some ((k', v) :: d'')
           | None => None
           end
  end.

(** * Placement of the furniture parts

    A shallow embedding of [UniformRandomSampler] of
    [furniture/env/models/tasks/placement_sampler.py].

    - [self.rng] is a numpy random state: its successive draws from [0, 1)
      are the stream [u], the state of the generator is the index of the
      next draw, and [rng.uniform(low, high)] is
      [low + (high - low) * u n] as in numpy.
    - A quaternion is a vector; [T.euler_to_quat] is not part of this
      repository's sources and is a parameter.
    - [self.mujoco_objects] is the list of the parts' names with their
      horizontal radius, in the order of the dict.
    - The loop [for i in range(10000)] is a recursion on the number of
      attempts left. *)

Module Placement.

Record Qpos := mkQpos { x : Q; y : Q; z : Q; quat : vec }.

(** An entry of [placed_objects]: name, horizontal radius, position. *)
Definition PlacedObject : Type := string * Q * Qpos.

Inductive SampleResult (A : Type) :=
| Sampled (a : A)
| Throw (e : PyError)
| RandomizationError.

Arguments Sampled {A} a.
Arguments Throw {A} e.
Arguments RandomizationError {A}.

Definition sbind {A B} (r : SampleResult A) (k : A -> SampleResult B)
  : SampleResult B :=
  match r with
  | Sampled a => k a
  | Throw e => Throw e
  | RandomizationError => RandomizationError
  end.

(** The argument [r_rot] of the constructor. *)
Inductive RRot :=
| RotNone
| RotValue (r : Q)
| RotRange (a b : Q).

(** The attributes of the sampler. *)
Record Sampler := mkSampler {
  x_range : option (Q * Q);
  y_range : option (Q * Q);
  rot_range : option (Q * Q);
  _use_xml_init : bool;
  init_qpos : option (list (string * Qpos));
  mujoco_objects : list (string * Q);
  table_top_offset : Q;
  table_size : vec
}.

(** [__init__]; the attributes that [setup] assigns are not there yet. *)
Definition init (r_xyz : Q) (r_rot : RRot) (use_xml_init : bool)
    (init_qpos : option (list (string * Qpos))) : Sampler :=
  {| x_range := Some (- r_xyz, r_xyz);
     y_range := Some (- r_xyz, r_xyz);
     rot_range :=
       match r_rot with
       | RotValue r => Some (- r, r)
       | RotRange a b => Some (a, b)
       | RotNone => None
       end;
     _use_xml_init := use_xml_init;
     init_qpos := init_qpos;
     mujoco_objects := [];
     table_top_offset := 0;
     table_size := [] |}.

Definition set_ranges (xr yr : option (Q * Q)) (s : Sampler) : Sampler :=
  mkSampler xr yr (rot_range s) (_use_xml_init s) (init_qpos s)
    (mujoco_objects s) (table_top_offset s) (table_size s).

Definition set_init_qpos (q : list (string * Qpos)) (s : Sampler) : Sampler :=
  mkSampler (x_range s) (y_range s) (rot_range s) (_use_xml_init s) (Some q)
    (mujoco_objects s) (table_top_offset s) (table_size s).

Section Sampling.

Variable G : Geometry.
Variable euler_to_quat : vec -> vec -> vec.
Variable u : nat -> Q.

(** [self.rng.uniform(high=high, low=low)] with the generator at draw [n]. *)
Definition uniform (low high : Q) (n : nat) : Q * nat :=
  (low + (high - low) * u n, S n).

Definition sample_x (s : Sampler) (obj_r : Q) (n : nat) : Q * nat :=
  let '(a, b) :=
    match x_range s with
    | Some r => r
    | None => (- idx (table_size s) 0 / 2, idx (table_size s) 0 / 2)
    end in
  let minimum := Qmin a b in
  let maximum := Qmax a b in
  uniform minimum maximum n.

Definition sample_y (s : Sampler) (obj_r : Q) (n : nat) : Q * nat :=
  let '(a, b) :=
    match y_range s with
    | Some r => r
    | None => (- idx (table_size s) 0 / 2, idx (table_size s) 0 / 2)
    end in
  let minimum := Qmin a b in
  let maximum := Qmax a b in
  uniform minimum maximum n.

Definition sample_quat (s : Sampler) (quaternion : vec) (n : nat)
  : SampleResult (vec * nat) :=
  match rot_range s with
  | None => Throw TypeError
  | Some (a, b) =>
      let minimum := Qmin a b in
      let maximum := Qmax a b in
      let '(xy_noise, n) := uniform maximum maximum n in
      let yz_noise := 0 in
      let xz_noise := 0 in
      let euler_noise := [xy_noise; yz_noise; xz_noise] in
      Sampled (euler_to_quat euler_noise quaternion, n)
  end.

(** [self.init_qpos[obj_name]] *)
Definition init_of (s : Sampler) (obj_name : string) : SampleResult Qpos :=
  match init_qpos s with
  | None => Throw TypeError
  | Some d =>
      match lookup obj_name d with
      | Some q => Sampled q
      | None => Throw KeyError
      end
  end.

(** The test of the loop over [placed_objects]: the candidate overlaps the
    placed object. *)
Definition overlaps (obj_x obj_y obj_r : Q) (po : PlacedObject) : bool :=
  let '(_, po_r, qpos) := po in
  Qle_bool (norm G [obj_x - x qpos; obj_y - y qpos]) (po_r + obj_r).

(** The loop [for i in range(10000)] with [attempts] iterations left: the
    placed object and the state of the generator. *)
Fixpoint place (attempts : nat) (s : Sampler) (obj_name : string) (obj_r : Q)
    (placed_objects : list PlacedObject) (n : nat)
  : SampleResult (PlacedObject * nat) :=
  match attempts with
  | O => RandomizationError
  | S attempts' =>
      sbind (init_of s obj_name) (fun q =>
      let '(dx, n) := sample_x s obj_r n in
      let obj_x := x q + dx in
      let '(dy, n) := sample_y s obj_r n in
      let obj_y := y q + dy in
      let obj_z := z q + 0.01 in
      let location_valid := negb (existsb (overlaps obj_x obj_y obj_r) placed_objects) in
      if location_valid then
        let pos := map (Qplus (table_top_offset s)) [obj_x; obj_y; obj_z] in
        sbind (sample_quat s (quat q) n) (fun '(qt, n) =>
        Sampled ((obj_name, obj_r, mkQpos (idx pos 0) (idx pos 1) (idx pos 2) qt), n))
      else place attempts' s obj_name obj_r placed_objects n)
  end.

(** The loop over [objects]: the list [placed_objects] and the two dicts at
    the end. *)
Fixpoint place_all (s : Sampler) (objects : list (string * Q))
    (placed_objects : list PlacedObject)
    (pos_arr quat_arr : list (string * vec)) (n : nat)
  : SampleResult (list PlacedObject * list (string * vec) * list (string * vec)
                  * nat) :=
  match objects with
  | [] => Sampled (placed_objects, pos_arr, quat_arr, n)
  | (obj_name, obj_r) :: rest =>
      sbind (place (100 * 100) s obj_name obj_r placed_objects n)
        (fun '(po, n) =>
         let qpos := snd po in
         place_all s rest (placed_objects ++ [po])
           (assign obj_name [x qpos; y qpos; z qpos] pos_arr)
           (assign obj_name (quat qpos) quat_arr) n)
  end.

(** The loop [for part in placed_objects] that [sample] runs when it is
    called without [objects]. *)
Fixpoint take_preset (s : Sampler) (parts : list PlacedObject)
    (objects : list (string * Q)) (pos_arr quat_arr : list (string * vec))
  : SampleResult (list (string * Q) * list (string * vec) * list (string * vec)) :=
  match parts with
  | [] => Sampled (objects, pos_arr, quat_arr)
  | (name, _, qpos) :: rest =>
      match pop name objects with
      | None => Throw KeyError
      | Some objects =>
          take_preset s rest objects
            (assign name
               (map (Qplus (table_top_offset s)) [x qpos; y qpos; z qpos])
               pos_arr)
            (assign name (quat qpos) quat_arr)
      end
  end.

Definition sample (s : Sampler) (objects : option (list (string * Q)))
    (placed_objects_orig : option (list PlacedObject)) (n : nat)
  : SampleResult (list (string * vec) * list (string * vec) * nat) :=
  let placed_objects :=
    match placed_objects_orig with
    | None => []
    | Some l => l
    end in
  sbind
    (match objects with
     | None => take_preset s placed_objects (mujoco_objects s) [] []
     | Some objects => Sampled (objects, [], [])
     end)
    (fun '(objects, pos_arr, quat_arr) =>
     sbind (place_all s objects placed_objects pos_arr quat_arr n)
       (fun '(_, pos_arr, quat_arr, n) => Sampled (pos_arr, quat_arr, n))).

(** The loop of [setup] over the objects: the entries added to
    [init_qpos], the preset objects and the remaining ones. *)
Fixpoint split_objects (use_xml_init : bool) (objects : list (string * Q))
    (init_qpos : list (string * Qpos)) (preset_objects : list PlacedObject)
    (remaining_objects : list (string * Q))
  : SampleResult
      (list (string * Qpos) * list PlacedObject * list (string * Q)) :=
  match objects with
  | [] => Sampled (init_qpos, preset_objects, remaining_objects)
  | (obj_name, r) :: rest =>
      match lookup obj_name init_qpos with
      | None =>
          split_objects use_xml_init rest
            (assign obj_name (mkQpos 0 0 0 [1; 0; 0; 0]) init_qpos)
            preset_objects remaining_objects
      | Some q =>
          if use_xml_init then
            match pop obj_name remaining_objects with
            | Some remaining_objects =>
                split_objects use_xml_init rest init_qpos
                  (preset_objects ++ [(obj_name, r, q)]) remaining_objects
            | None => Throw KeyError
            end
          else
            split_objects use_xml_init rest init_qpos preset_objects
              remaining_objects
      end
  end.

(** The loop of [setup] that stores the sampled positions. *)
Fixpoint store_sampled (names : list string)
    (remaining_xpos remaining_quat : list (string * vec))
    (init_qpos : list (string * Qpos)) : SampleResult (list (string * Qpos)) :=
  match names with
  | [] => Sampled init_qpos
  | obj_name :: rest =>
      match lookup obj_name remaining_xpos, lookup obj_name remaining_quat with
      | Some xpos, Some qt =>
          store_sampled rest remaining_xpos remaining_quat
            (assign obj_name
               (mkQpos (idx xpos 0) (idx xpos 1) (idx xpos 2)
                  [idx qt 0; idx qt 1; idx qt 2; idx qt 3])
               init_qpos)
      | _, _ => Throw KeyError
      end
  end.

Definition setup (s : Sampler) (mujoco_objects : list (string * Q))
    (table_top_offset : Q) (table_size : vec) (n : nat)
  : SampleResult (Sampler * nat) :=
  let s :=
    mkSampler (x_range s) (y_range s) (rot_range s) (_use_xml_init s)
      (Some match init_qpos s with
            | None => []
            | Some d => d
            end)
      mujoco_objects 0 table_size in
  let init0 := match init_qpos s with Some d => d | None => [] end in
  sbind (split_objects (_use_xml_init s) mujoco_objects init0 [] mujoco_objects)
    (fun '(init1, preset_objects, remaining_objects) =>
     let s := set_init_qpos init1 s in
     if Nat.ltb 0 (List.length remaining_objects) then
       let spec_x_range := x_range s in
       let spec_y_range := y_range s in
       let s := set_ranges None None s in
       sbind (sample s (Some remaining_objects) (Some preset_objects) n)
         (fun '(remaining_xpos, remaining_quat, n) =>
          sbind (store_sampled (map fst remaining_xpos) remaining_xpos
                   remaining_quat init1)
            (fun init2 =>
             Sampled (set_ranges spec_x_range spec_y_range
                        (set_init_qpos init2 s), n)))
     else Sampled (s, n)).

(** Two placed objects are apart by more than the sum of their radii, as
    [sample] measures it: the later one from the earlier one. *)
Definition separated (p q : PlacedObject) : Prop :=
  snd (fst p) + snd (fst q)
  < norm G [x (snd q) - x (snd p); y (snd q) - y (snd p)].

(** Candidate [i] of the attempts that start with the generator at draw
    [n]: every attempt draws twice. *)
Definition candidate (s : Sampler) (q : Qpos) (obj_r : Q) (n i : nat) : Q * Q :=
  (x q + fst (sample_x s obj_r (n + 2 * i)),
   y q + fst (sample_y s obj_r (n + 2 * i + 1))).

Definition rejected (s : Sampler) (q : Qpos) (obj_r : Q)
    (placed_objects : list PlacedObject) (n i : nat) : bool :=
  let '(obj_x, obj_y) := candidate s q obj_r n i in
  existsb (overlaps obj_x obj_y obj_r) placed_objects.

End Sampling.

End Placement.

(** ** A concrete placement, for examples

    Two legs of radius 0.1 to place within 1 of the centre of the table.
    The candidates differ along one axis, where the sum of the absolute
    values is the Euclidean norm. *)

Module PlacementScenario.

Import Placement.

Definition origin : Qpos := mkQpos 0 0 0 [1; 0; 0; 0].

(** The rotation leaves the quaternion as it is. *)
Definition euler_to_quat (euler_noise quaternion : vec) : vec := quaternion.

(** The draws of the generator: the first leg goes to the centre; the
    second one is tried at the centre, then 0.8 to its right. *)
Definition draws (n : nat) : Q :=
  nth n [0.5; 0.5; 0; 0.5; 0.5; 0.9; 0.5; 0] 0.5.

(** A generator that always draws 0.5. *)
Definition stuck (n : nat) : Q := 0.5.

Definition legs : list (string * Q) := [("leg1", 0.1); ("leg2", 0.1)].

Definition sampler : Sampler :=
  init 1 (RotValue 0) true (Some [("leg1", origin); ("leg2", origin)]).

(** A table top of radius 5 lying at the centre. *)
Definition table_top : PlacedObject := ("table_top", 5, origin).

(** The parts before [setup]: the table top has a position, the leg has
    none. *)
Definition fresh : Sampler :=
  init 1 (RotValue 0) true (Some [("table_top", origin)]).

Definition parts : list (string * Q) := [("table_top", 0.5); ("leg1", 0.1)].

End PlacementScenario.

(** * Rollouts

    [list2dict] of [furniture/util/pytorch.py]: a list of transitions, each
    a dict, becomes one dict that holds for every key the list of its
    values. *)

(** The loop [for k, v in transition.items(): ret[k].append(v)] *)
Fixpoint append_items {A} (items : list (string * A))
    (ret : list (string * list A)) : Result (list (string * list A)) :=
  match items with
  | [] => Ok ret
  | (k, v) :: rest =>
      match lookup k ret with
      | Some l => append_items rest (assign k (l ++ [v])%list ret)
      | None => Raise KeyError
      end
  end.

(** The loop [for transition in rollout] *)
Fixpoint append_rollout {A} (rollout : list (list (string * A)))
    (ret : list (string * list A)) : Result (list (string * list A)) :=
  match rollout with
  | [] => Ok ret
  | transition :: rest =>
      ret <- append_items transition ret ;;
      append_rollout rest ret
  end.

Definition list2dict {A} (rollout : list (list (string * A)))
  : Result (list (string * list A)) :=
  first <- list_index rollout 0 ;;
  let ret := fold_left (fun ret k => assign k [] ret) (map fst first) [] in
  append_rollout rollout ret.

(** The transition has the keys of [first], each once, in any order. *)
Definition same_keys {A} (first transition : list (string * A)) : Prop :=
  NoDup (map fst transition) /\
  forall k, In k (map fst transition) <-> In k (map fst first).

(** ** Proof automation *)

Ltac split_ifs :=
  repeat match goal with
         | |- context [if ?b then _ else _] => destruct b eqn:?
         end.

Ltac inv_ok :=
  repeat match goal with
         | H : Ok _ = Ok _ |- _ => injection H as H; subst
         | H : Raise _ = Ok _ |- _ => discriminate H
         | H : Ok _ = Raise _ |- _ => discriminate H
         end.

Ltac bool_hyps :=
  repeat match goal with
         | H : _ && _ = true |- _ => apply andb_true_iff in H; destruct H
         | H : _ || _ = false |- _ => apply orb_false_iff in H; destruct H
         | H : negb _ = true |- _ => apply negb_true_iff in H
         | H : negb _ = false |- _ => apply negb_false_iff in H
         | H : Nat.eqb _ _ = true |- _ => apply Nat.eqb_eq in H
         | H : Nat.eqb _ _ = false |- _ => apply Nat.eqb_neq in H
         | H : Nat.ltb _ _ = true |- _ => apply Nat.ltb_lt in H
         | H : Nat.ltb _ _ = false |- _ => apply Nat.ltb_ge in H
         | H : Nat.leb _ _ = true |- _ => apply Nat.leb_le in H
         | H : Nat.leb _ _ = false |- _ => apply Nat.leb_gt in H
         end.

(** Numeric and vector operations stay folded during simplification. *)
#[local] Arguments Qabs : simpl never.
#[local] Arguments Qmin : simpl never.
#[local] Arguments Qltb : simpl never.
#[local] Arguments Qgtb : simpl never.
#[local] Arguments Qle_bool : simpl never.
#[local] Arguments Qplus : simpl never.
#[local] Arguments Qminus : simpl never.
#[local] Arguments Qmult : simpl never.
#[local] Arguments Qdiv : simpl never.
#[local] Arguments Qopp : simpl never.
#[local] Arguments firstn : simpl never.
#[local] Arguments idx : simpl never.
#[local] Arguments vsub : simpl never.
#[local] Arguments vadd : simpl never.
#[local] Arguments vset : simpl never.
#[local] Arguments n2q : simpl never.

(** Evaluate, and split on the conditions that block the evaluation. *)
Ltac crunch :=
  repeat (cbn;
          match goal with
          | |- context [if ?b then _ else _] => destruct b eqn:?
          end);
  cbn.

(** ** Basic facts *)

Lemma Qltb_lt (x y : Q) : Qltb x y = true <-> x < y.
Proof.
  unfold Qltb. rewrite negb_true_iff. split; intro H.
  - apply Qnot_le_lt. intro Hle. apply Qle_bool_iff in Hle. congruence.
  - destruct (Qle_bool y x) eqn:E; trivial.
    apply Qle_bool_iff in E. lra.
Qed.

Lemma Qltb_ge (x y : Q) : Qltb x y = false <-> y <= x.
Proof.
  unfold Qltb. rewrite negb_false_iff. apply Qle_bool_iff.
Qed.

Lemma Qgtb_gt (x y : Q) : Qgtb x y = true <-> y < x.
Proof. apply Qltb_lt. Qed.

Lemma Qgtb_le (x y : Q) : Qgtb x y = false <-> x <= y.
Proof. apply Qltb_ge. Qed.

Lemma dict_get_app (k : string) (a b : dict) :
  dict_get k (a ++ b)%list =
  match dict_get k a with
  | Some v => Some v
  | None => dict_get k b
  end.
Proof.
  induction a as [|[k' v] a IH]; simpl; trivial.
  destruct (String.eqb k k'); trivial.
Qed.

Lemma dict_get_set_other (k k' : string) (v : Val) (d : dict) :
  k <> k' -> dict_get k (dict_set k' v d) = dict_get k d.
Proof.
  intros Hne. unfold dict_set. simpl.
  destruct (String.eqb_spec k k'); [contradiction | reflexivity].
Qed.

Section StepFacts.

Variables (G : Geometry) (cfg : Config) (bk : Backend).

Lemma stable_grip_flag (st : State) :
  exists b,
    dict_flag "stable_grip_succ" (snd (_stable_grip_reward G cfg bk st)) = Ok b.
Proof.
  unfold _stable_grip_reward.
  destruct (Nat.ltb (_phase_i st) 3); eexists; reflexivity.
Qed.

Lemma stable_grip_flag_eq (st : State) :
  dict_flag "stable_grip_succ"
    (snd (_stable_grip_reward G cfg bk (set_success false st)))
  = Ok (stable_grip_succ G cfg bk st).
Proof.
  unfold stable_grip_succ.
  destruct (stable_grip_flag (set_success false st)) as [b ->]. reflexivity.
Qed.

Lemma detect_early_picking_eq (st : State) :
  detect_early_picking (values G cfg bk st)
    (snd (_stable_grip_reward G cfg bk (set_success false st)))
    (set_success false st)
  = Ok (after_picking G cfg bk st).
Proof.
  unfold after_picking, detect_early_picking.
  rewrite stable_grip_flag_eq. cbn [bind].
  destruct (_ && _ && _); reflexivity.
Qed.

Lemma after_picking_eq (st : State) :
  after_picking G cfg bk st =
  if v_leg_touched (values G cfg bk st) && stable_grip_succ G cfg bk st
     && Nat.ltb (_phase_i st) 2
  then set_phase_i 3 (set_success false st)
  else set_success false st.
Proof.
  unfold after_picking, detect_early_picking.
  rewrite stable_grip_flag_eq. cbn [bind].
  change (_phase_i (set_success false st)) with (_phase_i st).
  destruct (_ && _ && _); reflexivity.
Qed.

(** The step is the four fallible calls in sequence, on the state left by
    the skip checks. *)
Lemma compute_reward_unfold (ac : Action) (st : State) :
  _compute_reward G cfg bk ac st =
  ('(ctrl_penalty, ctrl_info) <- _ctrl_penalty G cfg ac ;;
   phase <- current_phase G cfg bk st ;;
   '(grip_penalty, grip_info) <-
     _gripper_penalty cfg ac (dispatch_state G cfg bk st) ;;
   o <- phase_dispatch G cfg bk phase ac (values G cfg bk st)
          (snd (_stable_grip_reward G cfg bk (set_success false st)))
          (snd (_move_other_part_penalty cfg (values G cfg bk st)))
          (dispatch_state G cfg bk st) ;;
   Ok (o_state o,
       (total_reward G cfg bk ctrl_penalty grip_penalty st o, o_done o,
        report G cfg bk ctrl_info grip_info st o))).
Proof.
  unfold _compute_reward.
  destruct (_ctrl_penalty G cfg ac) as [[cp ci]|e]; [|reflexivity].
  cbn [bind].
  pose proof (detect_early_picking_eq st) as Hp. unfold values in Hp.
  destruct (_stable_grip_reward G cfg bk (set_success false st))
    as [sgr sgi] eqn:Esg.
  destruct (_move_other_part_penalty cfg
              (_collect_values G cfg bk (set_success false st)))
    as [mop mi] eqn:Emo.
  cbn [snd] in Hp. rewrite Hp. cbn [bind].
  unfold current_phase, dispatch_state, total_reward, report, dispatch_state,
    values.
  rewrite Esg, Emo. cbn [fst snd].
  reflexivity.
Qed.

Lemma ctrl_penalty_ok (ac : Action) :
  assertions_hold G cfg ac ->
  _ctrl_penalty G cfg ac
  = Ok (norm G (ac_arm ac) * - _ctrl_penalty_coef cfg,
        [("ctrl_penalty", VNum (norm G (ac_arm ac) * - _ctrl_penalty_coef cfg))]).
Proof.
  intros [H _]. unfold _ctrl_penalty.
  apply Qle_bool_iff in H. rewrite H. reflexivity.
Qed.

Lemma ctrl_penalty_info (ac : Action) (cp : Q) (ci : dict) :
  _ctrl_penalty G cfg ac = Ok (cp, ci) -> ci = [("ctrl_penalty", VNum cp)].
Proof.
  unfold _ctrl_penalty. destruct (Qle_bool _ 0); cbn; intros H; inv_ok.
  reflexivity.
Qed.

Lemma gripper_penalty_info (ac : Action) (s : State) (gp : Q) (gi : dict) :
  _gripper_penalty cfg ac s = Ok (gp, gi) ->
  gi = [("gripper_penalty", VNum gp); ("gripper_action", VNum (ac_grip ac))].
Proof.
  unfold _gripper_penalty.
  destruct (list_index _phases (_phase_i s)); cbn [bind]; [|discriminate].
  destruct (py_assert _); cbn [bind]; intros H; inv_ok. reflexivity.
Qed.

Lemma gripper_penalty_ok (ac : Action) (s : State) (phase : string) :
  assertions_hold G cfg ac ->
  list_index _phases (_phase_i s) = Ok phase ->
  exists gp,
    _gripper_penalty cfg ac s
    = Ok (gp, [("gripper_penalty", VNum gp);
               ("gripper_action", VNum (ac_grip ac))]).
Proof.
  intros [_ H] Hp. unfold _gripper_penalty. rewrite Hp. cbn [bind].
  destruct (existsb _ _); cbn [negb].
  - eexists. reflexivity.
  - apply Qle_bool_iff in H. rewrite H. eexists. reflexivity.
Qed.

End StepFacts.

Lemma dict_get_notin (k : string) (d : dict) :
  ~ In k (map fst d) -> dict_get k d = None.
Proof.
  induction d as [|[k' v] d IH]; simpl; trivial.
  intros Hn. destruct (String.eqb_spec k k') as [->|Hne].
  - exfalso. apply Hn. now left.
  - apply IH. intros Hin. apply Hn. now right.
Qed.

Section DispatchFacts.

Variables (G : Geometry) (cfg : Config) (bk : Backend).

(** No phase writes a key that [_compute_reward] itself writes. *)
Lemma phase_dispatch_info_fresh phase ac v sgi mi s o k :
  phase_dispatch G cfg bk phase ac v sgi mi s = Ok o ->
  In k reserved_keys ->
  dict_get k (o_phase_info o) = None.
Proof.
  intros H Hk.
  assert (Hk' : k = "phase_i" \/ k = "subtask" \/ k = "touch"
                \/ k = "phase_bonus").
  { simpl in Hk. intuition auto. }
  clear Hk.
  unfold phase_dispatch in H.
  repeat match type of H with
         | (if String.eqb phase ?name then _ else _) = _ =>
             destruct (String.eqb_spec phase name) as [->|_]; [ | ]
         end;
    [ unfold _move_eef_above_leg_reward in H
    | unfold _lower_eef_to_leg_reward in H
    | unfold _grasp_leg_reward, _lower_eef_to_leg_reward in H
    | unfold _lift_leg_reward in H
    | unfold _align_leg_reward in H
    | unfold _move_leg_reward in H
    | unfold _move_leg_fine_reward in H
    | inv_ok; reflexivity ];
    revert H; destruct (dict_flag "stable_grip_succ" sgi);
    destruct (dict_q "table_displacement" mi);
    crunch;
    try match goal with
        | |- context [_prev_grasp_dist s] => destruct (_prev_grasp_dist s)
        end;
    crunch;
    try match goal with
        | |- context [_set_next_subtask ?a ?b ?c ?d] =>
            destruct (_set_next_subtask a b c d) as [[? ?]|]
        end;
    cbn; intros H; inv_ok; cbn;
    try (destruct Hk' as [->|[->|[->| ->]]]; reflexivity).
Qed.

End DispatchFacts.

Section ReportFacts.

Variables (G : Geometry) (cfg : Config) (bk : Backend).

Lemma stable_grip_info_keys (st : State) :
  incl (map fst (snd (_stable_grip_reward G cfg bk st))) later_keys.
Proof.
  unfold _stable_grip_reward, later_keys.
  destruct (Nat.ltb (_phase_i st) 3); cbn; intros x Hx; simpl in *;
    intuition auto.
Qed.

Lemma move_other_part_info_keys (v : Values) :
  incl (map fst (snd (_move_other_part_penalty cfg v))) later_keys.
Proof.
  unfold _move_other_part_penalty, later_keys. cbn. intros x Hx. simpl in *.
  intuition auto.
Qed.

Lemma move_info_displacement (v : Values) :
  dict_q "table_displacement" (snd (_move_other_part_penalty cfg v))
  = Ok (v_table_displacement v).
Proof. reflexivity. Qed.

Lemma reserved_not_later (k : string) :
  In k reserved_keys -> ~ In k later_keys.
Proof.
  unfold reserved_keys, later_keys. simpl.
  intros [<-|[<-|[<-|[<-|[]]]]] H;
    repeat (destruct H as [H|H]; [discriminate H|]); exact H.
Qed.

(** The info assembled by the step reports the outcome of the dispatch. *)
Lemma report_reported phase ac st o cp gp :
  phase_dispatch G cfg bk phase ac (values G cfg bk st)
    (snd (_stable_grip_reward G cfg bk (set_success false st)))
    (snd (_move_other_part_penalty cfg (values G cfg bk st)))
    (dispatch_state G cfg bk st) = Ok o ->
  reported G cfg bk st o
    (report G cfg bk [("ctrl_penalty", VNum cp)]
       [("gripper_penalty", VNum gp); ("gripper_action", VNum (ac_grip ac))]
       st o).
Proof.
  intros Hd.
  assert (Hget : forall k, ~ In k later_keys ->
            dict_get k
              (report G cfg bk [("ctrl_penalty", VNum cp)]
                 [("gripper_penalty", VNum gp);
                  ("gripper_action", VNum (ac_grip ac))] st o)
            = match dict_get k (o_phase_info o) with
              | Some v => Some v
              | None =>
                  dict_get k
                    (dict_set "phase_bonus" (VNum (o_phase_bonus o))
                      (dict_set "touch" (VBool (v_leg_touched (values G cfg bk st)))
                        (dict_set "subtask"
                          (VIdx (_subtask_step (dispatch_state G cfg bk st)))
                          (dict_set "phase_i"
                            (VIdx (_phase_i (dispatch_state G cfg bk st)
                                   + 7 * _subtask_step (dispatch_state G cfg bk st)))
                            (dict_set "ctrl_penalty" (VNum cp) (super_info bk))))))
              end).
  { intros k Hk. unfold report.
    assert (Hph : k <> "phase").
    { intros ->. apply Hk. simpl. auto. }
    assert (Hinner : forall X, dict_get k
              (if Nat.eqb (S (_episode_length bk)) (max_episode_steps cfg) || o_done o
               then dict_set "phase"
                      (VIdx (_phase_i (o_state o)
                             + List.length _phases * _subtask_step (o_state o))) X
               else X) = dict_get k X).
    { intros X. destruct (_ || _); [apply dict_get_set_other; exact Hph | reflexivity]. }
    cbv zeta. rewrite Hinner. unfold dict_merge.
    rewrite dict_get_app.
    rewrite (dict_get_notin k (snd (_move_other_part_penalty cfg _))).
    2:{ intros Hin. apply Hk. eapply move_other_part_info_keys; eauto. }
    rewrite dict_get_app.
    rewrite (dict_get_notin k [_; _]).
    2:{ intros Hin. apply Hk. simpl in Hin. unfold later_keys. simpl.
        intuition auto. }
    rewrite dict_get_app.
    rewrite (dict_get_notin k (snd (_stable_grip_reward G cfg bk _))).
    2:{ intros Hin. apply Hk. eapply stable_grip_info_keys; eauto. }
    rewrite dict_get_app.
    destruct (dict_get k (o_phase_info o)); [reflexivity|].
    unfold dict_set. cbn [app]. simpl dict_get.
    destruct (String.eqb k "ctrl_penalty") eqn:E.
    - apply String.eqb_eq in E. subst k.
      reflexivity.
    - reflexivity. }
  unfold reported. cbv zeta.
  repeat split.
  - rewrite Hget by (apply reserved_not_later; simpl; auto).
    rewrite (phase_dispatch_info_fresh _ _ _ _ _ _ _ _ _ _ _ Hd)
      by (simpl; auto).
    reflexivity.
  - rewrite Hget by (apply reserved_not_later; simpl; auto).
    rewrite (phase_dispatch_info_fresh _ _ _ _ _ _ _ _ _ _ _ Hd)
      by (simpl; auto).
    reflexivity.
  - rewrite Hget by (apply reserved_not_later; simpl; auto).
    rewrite (phase_dispatch_info_fresh _ _ _ _ _ _ _ _ _ _ _ Hd)
      by (simpl; auto).
    reflexivity.
  - rewrite Hget by (apply reserved_not_later; simpl; auto).
    rewrite (phase_dispatch_info_fresh _ _ _ _ _ _ _ _ _ _ _ Hd)
      by (simpl; auto).
    reflexivity.
  - intros k v Hk Hv. rewrite Hget by exact Hk. rewrite Hv. reflexivity.
Qed.

(** A step whose assertions hold returns what the dispatch decides. *)
Lemma step_intro ac st phase o :
  assertions_hold G cfg ac ->
  current_phase G cfg bk st = Ok phase ->
  phase_dispatch G cfg bk phase ac (values G cfg bk st)
    (snd (_stable_grip_reward G cfg bk (set_success false st)))
    (snd (_move_other_part_penalty cfg (values G cfg bk st)))
    (dispatch_state G cfg bk st) = Ok o ->
  exists rew info,
    _compute_reward G cfg bk ac st = Ok (o_state o, (rew, o_done o, info)) /\
    reported G cfg bk st o info.
Proof.
  intros Ha Hp Hd.
  rewrite compute_reward_unfold.
  rewrite (ctrl_penalty_ok G cfg ac Ha). cbn [bind].
  rewrite Hp. cbn [bind].
  destruct (gripper_penalty_ok G cfg ac _ phase Ha Hp) as [gp ->].
  cbn [bind]. rewrite Hd. cbn [bind].
  do 2 eexists. split; [reflexivity|].
  eapply report_reported; eauto.
Qed.

(** Conversely, a step that returns went through the dispatch. *)
Lemma step_inv ac st st' rew done info :
  _compute_reward G cfg bk ac st = Ok (st', (rew, done, info)) ->
  exists phase o,
    current_phase G cfg bk st = Ok phase /\
    phase_dispatch G cfg bk phase ac (values G cfg bk st)
      (snd (_stable_grip_reward G cfg bk (set_success false st)))
      (snd (_move_other_part_penalty cfg (values G cfg bk st)))
      (dispatch_state G cfg bk st) = Ok o /\
    st' = o_state o /\ done = o_done o /\
    reported G cfg bk st o info.
Proof.
  rewrite compute_reward_unfold.
  destruct (_ctrl_penalty G cfg ac) as [[cp ci]|] eqn:Ec; cbn [bind];
    [|discriminate].
  destruct (current_phase G cfg bk st) as [phase|] eqn:Ep; cbn [bind];
    [|discriminate].
  destruct (_gripper_penalty cfg ac _) as [[gp gi]|] eqn:Eg; cbn [bind];
    [|discriminate].
  destruct (phase_dispatch _ _ _ _ _ _ _ _ _) as [o|] eqn:Ed; cbn [bind];
    [|discriminate].
  intros H. inv_ok.
  apply ctrl_penalty_info in Ec. apply gripper_penalty_info in Eg. subst.
  exists phase, o.
  split; [reflexivity|]. split; [exact Ed|].
  split; [reflexivity|]. split; [reflexivity|].
  eapply report_reported; eauto.
Qed.

End ReportFacts.

Section SkipFacts.

Variables (G : Geometry) (cfg : Config) (bk : Backend).

(** The skip checks touch the phase index and the baselines of the later
    phases only. *)
Lemma dispatch_state_frame (st : State) :
  let ds := dispatch_state G cfg bk st in
  _subtask_step ds = _subtask_step st /\
  _success ds = false /\
  _leg_fine_aligned ds = _leg_fine_aligned st /\
  _grasp_sites ds = _grasp_sites st /\
  _prev_eef_above_leg_dist ds = _prev_eef_above_leg_dist st /\
  _prev_eef_leg_dist ds = _prev_eef_leg_dist st /\
  _leg_site ds = _leg_site st /\
  _table_site ds = _table_site st.
Proof.
  unfold dispatch_state. rewrite after_picking_eq.
  unfold detect_early_align, detect_early_fine.
  split_ifs; cbn; repeat split; reflexivity.
Qed.

(** The skip checks leave the gripper baseline as it is. *)
Lemma dispatch_state_grasp_dist (st : State) :
  _prev_grasp_dist (dispatch_state G cfg bk st) = _prev_grasp_dist st.
Proof.
  unfold dispatch_state. rewrite after_picking_eq.
  unfold detect_early_align, detect_early_fine.
  split_ifs; reflexivity.
Qed.

Lemma dispatch_state_phase_ge (st : State) :
  (_phase_i st <= _phase_i (dispatch_state G cfg bk st))%nat.
Proof.
  unfold dispatch_state. rewrite after_picking_eq.
  unfold detect_early_align, detect_early_fine.
  split_ifs; cbn in *; bool_hyps; cbn in *; try lia.
  all: repeat match goal with
         | H : _ || _ = true |- _ => apply orb_true_iff in H; destruct H
         end; bool_hyps; try lia; try discriminate.
Qed.

Lemma dispatch_state_phase_lt (st : State) :
  (_phase_i st < 7 -> _phase_i (dispatch_state G cfg bk st) < 7)%nat.
Proof.
  unfold dispatch_state. rewrite after_picking_eq.
  unfold detect_early_align, detect_early_fine.
  split_ifs; cbn in *; bool_hyps; cbn in *; try lia.
Qed.

End SkipFacts.

Section SubtaskFacts.

Variables (G : Geometry) (cfg : Config) (bk : Backend).

(** What [_update_reward_variables] leaves in the progress fields. *)
Lemma update_reward_variables_frame (k : nat) (s s' : State) :
  _update_reward_variables G cfg bk k s = Ok s' ->
  _phase_i s' = 0%nat /\
  _subtask_step s' = _subtask_step s /\
  _success s' = _success s /\
  _leg_fine_aligned s' = 0%nat /\
  _leg_touched s' = false /\
  _leg_lift s' = false.
Proof.
  unfold _update_reward_variables.
  destruct (list_index (recipe cfg) k) as [[leg table]|]; cbn [bind];
    [|discriminate].
  destruct (list_index (_site_recipe cfg) k); cbn [bind]; [|discriminate].
  destruct (object_id cfg leg); cbn [bind]; [|discriminate].
  destruct (object_id cfg table); cbn [bind]; [|discriminate].
  destruct (_diff_rew cfg); intros H; inv_ok; cbn; repeat split; reflexivity.
Qed.

(** [_update_reward_variables] returns for a subtask that the recipe
    describes. *)
Lemma update_reward_variables_ok (k : nat) (s : State) :
  subtask_defined cfg k = true ->
  exists s', _update_reward_variables G cfg bk k s = Ok s'.
Proof.
  unfold subtask_defined, _update_reward_variables, list_index.
  destruct (nth_error (recipe cfg) k) as [[leg table]|]; [|discriminate].
  destruct (nth_error (_site_recipe cfg) k); [|discriminate].
  cbn [bind].
  destruct (object_id cfg leg); [|discriminate].
  destruct (object_id cfg table); [|discriminate].
  intros _. cbn [bind]. destruct (_diff_rew cfg); eexists; reflexivity.
Qed.

Lemma set_next_subtask_spec (s s' : State) (b : bool) :
  _set_next_subtask G cfg bk s = Ok (s', b) ->
  _subtask_step s' = S (_subtask_step s) /\
  b = Nat.eqb (S (_subtask_step s)) (_success_num_conn cfg) /\
  _success s' = _success s /\
  (b = true -> s' = set_subtask_step (_subtask_step s + 1) s) /\
  (b = false ->
   _update_reward_variables G cfg bk (S (_subtask_step s))
     (set_subtask_step (_subtask_step s + 1) s) = Ok s').
Proof.
  unfold _set_next_subtask. cbn [_subtask_step set_subtask_step].
  rewrite Nat.add_1_r.
  destruct (Nat.eqb (S (_subtask_step s)) (_success_num_conn cfg)) eqn:E.
  - intros H. inv_ok. cbn. repeat split; trivial. discriminate.
  - destruct (_update_reward_variables _ _ _ _ _) as [s1|] eqn:Eu;
      cbn [bind]; intros H; inv_ok.
    destruct (update_reward_variables_frame _ _ _ Eu) as (_ & Hs & Hsu & _).
    cbn in Hs, Hsu.
    repeat split; trivial. discriminate.
Qed.

End SubtaskFacts.

Section DispatchCases.

Variables (G : Geometry) (cfg : Config) (bk : Backend).

(** grasp_leg reads the gripper baseline: the dispatch raises AttributeError
    on an instance that has none, and returns only where it is assigned. *)
Lemma dispatch_grasp_unassigned ac v sgi mi s :
  _prev_grasp_dist s = None ->
  phase_dispatch G cfg bk "grasp_leg" ac v sgi mi s = Raise AttributeError.
Proof.
  intros Hg. unfold phase_dispatch. cbn [String.eqb Ascii.eqb Bool.eqb].
  unfold _grasp_leg_reward, _lower_eef_to_leg_reward.
  destruct (_diff_rew cfg); cbn; rewrite Hg; reflexivity.
Qed.

Lemma dispatch_grasp_assigned ac v sgi mi s o :
  phase_dispatch G cfg bk "grasp_leg" ac v sgi mi s = Ok o ->
  _prev_grasp_dist s <> None.
Proof.
  intros H Hg. rewrite (dispatch_grasp_unassigned _ _ _ _ _ Hg) in H.
  discriminate H.
Qed.

(** The three phases before the leg is held: the index advances exactly when
    the phase's success flag and the stable-grip flag are both set. *)
Lemma dispatch_approach i phase ac v sgi mi s sg :
  nth_error _phases i = Some phase ->
  (i <= 2)%nat ->
  _phase_i s = i ->
  dict_flag "stable_grip_succ" sgi = Ok sg ->
  (i = 2%nat -> _prev_grasp_dist s <> None) ->
  exists o succ,
    phase_dispatch G cfg bk phase ac v sgi mi s = Ok o /\
    dict_flag (phase ++ "_succ") (o_phase_info o) = Ok succ /\
    o_done o = false /\
    _subtask_step (o_state o) = _subtask_step s /\
    _success (o_state o) = _success s /\
    _leg_fine_aligned (o_state o) = _leg_fine_aligned s /\
    (if succ && sg
     then _phase_i (o_state o) = S i /\ o_phase_bonus o == _phase_bonus cfg
     else _phase_i (o_state o) = i /\ o_phase_bonus o == 0).
Proof.
  intros Hn Hi Hs Hsg Hg.
  destruct i as [|[|[|i]]]; [| | |lia]; cbn in Hn; inv_ok;
    injection Hn as <-; unfold phase_dispatch;
    cbn [String.eqb Ascii.eqb Bool.eqb].
  - unfold _move_eef_above_leg_reward.
    destruct (_diff_rew cfg); cbn; rewrite Hsg; cbn [bind];
      match goal with
      | |- context [if ?c && sg then _ else _] => destruct c
      end; destruct sg; cbn; do 2 eexists;
      (split; [reflexivity|]); cbn;
      (split; [reflexivity|]); repeat split; try reflexivity;
      try (rewrite Hs; reflexivity); try lra.
  - unfold _lower_eef_to_leg_reward.
    destruct (_diff_rew cfg); cbn; rewrite Hsg; cbn [bind];
      match goal with
      | |- context [if ?c && sg then _ else _] => destruct c
      end; destruct sg; cbn; do 2 eexists;
      (split; [reflexivity|]); cbn;
      (split; [reflexivity|]); repeat split; try reflexivity;
      try (rewrite Hs; reflexivity); try lra.
  - unfold _grasp_leg_reward, _lower_eef_to_leg_reward.
    destruct (_prev_grasp_dist s) as [g|] eqn:Eg;
      [|exfalso; apply (Hg eq_refl); reflexivity].
    destruct (_diff_rew cfg); cbn; rewrite Eg; cbn;
      destruct (v_leg_touched v); destruct (_leg_touched s); cbn;
      rewrite Hsg; cbn [bind]; destruct sg; cbn; do 2 eexists;
      (split; [reflexivity|]); cbn;
      (split; [reflexivity|]); repeat split; try reflexivity;
      try (rewrite Hs; reflexivity); try lra.
Qed.

(** The same facts for a dispatch that has returned. *)
Lemma dispatch_approach_inv i phase ac v sgi mi s sg o :
  nth_error _phases i = Some phase ->
  (i <= 2)%nat ->
  _phase_i s = i ->
  dict_flag "stable_grip_succ" sgi = Ok sg ->
  phase_dispatch G cfg bk phase ac v sgi mi s = Ok o ->
  exists succ,
    dict_flag (phase ++ "_succ") (o_phase_info o) = Ok succ /\
    o_done o = false /\
    _subtask_step (o_state o) = _subtask_step s /\
    _success (o_state o) = _success s /\
    _leg_fine_aligned (o_state o) = _leg_fine_aligned s /\
    (if succ && sg
     then _phase_i (o_state o) = S i /\ o_phase_bonus o == _phase_bonus cfg
     else _phase_i (o_state o) = i /\ o_phase_bonus o == 0).
Proof.
  intros Hn Hi Hs Hsg Hd.
  assert (Hg : i = 2%nat -> _prev_grasp_dist s <> None).
  { intros ->. cbn in Hn. injection Hn as <-.
    eapply dispatch_grasp_assigned; eauto. }
  destruct (dispatch_approach i phase ac v sgi mi s sg Hn Hi Hs Hsg Hg)
    as (o' & succ & Hd' & H).
  rewrite Hd in Hd'. injection Hd' as <-.
  exists succ. exact H.
Qed.

(** The three phases in which the leg is carried: a lost contact or a table
    moved by more than 0.1 ends the episode; otherwise the index advances
    exactly when the phase's success flag is set. *)
Lemma dispatch_carry i phase ac v sgi mi s td :
  nth_error _phases i = Some phase ->
  (3 <= i <= 5)%nat ->
  _phase_i s = i ->
  dict_q "table_displacement" mi = Ok td ->
  exists o succ,
    phase_dispatch G cfg bk phase ac v sgi mi s = Ok o /\
    dict_flag (phase ++ "_succ") (o_phase_info o) = Ok succ /\
    _subtask_step (o_state o) = _subtask_step s /\
    _success (o_state o) = _success s /\
    _leg_fine_aligned (o_state o) = _leg_fine_aligned s /\
    (if negb (v_leg_touched v) || Qgtb td 0.1
     then o_done o = true /\ _phase_i (o_state o) = i /\
          o_phase_bonus o == - _phase_bonus cfg / 2
     else o_done o = false /\
          if succ
          then _phase_i (o_state o) = S i /\
               o_phase_bonus o
               == (if Nat.eqb i 5 then _phase_bonus cfg * 5 else _phase_bonus cfg)
          else _phase_i (o_state o) = i /\ o_phase_bonus o == 0).
Proof.
  intros Hn Hi Hs Htd.
  destruct i as [|[|[|[|[|[|i]]]]]]; try lia; cbn in Hn;
    injection Hn as <-; unfold phase_dispatch;
    cbn [String.eqb Ascii.eqb Bool.eqb].
  - unfold _lift_leg_reward.
    destruct (v_leg_touched v); rewrite Htd; crunch;
      do 2 eexists; (split; [reflexivity|]); cbn;
      (split; [reflexivity|]); repeat split; try reflexivity;
      try (rewrite Hs; reflexivity); try lra.
  - unfold _align_leg_reward.
    destruct (v_leg_touched v); rewrite Htd; crunch;
      do 2 eexists; (split; [reflexivity|]); cbn;
      (split; [reflexivity|]); repeat split; try reflexivity;
      try (rewrite Hs; reflexivity); try lra.
  - unfold _move_leg_reward.
    destruct (v_leg_touched v); rewrite Htd; crunch;
      do 2 eexists; (split; [reflexivity|]); cbn;
      (split; [reflexivity|]); repeat split; try reflexivity;
      try (rewrite Hs; reflexivity); try lra.
Qed.

End DispatchCases.

Section DispatchFine.

Variables (G : Geometry) (cfg : Config) (bk : Backend).

(** The fine phase, when the connection has not happened or the table has
    moved too far: the phase index stays, and the counter of aligned frames
    grows by one when the parts are aligned and not connected. *)
Lemma dispatch_fine_stay ac v sgi mi s td :
  dict_q "table_displacement" mi = Ok td ->
  Qgtb td 0.1 = true \/ _connected bk = false ->
  exists o,
    phase_dispatch G cfg bk "move_leg_fine" ac v sgi mi s = Ok o /\
    dict_flag "connect_succ" (o_phase_info o) = Ok (_connected bk) /\
    _phase_i (o_state o) = _phase_i s /\
    _subtask_step (o_state o) = _subtask_step s /\
    _success (o_state o) = _success s /\
    _leg_fine_aligned (o_state o)
    = (_leg_fine_aligned s
       + if negb (_connected bk) && _is_aligned bk (_leg_site s) (_table_site s)
         then 1 else 0)%nat /\
    (if Qgtb td 0.1
     then o_done o = true /\ o_phase_bonus o == - _phase_bonus cfg / 2
     else o_done o = negb (v_leg_touched v) /\
          o_phase_bonus o
          == (if v_leg_touched v then 0 else - _phase_bonus cfg * 2)).
Proof.
  intros Htd Hc. unfold phase_dispatch.
  cbn [String.eqb Ascii.eqb Bool.eqb].
  unfold _move_leg_fine_reward. rewrite Htd.
  destruct (Qgtb td 0.1) eqn:Egt.
  - destruct (_connected bk); destruct (_diff_rew cfg);
      destruct (_is_aligned bk (_leg_site s) (_table_site s)) eqn:Ea;
      cbn; rewrite ?Ea, ?Egt; cbn; eexists; (split; [reflexivity|]); cbn;
      repeat split; try reflexivity; try lia; lra.
  - destruct Hc as [Hc|Hc]; [discriminate Hc|]. rewrite Hc.
    destruct (_diff_rew cfg);
      destruct (_is_aligned bk (_leg_site s) (_table_site s)) eqn:Ea;
      destruct (v_leg_touched v);
      cbn; rewrite ?Ea, ?Egt; cbn; eexists; (split; [reflexivity|]); cbn;
      repeat split; try reflexivity; try lia; lra.
Qed.

(** The fine phase at the connect event. *)
Lemma dispatch_fine_connect ac v sgi mi s td :
  dict_q "table_displacement" mi = Ok td ->
  Qgtb td 0.1 = false ->
  _connected bk = true ->
  phase_dispatch G cfg bk "move_leg_fine" ac v sgi mi s
  = ('(st, all_done) <- _set_next_subtask G cfg bk (set_phase_i 0 s) ;;
     Ok (mkOutcome (set_success all_done st) 0 [("connect_succ", VBool true)]
           all_done
           (0 + _phase_bonus cfg * 5
            - n2q (_leg_fine_aligned s) * _aligned_bonus_coef cfg))).
Proof.
  intros Htd Egt Hc. unfold phase_dispatch.
  cbn [String.eqb Ascii.eqb Bool.eqb].
  unfold _move_leg_fine_reward. rewrite Htd, Hc. cbn. rewrite Egt.
  reflexivity.
Qed.

End DispatchFine.

Section Progress.

Variables (G : Geometry) (cfg : Config) (bk : Backend).

Lemma current_phase_nth (st : State) (phase : string) :
  current_phase G cfg bk st = Ok phase ->
  nth_error _phases (_phase_i (dispatch_state G cfg bk st)) = Some phase /\
  (_phase_i (dispatch_state G cfg bk st) < 7)%nat.
Proof.
  unfold current_phase, list_index.
  destruct (nth_error _phases _) as [p|] eqn:E; intros H; inv_ok.
  split; trivial.
  change 7%nat with (List.length _phases).
  apply nth_error_Some. rewrite E. discriminate.
Qed.

(** One step either stays in the subtask, with a phase index that does not
    decrease, or completes the subtask from the fine phase. *)
Lemma step_progress ac st st' rew done info :
  _compute_reward G cfg bk ac st = Ok (st', (rew, done, info)) ->
  (_subtask_step st' = _subtask_step st /\
   (_phase_i st <= _phase_i st' < 7)%nat) \/
  (_phase_i (dispatch_state G cfg bk st) = 6%nat /\
   _subtask_step st' = S (_subtask_step st) /\
   _phase_i st' = 0%nat /\
   done = Nat.eqb (S (_subtask_step st)) (_success_num_conn cfg)).
Proof.
  intros Hstep.
  destruct (step_inv G cfg bk _ _ _ _ _ _ Hstep)
    as (phase & o & Hp & Hd & -> & -> & _).
  destruct (current_phase_nth st phase Hp) as [Hn Hlt].
  pose proof (dispatch_state_phase_ge G cfg bk st) as Hge.
  pose proof (dispatch_state_frame G cfg bk st) as (Hsub & _).
  destruct (stable_grip_flag G cfg bk (set_success false st)) as [sg Hsg].
  pose proof (move_info_displacement cfg (values G cfg bk st)) as Htd.
  destruct (le_lt_dec (_phase_i (dispatch_state G cfg bk st)) 2) as [H2|H2].
  { destruct (dispatch_approach_inv G cfg bk _ phase ac (values G cfg bk st) _
                (snd (_move_other_part_penalty cfg (values G cfg bk st)))
                _ sg o Hn H2 eq_refl Hsg Hd)
      as (succ & _ & _ & Hs & _ & _ & Hcase).
    left. split; [congruence|].
    destruct (succ && sg); destruct Hcase as [Hph _]; lia. }
  destruct (le_lt_dec (_phase_i (dispatch_state G cfg bk st)) 5) as [H5|H5].
  { destruct (dispatch_carry G cfg bk _ phase ac (values G cfg bk st)
                (snd (_stable_grip_reward G cfg bk (set_success false st)))
                _ _ _ Hn (conj H2 H5) eq_refl Htd)
      as (o' & succ & Hd' & _ & Hs & _ & _ & Hcase).
    rewrite Hd in Hd'. inv_ok.
    left. split; [congruence|].
    destruct (negb _ || _).
    - destruct Hcase as (_ & Hph & _). lia.
    - destruct Hcase as (_ & Hcase). destruct succ; destruct Hcase; lia. }
  assert (H6 : _phase_i (dispatch_state G cfg bk st) = 6%nat) by lia.
  rewrite H6 in Hn. cbn in Hn. injection Hn as <-.
  destruct (Qgtb (v_table_displacement (values G cfg bk st)) 0.1) eqn:Egt;
    [|destruct (_connected bk) eqn:Ec].
  - destruct (dispatch_fine_stay G cfg bk ac (values G cfg bk st)
                (snd (_stable_grip_reward G cfg bk (set_success false st)))
                _ (dispatch_state G cfg bk st) _ Htd (or_introl Egt))
      as (o' & Hd' & _ & Hph & Hs & _).
    rewrite Hd in Hd'. inv_ok. left. split; [congruence|]. lia.
  - rewrite (dispatch_fine_connect G cfg bk ac (values G cfg bk st)
               (snd (_stable_grip_reward G cfg bk (set_success false st)))
               _ (dispatch_state G cfg bk st) _ Htd Egt Ec) in Hd.
    destruct (_set_next_subtask G cfg bk _) as [[s1 b]|] eqn:En;
      cbn [bind] in Hd; inv_ok.
    destruct (set_next_subtask_spec G cfg bk _ _ _ En)
      as (Hs1 & Hb & _ & Hbt & Hbf).
    cbn [_subtask_step set_phase_i] in Hs1, Hb. right.
    cbn [o_state o_done _subtask_step _phase_i set_success].
    split; [exact H6|]. split; [congruence|].
    split; [|congruence].
    destruct b.
    + rewrite (Hbt eq_refl). reflexivity.
    + destruct (update_reward_variables_frame G cfg bk _ _ _ (Hbf eq_refl))
        as (H0 & _). exact H0.
  - destruct (dispatch_fine_stay G cfg bk ac (values G cfg bk st)
                (snd (_stable_grip_reward G cfg bk (set_success false st)))
                _ (dispatch_state G cfg bk st) _ Htd (or_intror Ec))
      as (o' & Hd' & _ & Hph & Hs & _).
    rewrite Hd in Hd'. inv_ok. left. split; [congruence|]. lia.
Qed.

(** A step that returns from grasp_leg found the gripper baseline
    assigned. *)
Lemma step_grasp_assigned ac st st' out :
  _compute_reward G cfg bk ac st = Ok (st', out) ->
  _phase_i (dispatch_state G cfg bk st) = 2%nat ->
  _prev_grasp_dist st <> None.
Proof.
  intros Hstep H2. destruct out as [[rew done] info].
  destruct (step_inv G cfg bk _ _ _ _ _ _ Hstep)
    as (phase & o & Hp & Hd & _).
  destruct (current_phase_nth st phase Hp) as [Hn _].
  rewrite H2 in Hn. cbn in Hn. injection Hn as <-.
  rewrite <- (dispatch_state_grasp_dist G cfg bk st).
  eapply dispatch_grasp_assigned; eauto.
Qed.

End Progress.

Lemma dict_flag_transfer (k : string) (d d' : dict) (b : bool) :
  (forall v, dict_get k d = Some v -> dict_get k d' = Some v) ->
  dict_flag k d = Ok b -> dict_flag k d' = Ok b.
Proof.
  unfold dict_flag. intros H.
  destruct (dict_get k d) as [v|]; [|discriminate].
  rewrite (H v eq_refl). trivial.
Qed.

Lemma succ_key_not_later (phase : string) :
  In phase _phases -> ~ In (phase ++ "_succ") later_keys.
Proof.
  unfold _phases, later_keys. simpl.
  intros [<-|[<-|[<-|[<-|[<-|[<-|[<-|[]]]]]]]] H; cbn in H;
    repeat (destruct H as [H|H]; [discriminate H|]); exact H.
Qed.

(** ** Drop detection *)

Section DropDetection.

Variables (G : Geometry) (cfg : Config) (bk : Backend).

(** The dispatch of a carrying phase ends the episode when the leg is not
    touched. *)
Lemma dispatch_dropped phase ac v sgi mi s :
  phase = "lift_leg" \/ phase = "align_leg" \/ phase = "move_leg" ->
  v_leg_touched v = false ->
  exists o,
    phase_dispatch G cfg bk phase ac v sgi mi s = Ok o /\
    o_done o = true /\
    o_phase_bonus o == - _phase_bonus cfg / 2 /\
    _success (o_state o) = _success s.
Proof.
  intros Hp Hv. unfold phase_dispatch. rewrite Hv.
  destruct Hp as [->|[->| ->]]; cbn [String.eqb Ascii.eqb Bool.eqb negb].
  - unfold _lift_leg_reward. rewrite Hv.
    destruct (_diff_rew cfg); cbn; split_ifs; eexists;
      (split; [reflexivity|]); cbn; (split; [reflexivity|]);
      (split; [lra | reflexivity]).
  - unfold _align_leg_reward.
    destruct (_diff_rew cfg); cbn; eexists;
      (split; [reflexivity|]); cbn; (split; [reflexivity|]);
      (split; [lra | reflexivity]).
  - unfold _move_leg_reward.
    destruct (_diff_rew cfg); cbn; eexists;
      (split; [reflexivity|]); cbn; (split; [reflexivity|]);
      (split; [lra | reflexivity]).
Qed.

(** The fine phase ends the episode with the double penalty when the leg is
    not touched, the parts are not connected and the table has not moved too
    far. *)
Lemma dispatch_dropped_fine ac v sgi mi s :
  v_leg_touched v = false ->
  _connected bk = false ->
  dict_q "table_displacement" mi = Ok (v_table_displacement v) ->
  v_table_displacement v <= 0.1 ->
  exists o,
    phase_dispatch G cfg bk "move_leg_fine" ac v sgi mi s = Ok o /\
    o_done o = true /\
    o_phase_bonus o == - _phase_bonus cfg * 2 /\
    _success (o_state o) = _success s.
Proof.
  intros Hv Hc Hmi Htd. unfold phase_dispatch. rewrite Hv, Hmi.
  cbn [String.eqb Ascii.eqb Bool.eqb negb].
  apply Qgtb_le in Htd.
  unfold _move_leg_fine_reward. rewrite Hc.
  destruct (_diff_rew cfg); cbn;
    destruct (_is_aligned bk (_leg_site s) (_table_site s)); cbn;
    rewrite Htd; cbn; eexists; (split; [reflexivity|]); cbn;
    (split; [reflexivity|]); (split; [lra | reflexivity]).
Qed.

(** C1: a step in which the two-finger contact is lost while the dispatched
    phase is lift_leg, align_leg or move_leg returns done = True with a phase
    bonus of exactly -phase_bonus / 2; in move_leg_fine, when the parts are
    not connected and the table displacement check does not fire, it returns
    done = True with a phase bonus of exactly -phase_bonus * 2; the success
    flag of the episode stays False in all these cases. *)
Theorem drop_detection (ac : Action) (st : State) (phase : string)
    (Hassert : assertions_hold G cfg ac)
    (Hphase : current_phase G cfg bk st = Ok phase)
    (Hdrop : v_leg_touched (values G cfg bk st) = false) :
  (phase = "lift_leg" \/ phase = "align_leg" \/ phase = "move_leg" ->
   exists st' rew info b,
     _compute_reward G cfg bk ac st = Ok (st', (rew, true, info)) /\
     dict_get "phase_bonus" info = Some (VNum b) /\
     b == - _phase_bonus cfg / 2 /\
     _success st' = false) /\
  (phase = "move_leg_fine" ->
   _connected bk = false ->
   v_table_displacement (values G cfg bk st) <= 0.1 ->
   exists st' rew info b,
     _compute_reward G cfg bk ac st = Ok (st', (rew, true, info)) /\
     dict_get "phase_bonus" info = Some (VNum b) /\
     b == - _phase_bonus cfg * 2 /\
     _success st' = false).
Proof.
  pose proof (dispatch_state_frame G cfg bk st) as (_ & Hsucc & _).
  split.
  - intros Hp.
    destruct (dispatch_dropped phase ac (values G cfg bk st)
                (snd (_stable_grip_reward G cfg bk (set_success false st)))
                (snd (_move_other_part_penalty cfg (values G cfg bk st)))
                (dispatch_state G cfg bk st) Hp Hdrop)
      as (o & Hd & Hdone & Hb & Hs).
    destruct (step_intro G cfg bk ac st phase o Hassert Hphase Hd)
      as (rew & info & Hstep & Hrep).
    exists (o_state o), rew, info, (o_phase_bonus o).
    rewrite Hdone in Hstep. destruct Hrep as (Hpb & _).
    repeat split; trivial. congruence.
  - intros -> Hc Htd.
    destruct (dispatch_dropped_fine ac (values G cfg bk st)
                (snd (_stable_grip_reward G cfg bk (set_success false st)))
                (snd (_move_other_part_penalty cfg (values G cfg bk st)))
                (dispatch_state G cfg bk st) Hdrop Hc
                (move_info_displacement cfg _) Htd)
      as (o & Hd & Hdone & Hb & Hs).
    destruct (step_intro G cfg bk ac st _ o Hassert Hphase Hd)
      as (rew & info & Hstep & Hrep).
    exists (o_state o), rew, info, (o_phase_bonus o).
    rewrite Hdone in Hstep. destruct Hrep as (Hpb & _).
    repeat split; trivial. congruence.
Qed.

End DropDetection.

(** The theorem in the example furniture: the gripped leg has reached
    lift_leg, and in the next step no finger touches it. *)
Lemma drop_detection_witness :
  exists st outs st' rew info b,
    Scenario.episode false [Scenario.gripped] = Ok (st, outs) /\
    _compute_reward Scenario.geometry (Scenario.config false)
      (Scenario.backend Scenario.at_rest) Scenario.hold st
    = Ok (st', (rew, true, info)) /\
    dict_get "phase_bonus" info = Some (VNum b) /\
    b == - _phase_bonus (Scenario.config false) / 2 /\
    _success st' = false.
Proof.
  do 2 eexists.
  assert (He : Scenario.episode false [Scenario.gripped] = Ok (?[st], ?[outs]))
    by (vm_compute; reflexivity).
  match type of He with
  | _ = Ok (?s, _) =>
      pose proof (drop_detection Scenario.geometry (Scenario.config false)
                    (Scenario.backend Scenario.at_rest) Scenario.hold s
                    "lift_leg") as H
  end.
  assert (Ha : assertions_hold Scenario.geometry (Scenario.config false)
                 Scenario.hold) by (split; vm_compute; discriminate).
  specialize (H Ha eq_refl eq_refl).
  destruct (proj1 H (or_introl eq_refl))
    as (st' & rew & info & b & Hstep & Hpb & Hb & Hs).
  exists st', rew, info, b.
  split; [exact He|]. split; [exact Hstep|]. split; [exact Hpb|].
  split; [exact Hb | exact Hs].
Defined.

(** ** Gripper penalty *)

(** C8: the gripper penalty is exactly 0 in a phase of the gripper-open set,
    for every action; in every other phase it is
    (gripper action - 1) * gripper_penalty_coef, which for an action in
    [-1, 1] and a non-negative coefficient is non-positive, and for a
    positive coefficient is 0 only at the fully closed action 1; under these
    preconditions the assertion [rew <= 0] passes, so the function
    returns. *)
Theorem gripper_penalty_spec (cfg : Config) (ac : Action) (st : State)
    (phase : string)
    (Hphase : nth_error _phases (_phase_i st) = Some phase) :
  (In phase _grip_open_phases ->
   exists info, _gripper_penalty cfg ac st = Ok (0, info)) /\
  (~ In phase _grip_open_phases ->
   -1 <= ac_grip ac <= 1 ->
   0 <= _gripper_penalty_coef cfg ->
   exists rew info,
     _gripper_penalty cfg ac st = Ok (rew, info) /\
     rew == (ac_grip ac - 1) * _gripper_penalty_coef cfg /\
     rew <= 0 /\
     (0 < _gripper_penalty_coef cfg -> (rew == 0 <-> ac_grip ac == 1))).
Proof.
  unfold _gripper_penalty, list_index. rewrite Hphase. cbn [bind].
  split.
  - intros Hin.
    assert (E : existsb (String.eqb phase) _grip_open_phases = true).
    { apply existsb_exists. exists phase. split; trivial.
      apply String.eqb_refl. }
    rewrite E. simpl. eexists. reflexivity.
  - intros Hnin [Hlo Hhi] Hc.
    assert (E : existsb (String.eqb phase) _grip_open_phases = false).
    { destruct (existsb _ _) eqn:E; trivial.
      apply existsb_exists in E. destruct E as [p [Hp Hpe]].
      apply String.eqb_eq in Hpe. subst p. contradiction. }
    rewrite E. cbn [negb].
    assert (Hle : (ac_grip ac - 1) * _gripper_penalty_coef cfg <= 0) by nra.
    apply Qle_bool_iff in Hle. rewrite Hle. simpl.
    do 2 eexists. split; [reflexivity|].
    split; [reflexivity|]. split; [nra|].
    intros Hpos. split; intro H; nra.
Qed.

(** The theorem at the lift phase of the example furniture, gripper
    closed. *)
Lemma gripper_penalty_spec_witness :
  exists rew info,
    _gripper_penalty (Scenario.config false) Scenario.hold
      (set_phase_i 3 Scenario.blank) = Ok (rew, info) /\
    rew == (ac_grip Scenario.hold - 1)
           * _gripper_penalty_coef (Scenario.config false) /\
    rew <= 0 /\
    (0 < _gripper_penalty_coef (Scenario.config false) ->
     (rew == 0 <-> ac_grip Scenario.hold == 1)).
Proof.
  apply (proj2 (gripper_penalty_spec (Scenario.config false) Scenario.hold
                  (set_phase_i 3 Scenario.blank) "lift_leg" eq_refl)).
  - simpl. intros [H|[H|[]]]; discriminate H.
  - split; vm_compute; discriminate.
  - vm_compute. discriminate.
Defined.

(** ** Saturation of the grasp-point distance *)

Section Saturation.

Variables (G : Geometry) (cfg : Config) (bk : Backend).

Lemma lower_eef_to_leg_reward_spec (s : State) :
  exists rew,
    _lower_eef_to_leg_reward G cfg bk s
    = (rew,
       [("lower_eef_to_leg_succ",
         VBool (Qltb (norm G (vsub (firstn 2 (_get_gripper_pos bk))
                       (firstn 2 (vadd (_get_leg_grasp_pos bk s) [0; 0; -0.015]))))
                  0.02
                && Qltb (Qabs (idx (_get_gripper_pos bk) 2
                               - idx (vadd (_get_leg_grasp_pos bk s) [0; 0; -0.015]) 2))
                     0.01));
        ("eef_leg_dist", VNum (Qmin (eef_grasp_dist G bk s) 0.3));
        ("eef_leg_rew", VNum rew)],
       if _diff_rew cfg
       then set_prev_eef_leg_dist (Qmin (eef_grasp_dist G bk s) 0.3) s
       else s) /\
    rew == (if _diff_rew cfg
            then (_prev_eef_leg_dist s - Qmin (eef_grasp_dist G bk s) 0.3)
                 * _lower_eef_pos_dist_coef cfg * 10
            else - Qmin (eef_grasp_dist G bk s) 0.3
                 * _lower_eef_pos_dist_coef cfg).
Proof.
  unfold _lower_eef_to_leg_reward, eef_grasp_dist.
  destruct (_diff_rew cfg); cbn; eexists; split; reflexivity.
Qed.

(** C10: in the phases lower_eef_to_leg and grasp_leg the distance between
    the end effector and the grasp point enters the position reward as
    min(xy_dist + z_dist, 0.3), and so does the baseline seeded when the
    phase lower_eef_to_leg is entered; hence the reported eef_leg_dist never
    exceeds 0.3, and in absolute mode, for a non-negative coefficient, the
    position term is at least -0.3 * lower_eef_pos_dist_coef.  A step of
    grasp_leg reports anything only on an instance whose gripper baseline
    [_prev_grasp_dist] is assigned. *)
Theorem eef_leg_dist_saturated (ac : Action) (st : State) (phase : string)
    (Hassert : assertions_hold G cfg ac)
    (Hphase : current_phase G cfg bk st = Ok phase) :
  (phase = "lower_eef_to_leg" \/ phase = "grasp_leg" ->
   (phase = "grasp_leg" -> _prev_grasp_dist st <> None) ->
   exists st' rew done info d r,
     _compute_reward G cfg bk ac st = Ok (st', (rew, done, info)) /\
     dict_get "eef_leg_dist" info = Some (VNum d) /\
     d = Qmin (eef_grasp_dist G bk st) 0.3 /\
     d <= 0.3 /\
     dict_get "eef_leg_rew" info = Some (VNum r) /\
     (_diff_rew cfg = true ->
      r == (_prev_eef_leg_dist st - d) * _lower_eef_pos_dist_coef cfg * 10) /\
     (_diff_rew cfg = false ->
      r == - d * _lower_eef_pos_dist_coef cfg /\
      (0 <= _lower_eef_pos_dist_coef cfg ->
       - 0.3 * _lower_eef_pos_dist_coef cfg <= r))) /\
  (phase = "move_eef_above_leg" ->
   exists st' rew done info,
     _compute_reward G cfg bk ac st = Ok (st', (rew, done, info)) /\
     (_phase_i st' = 1%nat ->
      _prev_eef_leg_dist st' = Qmin (eef_grasp_dist G bk st) 0.3 /\
      _prev_eef_leg_dist st' <= 0.3)) /\
  (phase = "grasp_leg" ->
   forall st' rew done info,
     _compute_reward G cfg bk ac st = Ok (st', (rew, done, info)) ->
     _prev_grasp_dist st <> None).
Proof.
  pose proof (dispatch_state_frame G cfg bk st)
    as (_ & _ & _ & Hg & _ & Hprev & _).
  assert (Hdist : forall s, _grasp_sites s = _grasp_sites st ->
            eef_grasp_dist G bk s = eef_grasp_dist G bk st).
  { intros s Hs. unfold eef_grasp_dist, _get_leg_grasp_pos. rewrite Hs.
    reflexivity. }
  split; [|split].
  - intros Hp Hgrasp.
    destruct (lower_eef_to_leg_reward_spec (dispatch_state G cfg bk st))
      as (r & Hlow & Hr).
    rewrite (Hdist _ Hg) in Hlow, Hr. rewrite Hprev in Hr.
    assert (Hd : exists o,
              phase_dispatch G cfg bk phase ac (values G cfg bk st)
                (snd (_stable_grip_reward G cfg bk (set_success false st)))
                (snd (_move_other_part_penalty cfg (values G cfg bk st)))
                (dispatch_state G cfg bk st) = Ok o /\
              dict_get "eef_leg_dist" (o_phase_info o)
              = Some (VNum (Qmin (eef_grasp_dist G bk st) 0.3)) /\
              dict_get "eef_leg_rew" (o_phase_info o) = Some (VNum r)).
    { destruct (stable_grip_flag G cfg bk (set_success false st)) as [sg Hsg].
      unfold phase_dispatch.
      destruct Hp as [-> | ->]; cbn [String.eqb Ascii.eqb Bool.eqb].
      - rewrite Hlow. cbn. rewrite Hsg. cbn [bind].
        split_ifs; eexists; (split; [reflexivity|]); cbn; split; reflexivity.
      - destruct (_prev_grasp_dist st) as [g|] eqn:Eg;
          [|exfalso; apply (Hgrasp eq_refl); reflexivity].
        assert (Eg' : forall x,
                  _prev_grasp_dist
                    (if _diff_rew cfg
                     then set_prev_eef_leg_dist x (dispatch_state G cfg bk st)
                     else dispatch_state G cfg bk st) = Some g).
        { intros x. destruct (_diff_rew cfg); cbn;
            rewrite dispatch_state_grasp_dist; exact Eg. }
        unfold _grasp_leg_reward. rewrite Hlow. cbn. rewrite Eg'. cbn.
        split_ifs; cbn; rewrite Hsg; cbn [bind]; split_ifs; eexists;
          (split; [reflexivity|]); cbn; split; reflexivity. }
    destruct Hd as (o & Hd & Hid & Hir).
    destruct (step_intro G cfg bk ac st phase o Hassert Hphase Hd)
      as (rew & info & Hstep & Hrep).
    destruct Hrep as (_ & _ & _ & _ & Hpi).
    exists (o_state o), rew, (o_done o), info,
      (Qmin (eef_grasp_dist G bk st) 0.3), r.
    split; [exact Hstep|].
    split.
    { apply Hpi; [|exact Hid]. unfold later_keys. simpl.
      intros H; repeat (destruct H as [H|H]; [discriminate H|]); exact H. }
    split; [reflexivity|].
    split; [apply Q.le_min_r|].
    split.
    { apply Hpi; [|exact Hir]. unfold later_keys. simpl.
      intros H; repeat (destruct H as [H|H]; [discriminate H|]); exact H. }
    split.
    + intros Hdiff. rewrite Hdiff in Hr. exact Hr.
    + intros Hdiff. rewrite Hdiff in Hr. split; [exact Hr|].
      intros Hc.
      pose proof (Q.le_min_r (eef_grasp_dist G bk st) 0.3) as Hle.
      rewrite Hr. nra.
  - intros ->.
    assert (Hd : exists o,
              phase_dispatch G cfg bk "move_eef_above_leg" ac (values G cfg bk st)
                (snd (_stable_grip_reward G cfg bk (set_success false st)))
                (snd (_move_other_part_penalty cfg (values G cfg bk st)))
                (dispatch_state G cfg bk st) = Ok o /\
              (_phase_i (o_state o) = 1%nat ->
               _prev_eef_leg_dist (o_state o)
               = Qmin (eef_grasp_dist G bk st) 0.3)).
    { destruct (stable_grip_flag G cfg bk (set_success false st)) as [sg Hsg].
      assert (H0 : _phase_i (dispatch_state G cfg bk st) = 0%nat).
      { unfold current_phase, list_index in Hphase.
        destruct (_phase_i (dispatch_state G cfg bk st)) as [|[|[|[|[|[|[|n]]]]]]];
          cbn in Hphase; try discriminate; trivial.
        destruct n; discriminate. }
      unfold phase_dispatch. cbn [String.eqb Ascii.eqb Bool.eqb].
      unfold _move_eef_above_leg_reward.
      destruct (_diff_rew cfg); cbn; rewrite Hsg; cbn [bind]; split_ifs;
        eexists; (split; [reflexivity|]); cbn; intros H1;
        try (rewrite H0 in H1; discriminate H1);
        unfold eef_grasp_dist, _get_leg_grasp_pos; cbn; rewrite Hg;
        reflexivity. }
    destruct Hd as (o & Hd & Hseed).
    destruct (step_intro G cfg bk ac st _ o Hassert Hphase Hd)
      as (rew & info & Hstep & Hrep).
    exists (o_state o), rew, (o_done o), info.
    split; [exact Hstep|].
    intros H1. split; [apply Hseed; exact H1|].
    rewrite (Hseed H1). apply Q.le_min_r.
  - intros -> st' rew done info Hstep.
    apply (step_grasp_assigned G cfg bk ac st st' _ Hstep).
    unfold current_phase, list_index in Hphase.
    destruct (_phase_i (dispatch_state G cfg bk st)) as [|[|[|[|[|[|[|n]]]]]]];
      cbn in Hphase; try discriminate; trivial.
    destruct n; discriminate.
Qed.

End Saturation.

(** The theorem in the example furniture: the gripper is above the leg
    (phase lower_eef_to_leg after the first step) and is lowered. *)
Lemma eef_leg_dist_saturated_witness :
  exists st outs st' rew done info d,
    Scenario.episode false [Scenario.at_rest] = Ok (st, outs) /\
    _compute_reward Scenario.geometry (Scenario.config false)
      (Scenario.backend Scenario.lowered) Scenario.hold st
    = Ok (st', (rew, done, info)) /\
    dict_get "eef_leg_dist" info = Some (VNum d) /\
    d <= 0.3.
Proof.
  do 2 eexists.
  assert (He : Scenario.episode false [Scenario.at_rest] = Ok (?[st], ?[outs]))
    by (vm_compute; reflexivity).
  match type of He with
  | _ = Ok (?s, _) =>
      pose proof (eef_leg_dist_saturated Scenario.geometry
                    (Scenario.config false)
                    (Scenario.backend Scenario.lowered) Scenario.hold s
                    "lower_eef_to_leg") as H
  end.
  assert (Ha : assertions_hold Scenario.geometry (Scenario.config false)
                 Scenario.hold) by (split; vm_compute; discriminate).
  specialize (H Ha eq_refl).
  destruct (proj1 H (or_introl eq_refl) ltac:(discriminate))
    as (st' & rew & done & info & d & r & Hstep & Hd & _ & Hle & _).
  exists st', rew, done, info, d.
  split; [exact He|]. split; [exact Hstep|]. split; [exact Hd | exact Hle].
Defined.

(** ** Progress invariant *)

Section Invariant.

Variables (G : Geometry) (cfg : Config).

Lemma reset_progress bk st0 st :
  _reset G cfg bk st0 = Ok st ->
  _phase_i st = 0%nat /\ _subtask_step st = _preassembled cfg.
Proof.
  unfold _reset, _reset_reward_variables. intros H.
  destruct (update_reward_variables_frame G cfg bk _ _ _ H) as (H0 & Hs & _).
  split; [exact H0 | exact Hs].
Qed.

Lemma reachable_invariant st done :
  (_preassembled cfg < _success_num_conn cfg)%nat ->
  reachable G cfg st done ->
  (_phase_i st < 7)%nat /\
  (_subtask_step st <= _success_num_conn cfg)%nat /\
  (done = false -> (_subtask_step st < _success_num_conn cfg)%nat).
Proof.
  intros Hpre Hr. induction Hr as [bk st0 st H | bk ac st st' rew done info Hr IH H].
  - destruct (reset_progress _ _ _ H) as [H0 Hs]. lia.
  - destruct IH as (Hp & Hle & Hlt). specialize (Hlt eq_refl).
    destruct (step_progress G cfg bk _ _ _ _ _ _ H)
      as [(Hs & Hph) | (_ & Hs & Hph & Hd)].
    + lia.
    + split; [lia|]. split; [lia|].
      intros ->. symmetry in Hd. apply Nat.eqb_neq in Hd. lia.
Qed.

(** C3: in every state reachable by steps from a reset, the phase index is a
    valid index into the list of seven phases and the subtask index does not
    exceed the number of connections to make; a step never decreases the
    subtask index, within a subtask it never decreases the phase index, and
    the phase index returns to 0 only in a step that completes a subtask
    (which raises the subtask index by one).  The episode starts with at
    least one connection left to make. *)
Theorem phase_subtask_invariant
    (Hpre : (_preassembled cfg < _success_num_conn cfg)%nat) :
  (forall st done,
     reachable G cfg st done ->
     (_phase_i st < 7)%nat /\
     nth_error _phases (_phase_i st) <> None /\
     (_subtask_step st <= _success_num_conn cfg)%nat) /\
  (forall bk ac st st' rew done info,
     reachable G cfg st false ->
     _compute_reward G cfg bk ac st = Ok (st', (rew, done, info)) ->
     (_subtask_step st <= _subtask_step st')%nat /\
     (_subtask_step st' = _subtask_step st ->
      (_phase_i st <= _phase_i st')%nat) /\
     (_subtask_step st' <> _subtask_step st ->
      _subtask_step st' = S (_subtask_step st) /\ _phase_i st' = 0%nat)).
Proof.
  split.
  - intros st done Hr.
    destruct (reachable_invariant st done Hpre Hr) as (Hp & Hs & _).
    split; [exact Hp|]. split; [|exact Hs].
    apply nth_error_Some. exact Hp.
  - intros bk ac st st' rew done info _ H.
    destruct (step_progress G cfg bk _ _ _ _ _ _ H)
      as [(Hs & Hph) | (_ & Hs & Hph & Hd)].
    + split; [lia|]. split; [lia|]. intros Hne. contradiction.
    + split; [lia|]. split; [lia|]. intros _. split; assumption.
Qed.

End Invariant.


(** The invariant at the state reached in the example furniture by a reset
    and one step in which the held upright leg skips to the phase
    move_leg. *)
Lemma phase_subtask_invariant_witness :
  exists st outs,
    Scenario.episode false [Scenario.held_upright] = Ok (st, outs) /\
    (_phase_i st < 7)%nat /\
    nth_error _phases (_phase_i st) <> None /\
    (_subtask_step st <= _success_num_conn (Scenario.config false))%nat.
Proof.
  assert (Hpre : (_preassembled (Scenario.config false)
                  < _success_num_conn (Scenario.config false))%nat)
    by (cbn; lia).
  eexists. eexists. split; [vm_compute; reflexivity|].
  apply (proj1 (phase_subtask_invariant Scenario.geometry
                  (Scenario.config false) Hpre) _ false).
  eapply (reach_step _ _ (Scenario.backend Scenario.held_upright) Scenario.hold).
  - eapply (reach_reset _ _ (Scenario.backend Scenario.at_rest) Scenario.blank).
    vm_compute. reflexivity.
  - vm_compute. reflexivity.
Defined.

(** ** Skip to the fine phase *)

Section EarlyFine.

Variables (G : Geometry) (cfg : Config) (bk : Backend).

(** C6: when the phase at the early-fine check is lift_leg or align_leg
    (index 3 or 4: the phase the step starts in, or lift_leg just reached by
    the early-picking check) and the position distance is below the move
    threshold while both angular similarities are above the move rotation
    threshold, the step moves to move_leg_fine (index 6) before the phase is
    dispatched, and seeds the baselines of the fine phase (position distance,
    both angular similarities, both projections) with the current
    measurements; the phase dispatched and reported in this step is
    move_leg_fine. *)
Theorem early_fine_skip (st : State)
    (Hphase : _phase_i (after_picking G cfg bk st) = 3%nat \/
              _phase_i (after_picking G cfg bk st) = 4%nat)
    (Hpos : v_move_pos_dist (values G cfg bk st) < _move_pos_threshold cfg)
    (Hang : _move_rot_threshold cfg < v_move_ang_dist (values G cfg bk st))
    (Hfwd : _move_rot_threshold cfg
            < v_move_forward_ang_dist (values G cfg bk st)) :
  let v := values G cfg bk st in
  let ds := dispatch_state G cfg bk st in
  _phase_i ds = 6%nat /\
  current_phase G cfg bk st = Ok "move_leg_fine" /\
  _prev_move_pos_dist ds = v_move_pos_dist v /\
  _prev_move_ang_dist ds = v_move_ang_dist v /\
  _prev_move_forward_ang_dist ds = v_move_forward_ang_dist v /\
  _prev_proj_t ds = v_proj_table v /\
  _prev_proj_l ds = v_proj_leg v /\
  (forall ac st' rew done info,
     _compute_reward G cfg bk ac st = Ok (st', (rew, done, info)) ->
     dict_get "phase_i" info = Some (VIdx (6 + 7 * _subtask_step st)) /\
     dict_get "connect_succ" info = Some (VBool (_connected bk))).
Proof.
  intros v ds.
  apply Qltb_lt in Hpos. apply Qgtb_gt in Hang. apply Qgtb_gt in Hfwd.
  assert (Hds : ds =
            set_prev_proj_l (v_proj_leg v)
              (set_prev_proj_t (v_proj_table v)
                (set_prev_move_forward_ang_dist (v_move_forward_ang_dist v)
                  (set_prev_move_ang_dist (v_move_ang_dist v)
                    (set_prev_move_pos_dist (v_move_pos_dist v)
                      (set_phase_i 6 (after_picking G cfg bk st))))))).
  { unfold ds, dispatch_state, detect_early_fine. fold v.
    assert (E : existsb (Nat.eqb (_phase_i (after_picking G cfg bk st)))
                  [3; 4]%nat = true).
    { destruct Hphase as [-> | ->]; reflexivity. }
    rewrite E. unfold v in *. rewrite Hpos, Hang, Hfwd. cbn [andb].
    unfold detect_early_align. cbn. reflexivity. }
  assert (H6 : _phase_i ds = 6%nat) by (rewrite Hds; reflexivity).
  assert (Hcur : current_phase G cfg bk st = Ok "move_leg_fine").
  { unfold current_phase. fold ds. rewrite H6. reflexivity. }
  split; [exact H6|]. split; [exact Hcur|].
  split; [rewrite Hds; reflexivity|].
  split; [rewrite Hds; reflexivity|].
  split; [rewrite Hds; reflexivity|].
  split; [rewrite Hds; reflexivity|].
  split; [rewrite Hds; reflexivity|].
  intros ac st' rew done info Hstep.
  destruct (step_inv G cfg bk _ _ _ _ _ _ Hstep)
    as (phase & o & Hp & Hd & _ & _ & Hrep).
  rewrite Hcur in Hp. injection Hp as <-.
  destruct Hrep as (_ & Hpi & _ & _ & Hinfo).
  fold ds in Hpi. rewrite H6 in Hpi.
  pose proof (dispatch_state_frame G cfg bk st) as (Hsub & _).
  fold ds in Hsub. rewrite Hsub in Hpi.
  split; [exact Hpi|].
  apply Hinfo.
  { unfold later_keys. simpl.
    intros H; repeat (destruct H as [H|H]; [discriminate H|]); exact H. }
  pose proof (move_info_displacement cfg v) as Htd.
  fold v ds in Hd.
  destruct (Qgtb (v_table_displacement v) 0.1) eqn:Egt;
    [|destruct (_connected bk) eqn:Ec].
  - destruct (dispatch_fine_stay G cfg bk ac v
                (snd (_stable_grip_reward G cfg bk (set_success false st)))
                _ ds _ Htd (or_introl Egt)) as (o' & Hd' & Hflag & _).
    rewrite Hd in Hd'. inv_ok.
    unfold dict_flag in Hflag.
    revert Hflag. unfold phase_dispatch in Hd.
    cbn [String.eqb Ascii.eqb Bool.eqb] in Hd.
    unfold _move_leg_fine_reward in Hd.
    revert Hd. rewrite Htd.
    destruct (_connected bk); destruct (_diff_rew cfg);
      destruct (_is_aligned bk (_leg_site ds) (_table_site ds)) eqn:Ea;
      cbn; rewrite ?Ea, ?Egt; cbn; intros Hd; inv_ok; reflexivity.
  - rewrite (dispatch_fine_connect G cfg bk ac v
               (snd (_stable_grip_reward G cfg bk (set_success false st)))
               _ ds _ Htd Egt Ec) in Hd.
    destruct (_set_next_subtask G cfg bk _) as [[s1 b]|]; cbn [bind] in Hd;
      inv_ok. reflexivity.
  - revert Hd. unfold phase_dispatch.
    cbn [String.eqb Ascii.eqb Bool.eqb].
    unfold _move_leg_fine_reward. rewrite Htd, Ec.
    destruct (_diff_rew cfg);
      destruct (_is_aligned bk (_leg_site ds) (_table_site ds)) eqn:Ea;
      destruct (v_leg_touched v);
      cbn; rewrite ?Ea, ?Egt; cbn; intros Hd; inv_ok; reflexivity.
Qed.

End EarlyFine.

(** The theorem in the example furniture: after a reset, the held upright leg
    sits at the table site; the early-picking check reaches lift_leg and the
    early-fine check skips on to move_leg_fine. *)
Lemma early_fine_skip_witness :
  exists st,
    Scenario.start false = Ok st /\
    _phase_i (dispatch_state Scenario.geometry (Scenario.config false)
                (Scenario.backend (Scenario.at_site false false 1 0)) st)
    = 6%nat /\
    current_phase Scenario.geometry (Scenario.config false)
      (Scenario.backend (Scenario.at_site false false 1 0)) st
    = Ok "move_leg_fine".
Proof.
  eexists. split; [vm_compute; reflexivity|].
  match goal with
  | |- context [dispatch_state ?G ?c ?b ?s] =>
      pose proof (early_fine_skip G c b s) as H
  end.
  cbv zeta in H.
  assert (H' := H (or_introl eq_refl) eq_refl eq_refl eq_refl).
  split; [exact (proj1 H') | exact (proj1 (proj2 H'))].
Defined.

(** ** Skip to the lift phase *)

(** C5 as stated fails: after a reset of the example furniture, the leg is
    held with a stable grip and already stands upright; the phase index is
    0, but the step reports phase index 5 (move_leg), not lift_leg, because
    the early-align check fires in the same step. *)
Lemma early_picking_report_counterexample :
  exists st st' rew done info,
    Scenario.start false = Ok st /\
    (_phase_i st < 2)%nat /\
    v_leg_touched (values Scenario.geometry (Scenario.config false)
                     (Scenario.backend Scenario.held_upright) st) = true /\
    stable_grip_succ Scenario.geometry (Scenario.config false)
      (Scenario.backend Scenario.held_upright) st = true /\
    _compute_reward Scenario.geometry (Scenario.config false)
      (Scenario.backend Scenario.held_upright) Scenario.hold st
    = Ok (st', (rew, done, info)) /\
    dict_get "phase_i" info = Some (VIdx 5) /\
    dict_get "subtask" info = Some (VIdx 0) /\
    _phase_i st' = 5%nat.
Proof.
  do 5 eexists.
  split; [vm_compute; reflexivity|].
  split; [vm_compute; lia|].
  split; [vm_compute; reflexivity|].
  split; [vm_compute; reflexivity|].
  split; [vm_compute; reflexivity|].
  split; [vm_compute; reflexivity|].
  split; vm_compute; reflexivity.
Qed.

Section EarlyPicking.

Variables (G : Geometry) (cfg : Config) (bk : Backend).

(** C5, amended: in a step with contact and a stable grip while the phase
    index is 0 or 1, the early-picking check moves to lift_leg (index 3)
    before the other skip checks and the dispatch, and adds no bonus for the
    skipped phases.  The phase dispatched and reported is move_leg_fine when
    the early-fine check fires in the same step, else move_leg when the
    early-align check fires, else lift_leg.  In each of the three cases the
    phase bonus of a step that returns is what the dispatched phase itself
    awards and nothing more: -phase_bonus / 2 when the table has moved by
    more than 0.1; otherwise, from lift_leg, phase_bonus when lift_leg
    succeeds in this step and 0 when not; from move_leg, 5 * phase_bonus
    when move_leg succeeds and 0 when not; from move_leg_fine,
    5 * phase_bonus less the penalty for the aligned frames when the parts
    are connected and 0 when not.  The step returns whenever both assertions
    hold, the connect event apart, whose outcome depends on the description
    of the next subtask. *)
Theorem early_picking_skip (st : State)
    (Htouch : v_leg_touched (values G cfg bk st) = true)
    (Hsg : stable_grip_succ G cfg bk st = true)
    (Hph : (_phase_i st < 2)%nat) :
  let v := values G cfg bk st in
  let ds := dispatch_state G cfg bk st in
  let fine :=
    Qltb (v_move_pos_dist v) (_move_pos_threshold cfg)
    && Qgtb (v_move_ang_dist v) (_move_rot_threshold cfg)
    && Qgtb (v_move_forward_ang_dist v) (_move_rot_threshold cfg) in
  let align :=
    Qgtb (v_move_ang_dist v) (_align_rot_threshold cfg)
    && Qgtb (v_move_forward_ang_dist v) (_align_rot_threshold cfg) in
  let moved := Qgtb (v_table_displacement v) 0.1 in
  _phase_i (after_picking G cfg bk st) = 3%nat /\
  _phase_i ds = (if fine then 6 else if align then 5 else 3)%nat /\
  (forall ac st' rew done info,
     _compute_reward G cfg bk ac st = Ok (st', (rew, done, info)) ->
     dict_get "phase_i" info
     = Some (VIdx (_phase_i ds + 7 * _subtask_step st))) /\
  (forall ac,
     assertions_hold G cfg ac ->
     fine = false -> align = false ->
     exists st' rew done info b lifted,
       _compute_reward G cfg bk ac st = Ok (st', (rew, done, info)) /\
       dict_get "phase_i" info = Some (VIdx (3 + 7 * _subtask_step st)) /\
       dict_flag "lift_leg_succ" info = Ok lifted /\
       dict_get "phase_bonus" info = Some (VNum b) /\
       b == (if Qgtb (v_table_displacement v) 0.1 then - _phase_bonus cfg / 2
             else if lifted then _phase_bonus cfg else 0)) /\
  (forall ac st' rew done info,
     _compute_reward G cfg bk ac st = Ok (st', (rew, done, info)) ->
     exists b,
       dict_get "phase_bonus" info = Some (VNum b) /\
       if moved then b == - _phase_bonus cfg / 2
       else if fine then
         b == (if _connected bk
               then _phase_bonus cfg * 5
                    - n2q (_leg_fine_aligned st) * _aligned_bonus_coef cfg
               else 0)
       else if align then
         exists carried,
           dict_flag "move_leg_succ" info = Ok carried /\
           b == (if carried then _phase_bonus cfg * 5 else 0)
       else
         exists lifted,
           dict_flag "lift_leg_succ" info = Ok lifted /\
           b == (if lifted then _phase_bonus cfg else 0)) /\
  (forall ac,
     assertions_hold G cfg ac ->
     fine = false \/ moved = true \/ _connected bk = false ->
     exists st' rew done info,
       _compute_reward G cfg bk ac st = Ok (st', (rew, done, info))).
Proof.
  intros v ds fine align moved.
  pose proof (dispatch_state_frame G cfg bk st) as (Hsub & _ & Hfa & _).
  fold ds in Hsub, Hfa.
  assert (Hap : after_picking G cfg bk st
                = set_phase_i 3 (set_success false st)).
  { rewrite after_picking_eq. rewrite Htouch, Hsg.
    apply Nat.ltb_lt in Hph. rewrite Hph. reflexivity. }
  assert (Hds : _phase_i ds = (if fine then 6 else if align then 5 else 3)%nat).
  { unfold ds, dispatch_state. rewrite Hap.
    unfold detect_early_fine, detect_early_align. fold v. cbn.
    fold fine. destruct fine; cbn; [reflexivity|].
    fold align. destruct align; reflexivity. }
  split; [rewrite Hap; reflexivity|].
  split; [exact Hds|].
  split; [|split; [|split]].
  - intros ac st' rew done info Hstep.
    destruct (step_inv G cfg bk _ _ _ _ _ _ Hstep)
      as (phase & o & _ & _ & _ & _ & Hrep).
    destruct Hrep as (_ & Hpi & _). fold ds in Hpi.
    rewrite Hsub in Hpi. exact Hpi.
  - intros ac Hassert Hfine Halign.
    rewrite Hfine, Halign in Hds.
    assert (Hcur : current_phase G cfg bk st = Ok "lift_leg").
    { unfold current_phase. fold ds. rewrite Hds. reflexivity. }
    destruct (dispatch_carry G cfg bk 3 "lift_leg" ac v
                (snd (_stable_grip_reward G cfg bk (set_success false st)))
                _ ds _ eq_refl (conj (le_n 3) (le_S _ _ (le_S _ _ (le_n 3))))
                Hds (move_info_displacement cfg v))
      as (o & succ & Hd & Hflag & _ & _ & _ & Hcase).
    destruct (step_intro G cfg bk ac st _ o Hassert Hcur Hd)
      as (rew & info & Hstep & Hrep).
    destruct Hrep as (Hpb & Hpi & _ & _ & Hinfo).
    fold ds in Hpi. rewrite Hds, Hsub in Hpi.
    exists (o_state o), rew, (o_done o), info, (o_phase_bonus o), succ.
    split; [exact Hstep|]. split; [exact Hpi|].
    split.
    { eapply dict_flag_transfer; [|exact Hflag].
      intros val. apply Hinfo.
      apply (succ_key_not_later "lift_leg"). simpl. auto 10. }
    split; [exact Hpb|].
    unfold v in Hcase. rewrite Htouch in Hcase. cbn [negb orb] in Hcase.
    fold v in Hcase.
    destruct (Qgtb (v_table_displacement v) 0.1).
    + destruct Hcase as (_ & _ & Hb). exact Hb.
    + destruct Hcase as (_ & Hcase). destruct succ; destruct Hcase as (_ & Hb);
        exact Hb.
  - intros ac st' rew done info Hstep.
    destruct (step_inv G cfg bk _ _ _ _ _ _ Hstep)
      as (phase & o & Hcur & Hd & _ & _ & Hrep).
    destruct Hrep as (Hpb & _ & _ & _ & Hinfo).
    exists (o_phase_bonus o). split; [exact Hpb|].
    unfold current_phase in Hcur. fold ds in Hcur. rewrite Hds in Hcur.
    fold v in Hd.
    destruct fine.
    + cbn in Hcur. injection Hcur as <-.
      destruct moved eqn:Em.
      * destruct (dispatch_fine_stay G cfg bk ac v
                    (snd (_stable_grip_reward G cfg bk (set_success false st)))
                    _ ds _ (move_info_displacement cfg v) (or_introl Em))
          as (o' & Hd' & _ & _ & _ & _ & _ & Hcase).
        assert (Heq : Ok o' = Ok o) by (rewrite <- Hd'; exact Hd).
        injection Heq as <-.
        fold moved in Hcase. rewrite Em in Hcase. apply Hcase.
      * destruct (_connected bk) eqn:Ec.
        -- pose proof (dispatch_fine_connect G cfg bk ac v
                         (snd (_stable_grip_reward G cfg bk (set_success false st)))
                         _ ds _ (move_info_displacement cfg v) Em Ec) as Hc.
           assert (Heq : phase_dispatch G cfg bk "move_leg_fine" ac v
                           (snd (_stable_grip_reward G cfg bk (set_success false st)))
                           (snd (_move_other_part_penalty cfg v)) ds = Ok o)
             by exact Hd.
           rewrite Hc in Heq.
           destruct (_set_next_subtask G cfg bk (set_phase_i 0 ds))
             as [[s2 ad]|]; cbn [bind] in Heq; [|discriminate Heq].
           injection Heq as <-. cbn [o_phase_bonus]. rewrite Hfa. lra.
        -- destruct (dispatch_fine_stay G cfg bk ac v
                       (snd (_stable_grip_reward G cfg bk (set_success false st)))
                       _ ds _ (move_info_displacement cfg v) (or_intror Ec))
             as (o' & Hd' & _ & _ & _ & _ & _ & Hcase).
           assert (Heq : Ok o' = Ok o) by (rewrite <- Hd'; exact Hd).
        injection Heq as <-.
           fold moved in Hcase. rewrite Em in Hcase.
           unfold v in Hcase. rewrite Htouch in Hcase. apply Hcase.
    + destruct align.
      * cbn in Hcur. injection Hcur as <-.
        destruct (dispatch_carry G cfg bk 5 "move_leg" ac v
                    (snd (_stable_grip_reward G cfg bk (set_success false st)))
                    _ ds _ eq_refl (conj (le_S _ _ (le_S _ _ (le_n 3))) (le_n 5))
                    Hds (move_info_displacement cfg v))
          as (o' & succ & Hd' & Hflag & _ & _ & _ & Hcase).
        assert (Heq : Ok o' = Ok o) by (rewrite <- Hd'; exact Hd).
        injection Heq as <-.
        unfold v in Hcase. rewrite Htouch in Hcase. cbn [negb orb] in Hcase.
        fold v in Hcase. fold moved in Hcase.
        destruct moved.
        -- apply Hcase.
        -- exists succ. split.
           { eapply dict_flag_transfer; [|exact Hflag].
             intros val. apply Hinfo.
             apply (succ_key_not_later "move_leg"). simpl. auto 10. }
           destruct Hcase as (_ & Hcase).
           destruct succ; destruct Hcase as (_ & Hb); exact Hb.
      * cbn in Hcur. injection Hcur as <-.
        destruct (dispatch_carry G cfg bk 3 "lift_leg" ac v
                    (snd (_stable_grip_reward G cfg bk (set_success false st)))
                    _ ds _ eq_refl (conj (le_n 3) (le_S _ _ (le_S _ _ (le_n 3))))
                    Hds (move_info_displacement cfg v))
          as (o' & succ & Hd' & Hflag & _ & _ & _ & Hcase).
        assert (Heq : Ok o' = Ok o) by (rewrite <- Hd'; exact Hd).
        injection Heq as <-.
        unfold v in Hcase. rewrite Htouch in Hcase. cbn [negb orb] in Hcase.
        fold v in Hcase. fold moved in Hcase.
        destruct moved.
        -- apply Hcase.
        -- exists succ. split.
           { eapply dict_flag_transfer; [|exact Hflag].
             intros val. apply Hinfo.
             apply (succ_key_not_later "lift_leg"). simpl. auto 10. }
           destruct Hcase as (_ & Hcase).
           destruct succ; destruct Hcase as (_ & Hb); exact Hb.
  - intros ac Hassert Hcase.
    assert (Hok : exists phase o,
              current_phase G cfg bk st = Ok phase /\
              phase_dispatch G cfg bk phase ac v
                (snd (_stable_grip_reward G cfg bk (set_success false st)))
                (snd (_move_other_part_penalty cfg v)) ds = Ok o).
    { unfold current_phase. fold ds. rewrite Hds.
      destruct fine.
      - assert (Hstay : moved = true \/ _connected bk = false)
          by (destruct Hcase as [Hf|Hc]; [discriminate Hf | exact Hc]).
        destruct (dispatch_fine_stay G cfg bk ac v
                    (snd (_stable_grip_reward G cfg bk (set_success false st)))
                    _ ds _ (move_info_displacement cfg v) Hstay)
          as (o & Hd & _).
        exists "move_leg_fine", o. split; [reflexivity | exact Hd].
      - destruct align.
        + destruct (dispatch_carry G cfg bk 5 "move_leg" ac v
                      (snd (_stable_grip_reward G cfg bk (set_success false st)))
                      _ ds _ eq_refl
                      (conj (le_S _ _ (le_S _ _ (le_n 3))) (le_n 5))
                      Hds (move_info_displacement cfg v))
            as (o & succ & Hd & _).
          exists "move_leg", o. split; [reflexivity | exact Hd].
        + destruct (dispatch_carry G cfg bk 3 "lift_leg" ac v
                      (snd (_stable_grip_reward G cfg bk (set_success false st)))
                      _ ds _ eq_refl
                      (conj (le_n 3) (le_S _ _ (le_S _ _ (le_n 3))))
                      Hds (move_info_displacement cfg v))
            as (o & succ & Hd & _).
          exists "lift_leg", o. split; [reflexivity | exact Hd]. }
    destruct Hok as (phase & o & Hcur & Hd).
    destruct (step_intro G cfg bk ac st _ o Hassert Hcur Hd)
      as (rew & info & Hstep & _).
    exists (o_state o), rew, (o_done o), info. exact Hstep.
Qed.

End EarlyPicking.

(** The amended statement in the example furniture: after a reset the leg
    is held upright with a stable grip; the early-picking check moves to
    lift_leg, the early-align check moves on to move_leg in the same step,
    and the step, which does not complete move_leg, awards no bonus. *)
Lemma early_picking_skip_witness :
  exists st st' rew done info b,
    Scenario.start false = Ok st /\
    _phase_i (after_picking Scenario.geometry (Scenario.config false)
                (Scenario.backend Scenario.held_upright) st) = 3%nat /\
    _compute_reward Scenario.geometry (Scenario.config false)
      (Scenario.backend Scenario.held_upright) Scenario.hold st
    = Ok (st', (rew, done, info)) /\
    dict_get "phase_i" info = Some (VIdx 5) /\
    dict_get "phase_bonus" info = Some (VNum b) /\
    b == 0.
Proof.
  eexists.
  assert (H0 : Scenario.start false = Ok ?[st]) by (vm_compute; reflexivity).
  match type of H0 with
  | _ = Ok ?s =>
      assert (Hs : _compute_reward Scenario.geometry (Scenario.config false)
                     (Scenario.backend Scenario.held_upright) Scenario.hold s
                   = Ok (?[st'], (?[rew], ?[done], ?[info])))
        by (vm_compute; reflexivity);
      assert (Hph : (_phase_i s < 2)%nat) by (vm_compute; lia);
      pose proof (early_picking_skip Scenario.geometry (Scenario.config false)
                    (Scenario.backend Scenario.held_upright) s
                    eq_refl eq_refl Hph) as H
  end.
  cbv zeta in H.
  destruct H as (H3 & _ & Hpi & _ & Hb & _).
  destruct (Hb _ _ _ _ _ Hs) as (b & Hget & Hcase).
  vm_compute in Hcase. destruct Hcase as (carried & Hflag & Hval).
  do 4 eexists. exists b.
  split; [exact H0|]. split; [exact H3|]. split; [exact Hs|].
  split; [rewrite (Hpi _ _ _ _ _ Hs); vm_compute; reflexivity|].
  split; [exact Hget|].
  injection Hflag as <-. exact Hval.
Defined.

(** ** Forward transitions *)

(** C4 as stated fails, in the example furniture.
    - In differential mode the gripper has been lowered onto the leg (phase
      grasp_leg, index 2);
      in the next step both fingers touch the leg, so grasp_leg's success
      flag is set, but the gripper lies on its side and the stable-grip flag
      is not set: the step stays in grasp_leg and awards no bonus.
    - The gripped leg is in lift_leg (index 3) and reaches the lift target, so
      lift_leg's success flag is set, but the table has moved by 0.2: the
      step ends the episode in lift_leg.
    - The held upright leg is in move_leg (index 5) and reaches the point
      above the table site: the transition to move_leg_fine adds 50, five
      times the per-phase bonus 10. *)
Lemma forward_transition_counterexample :
  (exists st outs st' rew done info,
     Scenario.episode true [Scenario.at_rest; Scenario.lowered] = Ok (st, outs) /\
     current_phase Scenario.geometry (Scenario.config true)
       (Scenario.backend Scenario.touched_unstable) st = Ok "grasp_leg" /\
     _compute_reward Scenario.geometry (Scenario.config true)
       (Scenario.backend Scenario.touched_unstable) Scenario.hold st
     = Ok (st', (rew, done, info)) /\
     dict_flag "grasp_leg_succ" info = Ok true /\
     dict_flag "stable_grip_succ" info = Ok false /\
     _phase_i st = 2%nat /\
     _phase_i st' = 2%nat /\
     dict_get "phase_bonus" info = Some (VNum 0)) /\
  (exists st outs st' rew done info,
     Scenario.episode false [Scenario.gripped] = Ok (st, outs) /\
     current_phase Scenario.geometry (Scenario.config false)
       (Scenario.backend Scenario.lifted_table_moved) st = Ok "lift_leg" /\
     _compute_reward Scenario.geometry (Scenario.config false)
       (Scenario.backend Scenario.lifted_table_moved) Scenario.hold st
     = Ok (st', (rew, done, info)) /\
     dict_flag "lift_leg_succ" info = Ok true /\
     _phase_i st = 3%nat /\
     _phase_i st' = 3%nat /\
     done = true) /\
  (exists st outs st' rew done info b,
     Scenario.episode false [Scenario.held_upright] = Ok (st, outs) /\
     current_phase Scenario.geometry (Scenario.config false)
       (Scenario.backend Scenario.above_site) st = Ok "move_leg" /\
     _compute_reward Scenario.geometry (Scenario.config false)
       (Scenario.backend Scenario.above_site) Scenario.hold st
     = Ok (st', (rew, done, info)) /\
     dict_flag "move_leg_succ" info = Ok true /\
     _phase_i st = 5%nat /\
     _phase_i st' = 6%nat /\
     dict_get "phase_bonus" info = Some (VNum b) /\
     b == 50 /\
     ~ b == _phase_bonus (Scenario.config false)).
Proof.
  split; [|split].
  - do 6 eexists.
    split; [vm_compute; reflexivity|].
    split; [vm_compute; reflexivity|].
    split; [vm_compute; reflexivity|].
    split; [vm_compute; reflexivity|].
    split; [vm_compute; reflexivity|].
    split; [vm_compute; reflexivity|].
    split; vm_compute; reflexivity.
  - do 6 eexists.
    split; [vm_compute; reflexivity|].
    split; [vm_compute; reflexivity|].
    split; [vm_compute; reflexivity|].
    split; [vm_compute; reflexivity|].
    split; [vm_compute; reflexivity|].
    split; vm_compute; reflexivity.
  - do 7 eexists.
    split; [vm_compute; reflexivity|].
    split; [vm_compute; reflexivity|].
    split; [vm_compute; reflexivity|].
    split; [vm_compute; reflexivity|].
    split; [vm_compute; reflexivity|].
    split; [vm_compute; reflexivity|].
    split; [vm_compute; reflexivity|].
    split; [vm_compute; reflexivity|].
    vm_compute. discriminate.
Qed.

Section ForwardTransition.

Variables (G : Geometry) (cfg : Config) (bk : Backend).

(** C4, amended: when one of the first six phases is dispatched, the phase
    index advances by one exactly when the phase's success flag is set and,
    for move_eef_above_leg, lower_eef_to_leg and grasp_leg, the stable-grip
    flag is set as well, and, for lift_leg, align_leg and move_leg, both
    fingers touch the leg and the table has moved by at most 0.1.  The
    transition adds the per-phase bonus, five times the per-phase bonus from
    move_leg; without a transition the phase index stays.  The step of
    grasp_leg is one that finds the gripper baseline [_prev_grasp_dist]
    assigned. *)
Theorem forward_transition (ac : Action) (st : State) (i : nat)
    (phase : string)
    (Hassert : assertions_hold G cfg ac)
    (Hi : _phase_i (dispatch_state G cfg bk st) = i)
    (Hphase : nth_error _phases i = Some phase)
    (Hlt : (i < 6)%nat)
    (Hgrasp : i = 2%nat -> _prev_grasp_dist st <> None) :
  let v := values G cfg bk st in
  let gate :=
    if Nat.leb i 2 then stable_grip_succ G cfg bk st
    else v_leg_touched v && negb (Qgtb (v_table_displacement v) 0.1) in
  exists st' rew done info succ b,
    _compute_reward G cfg bk ac st = Ok (st', (rew, done, info)) /\
    dict_flag (phase ++ "_succ") info = Ok succ /\
    dict_get "phase_bonus" info = Some (VNum b) /\
    (_phase_i st' = S i <-> succ = true /\ gate = true) /\
    (_phase_i st' = S i ->
     b == (if Nat.eqb i 5 then _phase_bonus cfg * 5 else _phase_bonus cfg)) /\
    (_phase_i st' <> S i -> _phase_i st' = i).
Proof.
  intros v gate.
  assert (Hcur : current_phase G cfg bk st = Ok phase).
  { unfold current_phase, list_index. rewrite Hi, Hphase. reflexivity. }
  assert (Hin : ~ In (phase ++ "_succ") later_keys).
  { apply succ_key_not_later. eapply nth_error_In; eauto. }
  assert (Hd : exists o succ,
            phase_dispatch G cfg bk phase ac v
              (snd (_stable_grip_reward G cfg bk (set_success false st)))
              (snd (_move_other_part_penalty cfg v))
              (dispatch_state G cfg bk st) = Ok o /\
            dict_flag (phase ++ "_succ") (o_phase_info o) = Ok succ /\
            (_phase_i (o_state o) = S i <-> succ = true /\ gate = true) /\
            (_phase_i (o_state o) = S i ->
             o_phase_bonus o
             == (if Nat.eqb i 5 then _phase_bonus cfg * 5 else _phase_bonus cfg)) /\
            (_phase_i (o_state o) <> S i -> _phase_i (o_state o) = i)).
  { unfold gate. destruct (Nat.leb i 2) eqn:E2.
    - apply Nat.leb_le in E2.
      destruct (dispatch_approach G cfg bk i phase ac v _
                  (snd (_move_other_part_penalty cfg v))
                  (dispatch_state G cfg bk st) _ Hphase E2 Hi
                  (stable_grip_flag_eq G cfg bk st)
                  (fun Ei => eq_ind_r (fun x => x <> None) (Hgrasp Ei)
                               (dispatch_state_grasp_dist G cfg bk st)))
        as (o & succ & Hd & Hflag & _ & _ & _ & _ & Hcase).
      exists o, succ. split; [exact Hd|]. split; [exact Hflag|].
      assert (E5 : Nat.eqb i 5 = false) by (apply Nat.eqb_neq; lia).
      rewrite E5.
      destruct succ; destruct (stable_grip_succ G cfg bk st); cbn in Hcase;
        destruct Hcase as [Hp Hb];
        (split; [split; [intros; try (exfalso; lia); auto
                        | intros [? ?]; try discriminate; auto]|]);
        (split; [intros; try (exfalso; lia); auto
                | intros; try contradiction; auto]).
    - apply Nat.leb_gt in E2.
      destruct (dispatch_carry G cfg bk i phase ac v
                  (snd (_stable_grip_reward G cfg bk (set_success false st)))
                  _ (dispatch_state G cfg bk st) _ Hphase
                  (conj E2 (proj1 (Nat.lt_succ_r _ _) Hlt)) Hi
                  (move_info_displacement cfg v))
        as (o & succ & Hd & Hflag & _ & _ & _ & Hcase).
      exists o, succ. split; [exact Hd|]. split; [exact Hflag|].
      destruct (v_leg_touched v); destruct (Qgtb (v_table_displacement v) 0.1);
        cbn in Hcase |- *;
        [ destruct Hcase as (_ & Hp & Hb)
        | destruct Hcase as (_ & Hcase); destruct succ;
          destruct Hcase as [Hp Hb]
        | destruct Hcase as (_ & Hp & Hb)
        | destruct Hcase as (_ & Hp & Hb) ];
        (split; [split; [intros; try (exfalso; lia); auto
                        | intros [? ?]; try discriminate; auto]|]);
        (split; [intros; try (exfalso; lia); auto
                | intros; try contradiction; auto]). }
  destruct Hd as (o & succ & Hd & Hflag & Hiff & Hb & Hstay).
  destruct (step_intro G cfg bk ac st phase o Hassert Hcur Hd)
    as (rew & info & Hstep & Hrep).
  destruct Hrep as (Hpb & _ & _ & _ & Hinfo).
  exists (o_state o), rew, (o_done o), info, succ, (o_phase_bonus o).
  split; [exact Hstep|].
  split.
  { eapply dict_flag_transfer; [|exact Hflag]. intros val. apply Hinfo.
    exact Hin. }
  split; [exact Hpb|].
  split; [exact Hiff|]. split; [exact Hb | exact Hstay].
Qed.

End ForwardTransition.

(** The amended statement in the example furniture, in differential mode:
    the gripper has been lowered onto the leg, the reset has assigned the
    gripper baseline, and the step of grasp_leg finds both fingers on the
    leg without a stable grip, so the phase index stays at 2. *)
Lemma forward_transition_witness :
  exists st outs st' rew done info,
    Scenario.episode true [Scenario.at_rest; Scenario.lowered] = Ok (st, outs) /\
    _prev_grasp_dist st <> None /\
    _compute_reward Scenario.geometry (Scenario.config true)
      (Scenario.backend Scenario.touched_unstable) Scenario.hold st
    = Ok (st', (rew, done, info)) /\
    _phase_i st' = 2%nat.
Proof.
  do 2 eexists.
  assert (He : Scenario.episode true [Scenario.at_rest; Scenario.lowered]
               = Ok (?[st], ?[outs])) by (vm_compute; reflexivity).
  match type of He with
  | _ = Ok (?s, _) =>
      destruct (forward_transition Scenario.geometry (Scenario.config true)
                  (Scenario.backend Scenario.touched_unstable) Scenario.hold s
                  2 "grasp_leg")
        as (st' & rew & done & info & succ & b & Hstep & _ & _ & Hiff & _ & Hstay)
  end.
  - split; vm_compute; discriminate.
  - vm_compute. reflexivity.
  - reflexivity.
  - lia.
  - intros _. vm_compute. discriminate.
  - exists st', rew, done, info. split; [exact He|].
    split; [vm_compute; discriminate|]. split; [exact Hstep|].
    apply Hstay. intros E. apply Hiff in E. destruct E as [_ E].
    vm_compute in E. discriminate E.
Defined.

(** ** Completing a subtask *)

(** C2 as stated fails: after a reset of the example furniture, the leg sits
    at the table site and the simulator reports the connection, but the
    table site is 0.2 away from where it was at the reset.  The fine phase
    is dispatched and reports connect success, yet the subtask index is not
    incremented: the step ends the episode without success. *)
Lemma connect_success_counterexample :
  exists st st' rew done info,
    Scenario.start false = Ok st /\
    current_phase Scenario.geometry (Scenario.config false)
      (Scenario.backend (Scenario.at_site false true 1.2 0)) st
    = Ok "move_leg_fine" /\
    _compute_reward Scenario.geometry (Scenario.config false)
      (Scenario.backend (Scenario.at_site false true 1.2 0)) Scenario.hold st
    = Ok (st', (rew, done, info)) /\
    dict_flag "connect_succ" info = Ok true /\
    _subtask_step st' = _subtask_step st /\
    done = true /\
    _success st' = false.
Proof.
  do 5 eexists.
  split; [vm_compute; reflexivity|].
  split; [vm_compute; reflexivity|].
  split; [vm_compute; reflexivity|].
  split; [vm_compute; reflexivity|].
  split; [vm_compute; reflexivity|].
  split; vm_compute; reflexivity.
Qed.

Section ConnectSuccess.

Variables (G : Geometry) (cfg : Config) (bk : Backend).

(** C2, amended: when the fine phase reports connect success and the table
    has moved by at most 0.1, the subtask index is incremented; if it then
    equals the number of connections to make, the step returns done = True
    with the success flag set; otherwise (the recipe describing the next
    subtask) the phase index is 0, the reward variables are those that
    [_update_reward_variables] computes, which is the routine that the reset
    calls, and the step returns done = False. *)
Theorem connect_success (ac : Action) (st : State)
    (Hassert : assertions_hold G cfg ac)
    (Hphase : current_phase G cfg bk st = Ok "move_leg_fine")
    (Hconn : _connected bk = true)
    (Htd : v_table_displacement (values G cfg bk st) <= 0.1) :
  let k := S (_subtask_step st) in
  (k = _success_num_conn cfg ->
   exists st' rew info,
     _compute_reward G cfg bk ac st = Ok (st', (rew, true, info)) /\
     dict_flag "connect_succ" info = Ok true /\
     _subtask_step st' = k /\
     _success st' = true) /\
  (k <> _success_num_conn cfg ->
   subtask_defined cfg k = true ->
   exists st' rew info reinit,
     _compute_reward G cfg bk ac st = Ok (st', (rew, false, info)) /\
     dict_flag "connect_succ" info = Ok true /\
     _subtask_step st' = k /\
     _phase_i st' = 0%nat /\
     _success st' = false /\
     _update_reward_variables G cfg bk k
       (set_subtask_step k (set_phase_i 0 (dispatch_state G cfg bk st)))
     = Ok reinit /\
     st' = set_success false reinit) /\
  (forall s,
     _reset G cfg bk s
     = _update_reward_variables G cfg bk (_preassembled cfg)
         (set_subtask_step (_preassembled cfg) s)).
Proof.
  intros k.
  pose proof (dispatch_state_frame G cfg bk st) as (Hsub & Hsucc & _).
  apply Qgtb_le in Htd.
  pose proof (dispatch_fine_connect G cfg bk ac (values G cfg bk st)
                (snd (_stable_grip_reward G cfg bk (set_success false st)))
                _ (dispatch_state G cfg bk st) _
                (move_info_displacement cfg _) Htd Hconn) as Hd.
  unfold _set_next_subtask in Hd.
  cbn [_subtask_step set_phase_i set_subtask_step] in Hd.
  rewrite Hsub, Nat.add_1_r in Hd. fold k in Hd.
  assert (Hkey : ~ In "connect_succ" later_keys).
  { unfold later_keys. simpl.
    intros H; repeat (destruct H as [H|H]; [discriminate H|]); exact H. }
  split; [|split].
  - intros Hk. apply Nat.eqb_eq in Hk. rewrite Hk in Hd. cbn [bind] in Hd.
    destruct (step_intro G cfg bk ac st _ _ Hassert Hphase Hd)
      as (rew & info & Hstep & Hrep).
    destruct Hrep as (_ & _ & _ & _ & Hinfo).
    cbn [o_state o_done] in Hstep.
    eexists _, rew, info. split; [exact Hstep|].
    split.
    { unfold dict_flag. rewrite (Hinfo "connect_succ" (VBool true) Hkey eq_refl).
      reflexivity. }
    split; reflexivity.
  - intros Hk Hdef. apply Nat.eqb_neq in Hk. rewrite Hk in Hd.
    destruct (update_reward_variables_ok G cfg bk k
                (set_subtask_step k (set_phase_i 0 (dispatch_state G cfg bk st)))
                Hdef) as [reinit Hup].
    rewrite Hup in Hd. cbn [bind] in Hd.
    destruct (step_intro G cfg bk ac st _ _ Hassert Hphase Hd)
      as (rew & info & Hstep & Hrep).
    destruct Hrep as (_ & _ & _ & _ & Hinfo).
    cbn [o_state o_done] in Hstep.
    destruct (update_reward_variables_frame G cfg bk _ _ _ Hup)
      as (H0 & Hs & _).
    exists (set_success false reinit), rew, info, reinit.
    split; [exact Hstep|].
    split.
    { unfold dict_flag. rewrite (Hinfo "connect_succ" (VBool true) Hkey eq_refl).
      reflexivity. }
    split; [exact Hs|]. split; [exact H0|].
    split; [reflexivity|]. split; [exact Hup | reflexivity].
  - intros s. reflexivity.
Qed.

End ConnectSuccess.

(** The amended statement in the example furniture: the first leg is
    connected with the table where it was at the reset; the second subtask
    starts. *)
Lemma connect_success_witness :
  exists st st' rew info,
    Scenario.start false = Ok st /\
    _compute_reward Scenario.geometry (Scenario.config false)
      (Scenario.backend (Scenario.at_site false true 1 0)) Scenario.hold st
    = Ok (st', (rew, false, info)) /\
    _subtask_step st' = 1%nat /\
    _phase_i st' = 0%nat.
Proof.
  eexists.
  assert (Hs : Scenario.start false = Ok ?[st]) by (vm_compute; reflexivity).
  match type of Hs with
  | _ = Ok ?s =>
      pose proof (connect_success Scenario.geometry (Scenario.config false)
                    (Scenario.backend (Scenario.at_site false true 1 0))
                    Scenario.hold s) as H
  end.
  cbv zeta in H.
  destruct H as (_ & H & _).
  - split; vm_compute; discriminate.
  - vm_compute. reflexivity.
  - reflexivity.
  - vm_compute. discriminate.
  - destruct H as (st' & rew & info & reinit & Hstep & _ & Hk & H0 & _).
    + vm_compute. lia.
    + vm_compute. reflexivity.
    + exists st', rew, info. split; [exact Hs|]. split; [exact Hstep|].
      split; [exact Hk | exact H0].
Defined.

(** ** Phase-bonus accounting *)

(** C9 as stated fails: in the example furniture the fine phase sees the
    parts aligned, then not aligned, then aligned again, and then the
    connection happens.  One consecutive aligned frame precedes the connect
    event, but the counter is 2 and the bonus is 5 * 10 - 2 * 1 = 48. *)
Lemma dwell_penalty_counterexample :
  let scenes :=
    [Scenario.at_site true false 1 0; Scenario.at_site false false 1 1;
     Scenario.at_site true false 1 2] in
  exists st outs st' rew done info b,
    Scenario.episode false scenes = Ok (st, outs) /\
    _compute_reward Scenario.geometry (Scenario.config false)
      (Scenario.backend (Scenario.at_site false true 1 3)) Scenario.hold st
    = Ok (st', (rew, done, info)) /\
    dict_flag "connect_succ" info = Ok true /\
    dict_get "phase_bonus" info = Some (VNum b) /\
    consecutive_aligned_frames (map Scenario.sc_aligned scenes) = 1%nat /\
    _leg_fine_aligned st = 2%nat /\
    ~ b == _phase_bonus (Scenario.config false) * 5
           - n2q (consecutive_aligned_frames (map Scenario.sc_aligned scenes))
             * _aligned_bonus_coef (Scenario.config false).
Proof.
  intros scenes. do 7 eexists.
  split; [vm_compute; reflexivity|].
  split; [vm_compute; reflexivity|].
  split; [vm_compute; reflexivity|].
  split; [vm_compute; reflexivity|].
  split; [vm_compute; reflexivity|].
  split; [vm_compute; reflexivity|].
  vm_compute. discriminate.
Qed.

Section BonusAccounting.

Variables (G : Geometry) (cfg : Config) (bk : Backend).

(** C9, amended: a forward transition awards the per-phase bonus, except the
    transition from move_leg to move_leg_fine and the connect event, which
    award five times the per-phase bonus; the connect event also subtracts
    aligned_bonus_coef times the counter [_leg_fine_aligned].  That counter
    is 0 when a subtask starts and grows by one in every step in which the
    fine phase runs and finds the parts aligned and not yet connected; it is
    not reset when the alignment is lost, so it counts all such frames of
    the subtask, consecutive or not. *)
Theorem phase_bonus_accounting (ac : Action) (st st' : State) (rew : Q)
    (done : bool) (info : dict)
    (Hstep : _compute_reward G cfg bk ac st = Ok (st', (rew, done, info))) :
  let i := _phase_i (dispatch_state G cfg bk st) in
  exists b,
    dict_get "phase_bonus" info = Some (VNum b) /\
    ((i < 6)%nat -> _phase_i st' = S i ->
     b == (if Nat.eqb i 5 then _phase_bonus cfg * 5 else _phase_bonus cfg)) /\
    (i = 6%nat -> _connected bk = true ->
     v_table_displacement (values G cfg bk st) <= 0.1 ->
     b == _phase_bonus cfg * 5
          - n2q (_leg_fine_aligned st) * _aligned_bonus_coef cfg) /\
    (_subtask_step st' = _subtask_step st ->
     _leg_fine_aligned st'
     = (_leg_fine_aligned st
        + if Nat.eqb i 6 && negb (_connected bk)
             && _is_aligned bk (_leg_site st) (_table_site st)
          then 1 else 0)%nat) /\
    (_subtask_step st' <> _subtask_step st -> done = false ->
     _leg_fine_aligned st' = 0%nat) /\
    (forall s s', _reset G cfg bk s = Ok s' -> _leg_fine_aligned s' = 0%nat).
Proof.
  intros i.
  destruct (step_inv G cfg bk _ _ _ _ _ _ Hstep)
    as (phase & o & Hp & Hd & -> & -> & Hrep).
  destruct Hrep as (Hpb & _).
  exists (o_phase_bonus o). split; [exact Hpb|].
  destruct (current_phase_nth G cfg bk st phase Hp) as [Hn Hlt].
  pose proof (dispatch_state_frame G cfg bk st)
    as (Hsub & _ & Hctr & _ & _ & _ & Hls & Hts).
  pose proof (move_info_displacement cfg (values G cfg bk st)) as Htd.
  assert (Hreset : forall s s', _reset G cfg bk s = Ok s' ->
                     _leg_fine_aligned s' = 0%nat).
  { intros s s' H. unfold _reset, _reset_reward_variables in H.
    destruct (update_reward_variables_frame G cfg bk _ _ _ H)
      as (_ & _ & _ & H0 & _). exact H0. }
  fold i in Hn, Hlt.
  destruct (le_lt_dec i 2) as [H2|H2].
  { destruct (dispatch_approach_inv G cfg bk i phase ac (values G cfg bk st) _
                (snd (_move_other_part_penalty cfg (values G cfg bk st)))
                (dispatch_state G cfg bk st) _ o Hn H2 eq_refl
                (stable_grip_flag_eq G cfg bk st) Hd)
      as (succ & _ & _ & Hs & _ & Hc & Hcase).
    assert (E5 : Nat.eqb i 5 = false) by (apply Nat.eqb_neq; lia).
    assert (E6 : Nat.eqb i 6 = false) by (apply Nat.eqb_neq; lia).
    rewrite E5, E6. cbn [andb].
    split.
    { intros _ HS. destruct (succ && _); destruct Hcase as [Hph Hb];
        [exact Hb | exfalso; lia]. }
    split; [intros H6; exfalso; lia|].
    split; [intros _; rewrite Hc, Hctr; lia|].
    split; [intros Hne; exfalso; apply Hne; congruence | exact Hreset]. }
  destruct (le_lt_dec i 5) as [H5|H5].
  { destruct (dispatch_carry G cfg bk i phase ac (values G cfg bk st)
                (snd (_stable_grip_reward G cfg bk (set_success false st)))
                _ (dispatch_state G cfg bk st) _ Hn (conj H2 H5) eq_refl Htd)
      as (o' & succ & Hd' & _ & Hs & _ & Hc & Hcase).
    rewrite Hd in Hd'. inv_ok.
    assert (E6 : Nat.eqb i 6 = false) by (apply Nat.eqb_neq; lia).
    rewrite E6. cbn [andb].
    split.
    { intros _ HS. destruct (negb _ || _).
      - destruct Hcase as (_ & Hph & _). exfalso. lia.
      - destruct Hcase as (_ & Hcase). destruct succ;
          destruct Hcase as [Hph Hb]; [exact Hb | exfalso; lia]. }
    split; [intros H6; exfalso; lia|].
    split; [intros _; rewrite Hc, Hctr; lia|].
    split; [intros Hne; exfalso; apply Hne; congruence | exact Hreset]. }
  assert (H6 : i = 6%nat) by lia.
  rewrite H6 in Hn. cbn in Hn. injection Hn as <-.
  rewrite H6. cbn [Nat.eqb andb].
  split; [intros Hlt6; exfalso; lia|].
  destruct (Qgtb (v_table_displacement (values G cfg bk st)) 0.1) eqn:Egt;
    [|destruct (_connected bk) eqn:Ec].
  - destruct (dispatch_fine_stay G cfg bk ac (values G cfg bk st)
                (snd (_stable_grip_reward G cfg bk (set_success false st)))
                _ (dispatch_state G cfg bk st) _ Htd (or_introl Egt))
      as (o' & Hd' & _ & Hph & Hs & _ & Hc & _).
    rewrite Hd in Hd'. inv_ok.
    split.
    { intros _ _ Hle. apply Qgtb_gt in Egt. exfalso. lra. }
    split; [intros _; rewrite Hc, Hctr, Hls, Hts; reflexivity|].
    split; [intros Hne; exfalso; apply Hne; congruence | exact Hreset].
  - rewrite (dispatch_fine_connect G cfg bk ac (values G cfg bk st)
               (snd (_stable_grip_reward G cfg bk (set_success false st)))
               _ (dispatch_state G cfg bk st) _ Htd Egt Ec) in Hd.
    destruct (_set_next_subtask G cfg bk _) as [[s1 b]|] eqn:En;
      cbn [bind] in Hd; inv_ok.
    destruct (set_next_subtask_spec G cfg bk _ _ _ En)
      as (Hs1 & _ & _ & _ & Hbf).
    cbn [_subtask_step set_phase_i o_state o_done o_phase_bonus
         set_success _leg_fine_aligned] in *.
    split.
    { intros _ _ _. rewrite Hctr. lra. }
    split; [intros Heq; exfalso; rewrite Hs1, Hsub in Heq; lia|].
    split; [|exact Hreset].
    intros _ ->.
    destruct (update_reward_variables_frame G cfg bk _ _ _ (Hbf eq_refl))
      as (_ & _ & _ & H0 & _). exact H0.
  - destruct (dispatch_fine_stay G cfg bk ac (values G cfg bk st)
                (snd (_stable_grip_reward G cfg bk (set_success false st)))
                _ (dispatch_state G cfg bk st) _ Htd (or_intror Ec))
      as (o' & Hd' & _ & Hph & Hs & _ & Hc & _).
    rewrite Hd in Hd'. inv_ok.
    split; [intros _ Hf; discriminate Hf|].
    split; [intros _; rewrite Hc, Hctr, Hls, Hts, Ec; reflexivity|].
    split; [intros Hne; exfalso; apply Hne; congruence | exact Hreset].
Qed.

End BonusAccounting.

(** The amended statement at the connect event of the counterexample: the
    bonus is 5 * phase_bonus minus the counter, which is 2. *)
Lemma phase_bonus_accounting_witness :
  exists st outs st' rew done info b,
    Scenario.episode false
      [Scenario.at_site true false 1 0; Scenario.at_site false false 1 1;
       Scenario.at_site true false 1 2] = Ok (st, outs) /\
    _compute_reward Scenario.geometry (Scenario.config false)
      (Scenario.backend (Scenario.at_site false true 1 3)) Scenario.hold st
    = Ok (st', (rew, done, info)) /\
    dict_get "phase_bonus" info = Some (VNum b) /\
    b == _phase_bonus (Scenario.config false) * 5
         - n2q (_leg_fine_aligned st)
           * _aligned_bonus_coef (Scenario.config false).
Proof.
  do 2 eexists.
  assert (He : Scenario.episode false
                 [Scenario.at_site true false 1 0;
                  Scenario.at_site false false 1 1;
                  Scenario.at_site true false 1 2] = Ok (?[st], ?[outs]))
    by (vm_compute; reflexivity).
  match type of He with
  | _ = Ok (?s, _) =>
      assert (Hstep : exists st' rew done info,
                _compute_reward Scenario.geometry (Scenario.config false)
                  (Scenario.backend (Scenario.at_site false true 1 3))
                  Scenario.hold s = Ok (st', (rew, done, info)))
        by (do 4 eexists; vm_compute; reflexivity)
  end.
  destruct Hstep as (st' & rew & done & info & Hstep).
  destruct (phase_bonus_accounting _ _ _ _ _ _ _ _ _ Hstep)
    as (b & Hpb & _ & Hconn & _).
  exists st', rew, done, info, b.
  split; [exact He|]. split; [exact Hstep|]. split; [exact Hpb|].
  apply Hconn.
  - vm_compute. reflexivity.
  - reflexivity.
  - vm_compute. discriminate.
Defined.

(** ** Differential reward *)

Lemma last_nonempty_default {A} (a d d' : A) (l : list A) :
  last (a :: l) d = last (a :: l) d'.
Proof.
  revert a. induction l as [|b l IH]; intros a; [reflexivity|].
  change (last (b :: l) d = last (b :: l) d'). apply IH.
Qed.

Lemma last_cons_default {A} (a d : A) (l : list A) :
  last (a :: l) d = last l a.
Proof.
  destruct l as [|b l]; [reflexivity|].
  change (last (b :: l) d = last (b :: l) a). apply last_nonempty_default.
Qed.

Lemma Qsum_cons (a : Q) (l : list Q) : Qsum (a :: l) = a + Qsum l.
Proof. reflexivity. Qed.

Lemma Qsum_nil : Qsum [] = 0.
Proof. reflexivity. Qed.

Section Telescoping.

Variables (G : Geometry) (cfg : Config).

(** A step that starts and dispatches in the same phase went through no skip
    check. *)
Lemma dispatch_state_same_phase bk st :
  _phase_i (dispatch_state G cfg bk st) = _phase_i st ->
  dispatch_state G cfg bk st = set_success false st.
Proof.
  unfold dispatch_state. rewrite after_picking_eq.
  unfold detect_early_align, detect_early_fine.
  split_ifs; cbn; intros He; try reflexivity; exfalso;
    bool_hyps; cbn in *;
    repeat match goal with
           | H : _ || _ = true |- _ => apply orb_true_iff in H; destruct H
           end; bool_hyps; try discriminate; lia.
Qed.

(** One step of a tracked term: the reward is the decrease of the distance
    times ten times the coefficient, and the distance becomes the
    baseline. *)
Lemma tracked_dispatch bk t ac v sgi mi s sg td phase :
  In t tracked_terms ->
  _diff_rew cfg = true ->
  _phase_i s = t_phase t ->
  nth_error _phases (t_phase t) = Some phase ->
  dict_flag "stable_grip_succ" sgi = Ok sg ->
  dict_q "table_displacement" mi = Ok td ->
  (t_phase t = 2%nat -> _prev_grasp_dist s <> None) ->
  exists o d,
    phase_dispatch G cfg bk phase ac v sgi mi s = Ok o /\
    dict_get (t_dist_key t) (o_phase_info o) = Some (VNum d) /\
    dict_get (t_rew_key t) (o_phase_info o)
    = Some (VNum ((t_prev t s - d) * t_coef t cfg * 10)) /\
    (_phase_i (o_state o) = t_phase t -> t_prev t (o_state o) = d).
Proof.
  intros Ht Hdiff Hs Hn Hsg Htd Hg.
  unfold tracked_terms in Ht. simpl in Ht.
  destruct Ht as [<-|[<-|[<-|[<-|[<-|[]]]]]]; cbn in Hs, Hn, Hg |- *;
    injection Hn as <-; unfold phase_dispatch;
    cbn [String.eqb Ascii.eqb Bool.eqb].
  - unfold _move_eef_above_leg_reward. rewrite Hdiff, Hsg. crunch;
      do 2 eexists; (split; [reflexivity|]); cbn;
      repeat split; reflexivity.
  - unfold _lower_eef_to_leg_reward. rewrite Hdiff, Hsg. crunch;
      do 2 eexists; (split; [reflexivity|]); cbn;
      repeat split; reflexivity.
  - destruct (_prev_grasp_dist s) as [g|] eqn:Eg;
      [|exfalso; apply (Hg eq_refl); reflexivity].
    unfold _grasp_leg_reward, _lower_eef_to_leg_reward.
    rewrite Hdiff, Hsg. cbn. rewrite Eg. crunch;
      do 2 eexists; (split; [reflexivity|]); cbn;
      repeat split; reflexivity.
  - unfold _align_leg_reward. rewrite Hdiff, Htd. crunch;
      do 2 eexists; (split; [reflexivity|]); cbn;
      (split; [reflexivity|]); (split; [reflexivity|]);
      intros Hph; try reflexivity; exfalso; lia.
  - unfold _move_leg_reward. rewrite Hdiff, Htd. crunch;
      do 2 eexists; (split; [reflexivity|]); cbn;
      (split; [reflexivity|]); (split; [reflexivity|]);
      intros Hph; try reflexivity; exfalso; lia.
Qed.

Lemma tracked_keys_not_later t :
  In t tracked_terms ->
  ~ In (t_dist_key t) later_keys /\ ~ In (t_rew_key t) later_keys.
Proof.
  unfold tracked_terms, later_keys. simpl.
  intros [<-|[<-|[<-|[<-|[<-|[]]]]]]; cbn; split; intros H;
    repeat (destruct H as [H|H]; [discriminate H|]); exact H.
Qed.

Lemma tracked_step bk t ac st :
  In t tracked_terms ->
  _diff_rew cfg = true ->
  _phase_i st = t_phase t ->
  _phase_i (dispatch_state G cfg bk st) = t_phase t ->
  assertions_hold G cfg ac ->
  (t_phase t = 2%nat -> _prev_grasp_dist st <> None) ->
  exists st1 out d,
    _compute_reward G cfg bk ac st = Ok (st1, out) /\
    info_num (t_dist_key t) out = d /\
    info_num (t_rew_key t) out = (t_prev t st - d) * t_coef t cfg * 10 /\
    (_phase_i st1 = t_phase t -> t_prev t st1 = d).
Proof.
  intros Ht Hdiff Hs Hds Hassert Hg.
  assert (Hlt : (t_phase t < 7)%nat).
  { unfold tracked_terms in Ht. simpl in Ht.
    destruct Ht as [<-|[<-|[<-|[<-|[<-|[]]]]]]; cbn; lia. }
  destruct (nth_error _phases (t_phase t)) as [phase|] eqn:Hn.
  2:{ apply nth_error_None in Hn. cbn in Hn. lia. }
  assert (Hcur : current_phase G cfg bk st = Ok phase).
  { unfold current_phase, list_index. rewrite Hds, Hn. reflexivity. }
  assert (Heq : dispatch_state G cfg bk st = set_success false st).
  { apply dispatch_state_same_phase. congruence. }
  destruct (tracked_dispatch bk t ac (values G cfg bk st)
              (snd (_stable_grip_reward G cfg bk (set_success false st)))
              (snd (_move_other_part_penalty cfg (values G cfg bk st)))
              (dispatch_state G cfg bk st) _ _ phase Ht Hdiff Hds Hn
              (stable_grip_flag_eq G cfg bk st)
              (move_info_displacement cfg _)
              (fun E => eq_ind_r (fun x => x <> None) (Hg E)
                          (dispatch_state_grasp_dist G cfg bk st)))
    as (o & d & Hd & Hdist & Hrew & Hprev).
  destruct (step_intro G cfg bk ac st phase o Hassert Hcur Hd)
    as (rew & info & Hstep & Hrep).
  destruct Hrep as (_ & _ & _ & _ & Hinfo).
  destruct (tracked_keys_not_later t Ht) as [Hk1 Hk2].
  exists (o_state o), (rew, o_done o, info), d.
  split; [exact Hstep|].
  unfold info_num, dict_num. cbn [snd].
  rewrite (Hinfo _ _ Hk1 Hdist), (Hinfo _ _ Hk2 Hrew).
  split; [reflexivity|]. split; [|exact Hprev].
  rewrite Heq.
  unfold tracked_terms in Ht. simpl in Ht.
  destruct Ht as [<-|[<-|[<-|[<-|[<-|[]]]]]]; reflexivity.
Qed.

Lemma update_seeds_baseline bk k s s' :
  _diff_rew cfg = true ->
  _update_reward_variables G cfg bk k s = Ok s' ->
  _prev_eef_above_leg_dist s' = eef_above_leg_dist G bk s'.
Proof.
  intros Hdiff. unfold _update_reward_variables.
  destruct (list_index (recipe cfg) k) as [[leg table]|]; cbn [bind];
    [|discriminate].
  destruct (list_index (_site_recipe cfg) k); cbn [bind]; [|discriminate].
  destruct (object_id cfg leg); cbn [bind]; [|discriminate].
  destruct (object_id cfg table); cbn [bind]; [|discriminate].
  rewrite Hdiff. intros H. inv_ok. reflexivity.
Qed.

(** C7: in differential mode, over any finite trajectory that stays in the
    phase of a tracked distance, the rewards of that distance add up to
    (d0 - dn) * coefficient * 10, where d0 is the baseline at the start and
    dn the distance at the last step, whatever the intermediate distances
    and the number of steps; when the distance ends at zero, the sum is
    coefficient * 10 * d0, the total reduction.  The tracked distances are
    the position distances of move_eef_above_leg, lower_eef_to_leg,
    grasp_leg, align_leg and move_leg.  The baseline of the first one is the
    distance measured when the subtask starts. *)
Theorem differential_reward_telescopes (t : Tracked)
    (steps : list (Backend * Action)) (st : State)
    (Ht : In t tracked_terms)
    (Hdiff : _diff_rew cfg = true)
    (Hstay : stays_in G cfg (t_phase t) steps st) :
  (exists st' outs,
     run G cfg steps st = Ok (st', outs) /\
     List.length outs = List.length steps /\
     let d0 := t_prev t st in
     let dn := last (map (info_num (t_dist_key t)) outs) d0 in
     Qsum (map (info_num (t_rew_key t)) outs)
     == (d0 - dn) * t_coef t cfg * 10 /\
     (dn == 0 ->
      Qsum (map (info_num (t_rew_key t)) outs) == t_coef t cfg * 10 * d0)) /\
  (forall bk k s s',
     _update_reward_variables G cfg bk k s = Ok s' ->
     _prev_eef_above_leg_dist s' = eef_above_leg_dist G bk s').
Proof.
  split; [|intros bk k s s'; apply update_seeds_baseline; exact Hdiff].
  revert st Hstay.
  induction steps as [|[bk ac] rest IH]; intros st Hstay.
  - exists st, []. split; [reflexivity|]. split; [reflexivity|].
    cbv zeta. cbn [map last]. rewrite Qsum_nil. split; [ring|].
    intros H. rewrite H. ring.
  - cbn [stays_in] in Hstay. destruct Hstay as (Hs & Hds & Hassert & Hrest).
    assert (Hg : t_phase t = 2%nat -> _prev_grasp_dist st <> None).
    { intros E2.
      destruct (_compute_reward G cfg bk ac st) as [[s1 o1]|] eqn:Es;
        [|contradiction].
      apply (step_grasp_assigned G cfg bk ac st s1 o1 Es). congruence. }
    destruct (tracked_step bk t ac st Ht Hdiff Hs Hds Hassert Hg)
      as (st1 & out & d & Hstep & Hdist & Hrew & Hprev).
    rewrite Hstep in Hrest.
    destruct (IH st1 Hrest) as (st' & outs & Hrun & Hlen & Hsum & _).
    exists st', (out :: outs).
    cbn [run]. rewrite Hstep. cbn [bind]. rewrite Hrun. cbn [bind].
    split; [reflexivity|]. split; [cbn; congruence|].
    cbv zeta in Hsum |- *.
    cbn [map]. rewrite last_cons_default. rewrite Hdist, Hrew.
    assert (Htot : Qsum ((t_prev t st - d) * t_coef t cfg * 10
                         :: map (info_num (t_rew_key t)) outs)
                   == (t_prev t st
                       - last (map (info_num (t_dist_key t)) outs) d)
                      * t_coef t cfg * 10).
    { destruct rest as [|[bk' ac'] rest'].
      - destruct outs; [|discriminate Hlen]. cbn [map last].
        rewrite Qsum_cons, Qsum_nil. lra.
      - cbn [stays_in] in Hrest. destruct Hrest as (Hs1 & _).
        rewrite (Hprev Hs1) in Hsum.
        rewrite Qsum_cons, Hsum. lra. }
    split; [exact Htot|].
    intros Hz. rewrite Htot, Hz. ring.
Qed.

End Telescoping.

(** The theorem in the example furniture, in differential mode: after a reset
    with the gripper 0.5 above the floor, it comes down to 0.3 and then to
    0.18, staying in move_eef_above_leg. *)
Lemma differential_reward_telescopes_witness :
  exists st,
    _reset Scenario.geometry (Scenario.config true)
      (Scenario.backend (Scenario.hovering 0.5 0)) Scenario.blank = Ok st /\
    exists st' outs,
      run Scenario.geometry (Scenario.config true)
        [(Scenario.backend (Scenario.hovering 0.3 0), Scenario.hold);
         (Scenario.backend (Scenario.hovering 0.18 1), Scenario.hold)] st
      = Ok (st', outs) /\
      Qsum (map (info_num "eef_above_leg_rew") outs)
      == (_prev_eef_above_leg_dist st
          - last (map (info_num "eef_above_leg_dist") outs)
              (_prev_eef_above_leg_dist st))
         * _eef_pos_dist_coef (Scenario.config true) * 10.
Proof.
  eexists. split; [vm_compute; reflexivity|].
  match goal with
  | |- exists st' outs, run ?G ?c ?steps ?s = _ /\ _ =>
      destruct (differential_reward_telescopes G c
                  {| t_phase := 0; t_dist_key := "eef_above_leg_dist";
                     t_rew_key := "eef_above_leg_rew";
                     t_prev := _prev_eef_above_leg_dist;
                     t_coef := _eef_pos_dist_coef |} steps s)
        as ((st' & outs & Hrun & _ & Hsum & _) & _)
  end.
  - simpl. left. reflexivity.
  - reflexivity.
  - vm_compute. repeat split; try reflexivity; try discriminate.
  - exists st', outs. split; [exact Hrun | exact Hsum].
Defined.

(** * Further properties of the reward code *)

(** ** Assertion failures of a step *)

Section StepAssertions.

Variables (G : Geometry) (cfg : Config) (bk : Backend).

(** X1: a step raises AssertionError when the control penalty would be
    positive, whatever the phase, and when the gripper penalty would be
    positive in a phase that wants the gripper closed; in the two phases of
    the gripper-open set the gripper assertion passes for every gripper
    action, and the step returns as soon as the control assertion passes. *)
Theorem step_assertion_errors (ac : Action) (st : State) (phase : string)
    (Hphase : current_phase G cfg bk st = Ok phase) :
  (~ norm G (ac_arm ac) * - _ctrl_penalty_coef cfg <= 0 ->
   _compute_reward G cfg bk ac st = Raise AssertionError) /\
  (norm G (ac_arm ac) * - _ctrl_penalty_coef cfg <= 0 ->
   ~ In phase _grip_open_phases ->
   ~ (ac_grip ac - 1) * _gripper_penalty_coef cfg <= 0 ->
   _compute_reward G cfg bk ac st = Raise AssertionError) /\
  (norm G (ac_arm ac) * - _ctrl_penalty_coef cfg <= 0 ->
   In phase _grip_open_phases ->
   exists st' rew info,
     _compute_reward G cfg bk ac st = Ok (st', (rew, false, info)) /\
     dict_get "gripper_penalty" info = Some (VNum 0)).
Proof.
  rewrite compute_reward_unfold. unfold _ctrl_penalty.
  split; [|split].
  - intros Hc.
    destruct (Qle_bool (norm G (ac_arm ac) * - _ctrl_penalty_coef cfg) 0) eqn:E.
    + apply Qle_bool_iff in E. contradiction.
    + reflexivity.
  - intros Hc Hopen Hg.
    apply Qle_bool_iff in Hc. rewrite Hc. cbn [py_assert bind].
    rewrite Hphase. cbn [bind].
    unfold _gripper_penalty.
    unfold current_phase in Hphase. rewrite Hphase. cbn [bind].
    assert (E : existsb (String.eqb phase) _grip_open_phases = false).
    { destruct (existsb _ _) eqn:E; trivial.
      apply existsb_exists in E. destruct E as [p [Hp Hpe]].
      apply String.eqb_eq in Hpe. subst p. contradiction. }
    rewrite E. cbn [negb].
    destruct (Qle_bool ((ac_grip ac - 1) * _gripper_penalty_coef cfg) 0) eqn:E2.
    + apply Qle_bool_iff in E2. contradiction.
    + reflexivity.
  - intros Hc Hopen.
    apply Qle_bool_iff in Hc. rewrite Hc. cbn [py_assert bind].
    rewrite Hphase. cbn [bind].
    unfold _gripper_penalty.
    pose proof Hphase as Hphase'.
    unfold current_phase in Hphase. rewrite Hphase. cbn [bind].
    assert (E : existsb (String.eqb phase) _grip_open_phases = true).
    { apply existsb_exists. exists phase. split; trivial.
      apply String.eqb_refl. }
    rewrite E. cbn [negb]. cbn [py_assert bind Qle_bool].
    change (Qle_bool 0 0) with true. cbn [py_assert bind].
    destruct (current_phase_nth G cfg bk st phase Hphase') as [Hn _].
    assert (Hi1 : (_phase_i (dispatch_state G cfg bk st) <= 1)%nat).
    { destruct (_phase_i (dispatch_state G cfg bk st)) as [|[|i]]; try lia.
      exfalso. simpl in Hopen.
      destruct i as [|[|[|[|[|i]]]]]; cbn in Hn;
        try (destruct i; discriminate Hn);
        injection Hn as <-;
        destruct Hopen as [H|[H|[]]]; discriminate H. }
    assert (Hi : (_phase_i (dispatch_state G cfg bk st) <= 2)%nat) by lia.
    assert (Hg : _phase_i (dispatch_state G cfg bk st) = 2%nat ->
                 _prev_grasp_dist (dispatch_state G cfg bk st) <> None)
      by (intros E2; exfalso; lia).
    destruct (dispatch_approach G cfg bk _ phase ac (values G cfg bk st)
                (snd (_stable_grip_reward G cfg bk (set_success false st)))
                (snd (_move_other_part_penalty cfg (values G cfg bk st)))
                (dispatch_state G cfg bk st) _ Hn Hi eq_refl
                (stable_grip_flag_eq G cfg bk st) Hg)
      as (o & succ & Hd & _ & Hdone & _).
    rewrite Hd. cbn [bind]. rewrite Hdone.
    do 3 eexists. split; [reflexivity|].
    pose proof (report_reported G cfg bk phase ac st o
                  (norm G (ac_arm ac) * - _ctrl_penalty_coef cfg) 0 Hd) as Hrep.
    unfold report. unfold dict_merge.
    match goal with
    | |- dict_get _ (if ?c then _ else _) = _ => destruct c
    end; unfold dict_set; cbn [dict_get String.eqb Ascii.eqb Bool.eqb];
      rewrite dict_get_app;
      rewrite (dict_get_notin "gripper_penalty" (snd (_move_other_part_penalty cfg _)))
        by (cbn; intros [H|[H|[]]]; discriminate H);
      reflexivity.
Qed.

End StepAssertions.

(** ** How an episode ends *)

Section EpisodeEnd.

Variables (G : Geometry) (cfg : Config) (bk : Backend).

(** The phases from lift_leg on have an index of at least 3. *)
Lemma carrying_phase_index (i : nat) (phase : string) :
  nth_error _phases i = Some phase ->
  In phase ["lift_leg"; "align_leg"; "move_leg"; "move_leg_fine"] ->
  (3 <= i <= 5)%nat \/ (i = 6%nat /\ phase = "move_leg_fine").
Proof.
  intros Hn Hin.
  destruct i as [|[|[|[|[|[|[|i]]]]]]]; cbn in Hn;
    try (destruct i; discriminate Hn);
    injection Hn as <-; simpl in Hin;
    try (left; lia); try (right; split; reflexivity);
    exfalso; repeat (destruct Hin as [Hin|Hin]; [discriminate Hin|]);
    exact Hin.
Qed.

(** X2: from lift_leg on, a step in which the table site is more than 0.1
    away from where it was when the subtask started ends the episode with a
    phase bonus of -phase_bonus / 2, without success and without changing
    the phase or the subtask; in move_leg_fine this check comes before the
    connection and the drop checks, so it holds whether or not the parts
    are connected or the leg is touched. *)
Theorem table_disturbance (ac : Action) (st : State) (phase : string)
    (Hassert : assertions_hold G cfg ac)
    (Hphase : current_phase G cfg bk st = Ok phase)
    (Hin : In phase ["lift_leg"; "align_leg"; "move_leg"; "move_leg_fine"])
    (Hmoved : 0.1 < v_table_displacement (values G cfg bk st)) :
  exists st' rew info b,
    _compute_reward G cfg bk ac st = Ok (st', (rew, true, info)) /\
    dict_get "phase_bonus" info = Some (VNum b) /\
    b == - _phase_bonus cfg / 2 /\
    _success st' = false /\
    _phase_i st' = _phase_i (dispatch_state G cfg bk st) /\
    _subtask_step st' = _subtask_step st.
Proof.
  destruct (current_phase_nth G cfg bk st phase Hphase) as [Hn _].
  pose proof (dispatch_state_frame G cfg bk st) as (Hsub & Hsucc & _).
  cbv zeta in Hsub, Hsucc.
  apply Qgtb_gt in Hmoved.
  destruct (carrying_phase_index _ _ Hn Hin) as [Hi|[Hi ->]].
  - destruct (dispatch_carry G cfg bk _ phase ac (values G cfg bk st)
                (snd (_stable_grip_reward G cfg bk (set_success false st)))
                (snd (_move_other_part_penalty cfg (values G cfg bk st)))
                (dispatch_state G cfg bk st) _ Hn Hi eq_refl
                (move_info_displacement cfg _))
      as (o & succ & Hd & _ & Hs & Hsc & _ & Hcase).
    rewrite Hmoved, orb_true_r in Hcase.
    destruct Hcase as (Hdone & Hp & Hb).
    destruct (step_intro G cfg bk ac st phase o Hassert Hphase Hd)
      as (rew & info & Hstep & Hrep).
    exists (o_state o), rew, info, (o_phase_bonus o).
    rewrite Hdone in Hstep. destruct Hrep as (Hpb & _).
    repeat split; trivial; congruence.
  - destruct (dispatch_fine_stay G cfg bk ac (values G cfg bk st)
                (snd (_stable_grip_reward G cfg bk (set_success false st)))
                (snd (_move_other_part_penalty cfg (values G cfg bk st)))
                (dispatch_state G cfg bk st) _
                (move_info_displacement cfg _) (or_introl Hmoved))
      as (o & Hd & _ & Hp & Hs & Hsc & _ & Hcase).
    rewrite Hmoved in Hcase. destruct Hcase as (Hdone & Hb).
    destruct (step_intro G cfg bk ac st _ o Hassert Hphase Hd)
      as (rew & info & Hstep & Hrep).
    exists (o_state o), rew, info, (o_phase_bonus o).
    rewrite Hdone in Hstep. destruct Hrep as (Hpb & _).
    repeat split; trivial; congruence.
Qed.

(** X3: a step that returns ends the episode exactly in these cases: from
    lift_leg to move_leg when the leg is not touched or the table has moved
    by more than 0.1; in move_leg_fine when the table has moved by more than
    0.1, or else when the parts are connected and this was the last
    connection to make, or else when they are not connected and the leg is
    not touched.  The success flag is set exactly in the connected case of
    the last connection, so success implies done, and the first three phases
    never end the episode. *)
Theorem episode_end_spec (ac : Action) (st st' : State) (rew : Q)
    (done : bool) (info : dict)
    (Hstep : _compute_reward G cfg bk ac st = Ok (st', (rew, done, info))) :
  let v := values G cfg bk st in
  let i := _phase_i (dispatch_state G cfg bk st) in
  let moved := Qgtb (v_table_displacement v) 0.1 in
  let final := Nat.eqb (S (_subtask_step st)) (_success_num_conn cfg) in
  done = (if Nat.leb i 2 then false
          else if Nat.leb i 5 then negb (v_leg_touched v) || moved
          else moved || (if _connected bk then final
                         else negb (v_leg_touched v))) /\
  _success st' = (Nat.eqb i 6 && negb moved && _connected bk && final) /\
  (_success st' = true -> done = true).
Proof.
  intros v i moved final.
  destruct (step_inv G cfg bk _ _ _ _ _ _ Hstep)
    as (phase & o & Hp & Hd & -> & -> & _).
  destruct (current_phase_nth G cfg bk st phase Hp) as [Hn Hlt].
  pose proof (dispatch_state_frame G cfg bk st) as (Hsub & Hsucc & _).
  cbv zeta in Hsub, Hsucc. fold i in Hn, Hlt.
  assert (Hcases : (i <= 2)%nat \/ (3 <= i <= 5)%nat \/ i = 6%nat) by lia.
  assert (Hmain :
    o_done o = (if Nat.leb i 2 then false
                else if Nat.leb i 5 then negb (v_leg_touched v) || moved
                else moved || (if _connected bk then final
                               else negb (v_leg_touched v))) /\
    _success (o_state o)
    = (Nat.eqb i 6 && negb moved && _connected bk && final)).
  { destruct Hcases as [Hi|[Hi|Hi]].
    - fold v in Hd.
      destruct (dispatch_approach_inv G cfg bk _ phase ac v
                  (snd (_stable_grip_reward G cfg bk (set_success false st)))
                  (snd (_move_other_part_penalty cfg v))
                  (dispatch_state G cfg bk st) _ o Hn Hi eq_refl
                  (stable_grip_flag_eq G cfg bk st) Hd)
        as (succ & _ & Hdone & _ & Hs & _).
      rewrite Hdone, Hs, Hsucc.
      replace (Nat.leb i 2) with true by (symmetry; apply Nat.leb_le; lia).
      replace (Nat.eqb i 6) with false by (symmetry; apply Nat.eqb_neq; lia).
      split; reflexivity.
    - destruct (dispatch_carry G cfg bk _ phase ac v
                  (snd (_stable_grip_reward G cfg bk (set_success false st)))
                  (snd (_move_other_part_penalty cfg v))
                  (dispatch_state G cfg bk st) _ Hn Hi eq_refl
                  (move_info_displacement cfg _))
        as (o' & succ & Hd' & _ & _ & Hs & _ & Hcase).
      fold v in Hd. rewrite Hd in Hd'. inv_ok.
      rewrite Hs, Hsucc.
      replace (Nat.leb i 2) with false by (symmetry; apply Nat.leb_gt; lia).
      replace (Nat.leb i 5) with true by (symmetry; apply Nat.leb_le; lia).
      replace (Nat.eqb i 6) with false by (symmetry; apply Nat.eqb_neq; lia).
      split; [|reflexivity].
      fold moved in Hcase.
      destruct (negb (v_leg_touched v) || moved); tauto.
    - assert (phase = "move_leg_fine") as ->.
      { rewrite Hi in Hn. cbn in Hn. congruence. }
      rewrite Hi. cbn [Nat.leb Nat.eqb andb].
      fold v in Hd.
      destruct moved eqn:Em; [|destruct (_connected bk) eqn:Ec].
      + destruct (dispatch_fine_stay G cfg bk ac v
                    (snd (_stable_grip_reward G cfg bk (set_success false st)))
                    (snd (_move_other_part_penalty cfg v))
                    (dispatch_state G cfg bk st) _
                    (move_info_displacement cfg _) (or_introl Em))
          as (o' & Hd' & _ & _ & _ & Hs & _ & Hcase).
        rewrite Hd in Hd'. inv_ok.
        fold moved in Hcase. rewrite Em in Hcase.
        destruct Hcase as [-> _]. rewrite Hs, Hsucc.
        split; reflexivity.
      + rewrite (dispatch_fine_connect G cfg bk ac v
                   (snd (_stable_grip_reward G cfg bk (set_success false st)))
                   _ (dispatch_state G cfg bk st) _
                   (move_info_displacement cfg _) Em Ec) in Hd.
        destruct (_set_next_subtask G cfg bk _) as [[s1 b]|] eqn:En;
          cbn [bind] in Hd; inv_ok.
        apply set_next_subtask_spec in En.
        destruct En as (_ & Hb & _).
        cbn [_subtask_step set_phase_i] in Hb. rewrite Hsub in Hb.
        cbn [o_done o_state]. fold final in Hb. subst b.
        split; reflexivity.
      + destruct (dispatch_fine_stay G cfg bk ac v
                    (snd (_stable_grip_reward G cfg bk (set_success false st)))
                    (snd (_move_other_part_penalty cfg v))
                    (dispatch_state G cfg bk st) _
                    (move_info_displacement cfg _) (or_intror Ec))
          as (o' & Hd' & _ & _ & _ & Hs & _ & Hcase).
        rewrite Hd in Hd'. inv_ok.
        fold moved in Hcase. rewrite Em in Hcase.
        destruct Hcase as [-> _]. rewrite Hs, Hsucc.
        split; reflexivity. }
  destruct Hmain as [Hdone Hs].
  split; [exact Hdone|]. split; [exact Hs|].
  rewrite Hs, Hdone. intros H.
  apply andb_true_iff in H. destruct H as [H Hf].
  apply andb_true_iff in H. destruct H as [H Hc].
  apply andb_true_iff in H. destruct H as [H6 Hm].
  apply Nat.eqb_eq in H6. rewrite H6. cbn [Nat.leb].
  rewrite Hc, Hf. apply orb_true_r.
Qed.

End EpisodeEnd.

(** ** The skip checks *)

Section SkipChecks.

Variables (G : Geometry) (cfg : Config) (bk : Backend).

(** X4: when the phase at the early-align check is lift_leg (index 3: the
    fine-alignment check before it has not fired) and both angular
    similarities are above the align rotation threshold, the step moves to
    move_leg (index 5) before the phase is dispatched, skipping align_leg,
    and seeds the position baseline with the distance to the point above
    the table site and the two angular baselines with the current
    similarities; the phase dispatched and reported in this step is
    move_leg. *)
Theorem early_align_skip (st : State)
    (Hphase : _phase_i (detect_early_fine cfg (values G cfg bk st)
                          (after_picking G cfg bk st)) = 3%nat)
    (Hang : _align_rot_threshold cfg < v_move_ang_dist (values G cfg bk st))
    (Hfwd : _align_rot_threshold cfg
            < v_move_forward_ang_dist (values G cfg bk st)) :
  let v := values G cfg bk st in
  let ds := dispatch_state G cfg bk st in
  _phase_i ds = 5%nat /\
  current_phase G cfg bk st = Ok "move_leg" /\
  _prev_move_pos_dist ds = v_move_above_pos_dist v /\
  _prev_move_ang_dist ds = v_move_ang_dist v /\
  _prev_move_forward_ang_dist ds = v_move_forward_ang_dist v /\
  (forall ac st' rew done info,
     _compute_reward G cfg bk ac st = Ok (st', (rew, done, info)) ->
     dict_get "phase_i" info = Some (VIdx (5 + 7 * _subtask_step st)) /\
     dict_get "move_pos_dist" info = Some (VNum (v_move_above_pos_dist v)) /\
     exists pos_rew ang_rew forward_ang_rew,
       dict_get "move_pos_rew" info = Some (VNum pos_rew) /\
       dict_get "move_ang_rew" info = Some (VNum ang_rew) /\
       dict_get "move_forward_ang_rew" info = Some (VNum forward_ang_rew) /\
       (_diff_rew cfg = true ->
        pos_rew == 0 /\ ang_rew == 0 /\ forward_ang_rew == 0)).
Proof.
  intros v ds.
  apply Qgtb_gt in Hang. apply Qgtb_gt in Hfwd.
  assert (Hds : ds =
            set_prev_move_forward_ang_dist (v_move_forward_ang_dist v)
              (set_prev_move_ang_dist (v_move_ang_dist v)
                (set_prev_move_pos_dist (v_move_above_pos_dist v)
                  (set_phase_i 5
                     (detect_early_fine cfg v (after_picking G cfg bk st)))))).
  { unfold ds, dispatch_state, detect_early_align. fold v.
    unfold v in *. rewrite Hphase. cbn [Nat.eqb].
    rewrite Hang, Hfwd. reflexivity. }
  assert (H5 : _phase_i ds = 5%nat) by (rewrite Hds; reflexivity).
  assert (Hcur : current_phase G cfg bk st = Ok "move_leg").
  { unfold current_phase. fold ds. rewrite H5. reflexivity. }
  split; [exact H5|]. split; [exact Hcur|].
  split; [rewrite Hds; reflexivity|].
  split; [rewrite Hds; reflexivity|].
  split; [rewrite Hds; reflexivity|].
  intros ac st' rew done info Hstep.
  destruct (step_inv G cfg bk _ _ _ _ _ _ Hstep)
    as (phase & o & Hp & Hd & _ & _ & Hrep).
  rewrite Hcur in Hp. injection Hp as <-.
  destruct Hrep as (_ & Hpi & _ & _ & Hinfo).
  fold ds in Hpi. rewrite H5 in Hpi.
  pose proof (dispatch_state_frame G cfg bk st) as (Hsub & _).
  fold ds in Hsub. rewrite Hsub in Hpi.
  split; [exact Hpi|].
  assert (Hpd : _prev_move_pos_dist ds = v_move_above_pos_dist v)
    by (rewrite Hds; reflexivity).
  assert (Hpa : _prev_move_ang_dist ds = v_move_ang_dist v)
    by (rewrite Hds; reflexivity).
  assert (Hpf : _prev_move_forward_ang_dist ds = v_move_forward_ang_dist v)
    by (rewrite Hds; reflexivity).
  fold v ds in Hd.
  assert (Hk : forall k,
            In k ["move_pos_dist"; "move_pos_rew"; "move_ang_rew";
                  "move_forward_ang_rew"] -> ~ In k later_keys).
  { unfold later_keys. simpl.
    intros k [<-|[<-|[<-|[<-|[]]]]] H;
      repeat (destruct H as [H|H]; [discriminate H|]); exact H. }
  assert (Hpi' : exists pos_rew ang_rew forward_ang_rew,
            dict_get "move_pos_dist" (o_phase_info o)
            = Some (VNum (v_move_above_pos_dist v)) /\
            dict_get "move_pos_rew" (o_phase_info o) = Some (VNum pos_rew) /\
            dict_get "move_ang_rew" (o_phase_info o) = Some (VNum ang_rew) /\
            dict_get "move_forward_ang_rew" (o_phase_info o)
            = Some (VNum forward_ang_rew) /\
            (_diff_rew cfg = true ->
             pos_rew == 0 /\ ang_rew == 0 /\ forward_ang_rew == 0)).
  { revert Hd. unfold phase_dispatch.
    cbn [String.eqb Ascii.eqb Bool.eqb].
    unfold _move_leg_reward.
    destruct (_diff_rew cfg) eqn:Ediff; crunch; intros Hd; inv_ok;
      cbn [o_phase_info]; do 3 eexists;
      (split; [reflexivity|]); (split; [reflexivity|]);
      (split; [reflexivity|]); (split; [reflexivity|]);
      intros Hdiff; try discriminate Hdiff;
      rewrite Hpd, Hpa, Hpf; repeat split; ring. }
  destruct Hpi' as (pr & ar & fr & H1 & H2 & H3 & H4 & H0).
  split; [apply Hinfo; [apply Hk; simpl; auto | exact H1]|].
  exists pr, ar, fr.
  split; [apply Hinfo; [apply Hk; simpl; auto | exact H2]|].
  split; [apply Hinfo; [apply Hk; simpl; auto | exact H3]|].
  split; [apply Hinfo; [apply Hk; simpl; auto | exact H4]|].
  exact H0.
Qed.

(** X5: the skip checks only move forward, and only to lift_leg, move_leg or
    move_leg_fine.  From grasp_leg, move_leg and move_leg_fine no skip check
    fires: the phase dispatched is the phase the step starts in; and from
    the first two phases no skip fires without a two-finger contact and a
    stable grip. *)
Theorem skip_checks_spec (st : State) :
  let ds := dispatch_state G cfg bk st in
  (_phase_i ds = _phase_i st \/
   (_phase_i st < _phase_i ds)%nat /\
   (_phase_i ds = 3%nat \/ _phase_i ds = 5%nat \/ _phase_i ds = 6%nat)) /\
  (_phase_i st = 2%nat \/ (5 <= _phase_i st)%nat ->
   ds = set_success false st) /\
  ((_phase_i st < 2)%nat ->
   v_leg_touched (values G cfg bk st) && stable_grip_succ G cfg bk st = false ->
   ds = set_success false st).
Proof.
  intros ds. unfold ds, dispatch_state.
  rewrite after_picking_eq.
  unfold detect_early_align, detect_early_fine.
  split; [|split].
  - split_ifs; cbn; bool_hyps; cbn in *;
      repeat match goal with
             | H : _ || _ = true |- _ => apply orb_true_iff in H; destruct H
             end; bool_hyps; try discriminate;
      solve [left; reflexivity | right; split; [lia | auto]].
  - intros Hi.
    split_ifs; cbn; try reflexivity; exfalso; bool_hyps; cbn in *;
      repeat match goal with
             | H : _ || _ = true |- _ => apply orb_true_iff in H; destruct H
             end; bool_hyps; try discriminate; lia.
  - intros Hi Hno. rewrite Hno. cbn [andb].
    split_ifs; cbn; try reflexivity; exfalso; bool_hyps; cbn in *;
      repeat match goal with
             | H : _ || _ = true |- _ => apply orb_true_iff in H; destruct H
             end; bool_hyps; try discriminate; lia.
Qed.

End SkipChecks.

(** ** The assembled reward and info *)

Section Assembly.

Variables (G : Geometry) (cfg : Config) (bk : Backend).

(** A step that returns is the dispatch, with the reward and the info
    assembled from the penalties and its outcome. *)
Lemma step_inv_full ac st st' rew done info :
  _compute_reward G cfg bk ac st = Ok (st', (rew, done, info)) ->
  exists phase o cp gp,
    current_phase G cfg bk st = Ok phase /\
    phase_dispatch G cfg bk phase ac (values G cfg bk st)
      (snd (_stable_grip_reward G cfg bk (set_success false st)))
      (snd (_move_other_part_penalty cfg (values G cfg bk st)))
      (dispatch_state G cfg bk st) = Ok o /\
    _ctrl_penalty G cfg ac = Ok (cp, [("ctrl_penalty", VNum cp)]) /\
    _gripper_penalty cfg ac (dispatch_state G cfg bk st)
    = Ok (gp, [("gripper_penalty", VNum gp);
               ("gripper_action", VNum (ac_grip ac))]) /\
    st' = o_state o /\ done = o_done o /\
    rew = total_reward G cfg bk cp gp st o /\
    info = report G cfg bk [("ctrl_penalty", VNum cp)]
             [("gripper_penalty", VNum gp);
              ("gripper_action", VNum (ac_grip ac))] st o.
Proof.
  rewrite compute_reward_unfold.
  destruct (_ctrl_penalty G cfg ac) as [[cp ci]|] eqn:Ec; cbn [bind];
    [|discriminate].
  destruct (current_phase G cfg bk st) as [phase|] eqn:Ep; cbn [bind];
    [|discriminate].
  destruct (_gripper_penalty cfg ac _) as [[gp gi]|] eqn:Eg; cbn [bind];
    [|discriminate].
  destruct (phase_dispatch _ _ _ _ _ _ _ _ _) as [o|] eqn:Ed; cbn [bind];
    [|discriminate].
  intros H. inv_ok.
  pose proof (ctrl_penalty_info G cfg ac _ _ Ec).
  pose proof (gripper_penalty_info cfg ac _ _ _ Eg). subst.
  exists phase, o, cp, gp. repeat split; trivial.
Qed.

(** A key other than ["phase"] is looked up in the merged dicts, the last
    merged first. *)
Lemma report_get_merged st o ci gi k :
  k <> "phase" ->
  dict_get k (report G cfg bk ci gi st o)
  = dict_get k
      (snd (_move_other_part_penalty cfg (values G cfg bk st))
       ++ gi
       ++ snd (_stable_grip_reward G cfg bk (set_success false st))
       ++ o_phase_info o
       ++ ci
       ++ dict_set "phase_bonus" (VNum (o_phase_bonus o))
            (dict_set "touch"
               (VBool (v_leg_touched (values G cfg bk st)))
               (dict_set "subtask"
                  (VIdx (_subtask_step (dispatch_state G cfg bk st)))
                  (dict_set "phase_i"
                     (VIdx (_phase_i (dispatch_state G cfg bk st)
                            + List.length _phases
                              * _subtask_step (dispatch_state G cfg bk st)))
                     (super_info bk)))))%list.
Proof.
  intros Hk. unfold report. cbv zeta.
  destruct (_ || _); [rewrite dict_get_set_other by exact Hk|];
    unfold dict_merge; reflexivity.
Qed.

(** The gripper action is reported as the gripper penalty logs it. *)
Lemma report_gripper_action st o cp gp ga :
  dict_get "gripper_action"
    (report G cfg bk [("ctrl_penalty", VNum cp)]
       [("gripper_penalty", VNum gp); ("gripper_action", VNum ga)] st o)
  = Some (VNum ga).
Proof.
  unfold report. cbv zeta.
  destruct (_ || _); [rewrite dict_get_set_other by discriminate|];
    unfold dict_merge; reflexivity.
Qed.

(** No phase writes the key ["phase"]. *)
Lemma phase_dispatch_info_no_phase phase ac v sgi mi s o :
  phase_dispatch G cfg bk phase ac v sgi mi s = Ok o ->
  dict_get "phase" (o_phase_info o) = None.
Proof.
  intros H.
  unfold phase_dispatch in H.
  repeat match type of H with
         | (if String.eqb phase ?name then _ else _) = _ =>
             destruct (String.eqb_spec phase name) as [->|_]; [ | ]
         end;
    [ unfold _move_eef_above_leg_reward in H
    | unfold _lower_eef_to_leg_reward in H
    | unfold _grasp_leg_reward, _lower_eef_to_leg_reward in H
    | unfold _lift_leg_reward in H
    | unfold _align_leg_reward in H
    | unfold _move_leg_reward in H
    | unfold _move_leg_fine_reward in H
    | inv_ok; reflexivity ];
    revert H; destruct (dict_flag "stable_grip_succ" sgi);
    destruct (dict_q "table_displacement" mi);
    crunch;
    try match goal with
        | |- context [_prev_grasp_dist s] => destruct (_prev_grasp_dist s)
        end;
    crunch;
    try match goal with
        | |- context [_set_next_subtask ?a ?b ?c ?d] =>
            destruct (_set_next_subtask a b c d) as [[? ?]|]
        end;
    cbn; intros H; inv_ok; cbn; reflexivity.
Qed.

(** X6: the key "phase" is written exactly when the step is the last frame
    of the episode (episode length = max_episode_steps - 1) or ends it; its
    value is computed from the phase and the subtask after the transitions
    of the step, unlike the key "phase_i", computed before them.  Otherwise
    the key is left as the base class reported it.  On success its value is
    7 times the number of connections. *)
Theorem phase_logged_at_end (ac : Action) (st st' : State) (rew : Q)
    (done : bool) (info : dict)
    (Hstep : _compute_reward G cfg bk ac st = Ok (st', (rew, done, info))) :
  let last_frame := Nat.eqb (S (_episode_length bk)) (max_episode_steps cfg) in
  (last_frame || done = true ->
   dict_get "phase" info
   = Some (VIdx (_phase_i st' + 7 * _subtask_step st'))) /\
  (last_frame || done = false ->
   dict_get "phase" info = dict_get "phase" (super_info bk)) /\
  dict_get "phase_i" info
  = Some (VIdx (_phase_i (dispatch_state G cfg bk st) + 7 * _subtask_step st)) /\
  (_success st' = true ->
   dict_get "phase" info = Some (VIdx (7 * _success_num_conn cfg))).
Proof.
  intros last_frame.
  destruct (step_inv_full _ _ _ _ _ _ Hstep)
    as (phase & o & cp & gp & Hp & Hd & _ & _ & -> & -> & _ & ->).
  pose proof (dispatch_state_frame G cfg bk st) as (Hsub & Hsucc & _).
  cbv zeta in Hsub, Hsucc.
  assert (H1 : last_frame || o_done o = true ->
               dict_get "phase"
                 (report G cfg bk [("ctrl_penalty", VNum cp)]
                    [("gripper_penalty", VNum gp);
                     ("gripper_action", VNum (ac_grip ac))] st o)
               = Some (VIdx (_phase_i (o_state o) + 7 * _subtask_step (o_state o)))).
  { intros Hl. unfold report. cbv zeta. fold last_frame. rewrite Hl.
    reflexivity. }
  split; [exact H1|]. split; [|split].
  - intros Hl. unfold report. cbv zeta. fold last_frame. rewrite Hl.
    unfold dict_merge. rewrite !dict_get_app.
    rewrite (phase_dispatch_info_no_phase _ _ _ _ _ _ _ Hd).
    unfold _move_other_part_penalty, _stable_grip_reward.
    destruct (Nat.ltb (_phase_i (set_success false st)) 3); reflexivity.
  - pose proof (report_reported G cfg bk phase ac st o cp gp Hd)
      as (_ & Hpi & _).
    rewrite Hsub in Hpi. exact Hpi.
  - intros Hs.
    destruct (current_phase_nth G cfg bk st phase Hp) as [Hn Hlt].
    assert (Hfin : _phase_i (o_state o) = 0%nat /\
                   _subtask_step (o_state o) = _success_num_conn cfg /\
                   o_done o = true).
    { set (i := _phase_i (dispatch_state G cfg bk st)) in *.
      assert (Hcases : (i <= 2)%nat \/ (3 <= i <= 5)%nat \/ i = 6%nat) by lia.
      destruct Hcases as [Hi|[Hi|Hi]].
      - destruct (dispatch_approach_inv G cfg bk _ phase ac (values G cfg bk st)
                    (snd (_stable_grip_reward G cfg bk (set_success false st)))
                    (snd (_move_other_part_penalty cfg (values G cfg bk st)))
                    (dispatch_state G cfg bk st) _ o Hn Hi eq_refl
                    (stable_grip_flag_eq G cfg bk st) Hd)
          as (succ & _ & _ & _ & Hs' & _).
        congruence.
      - destruct (dispatch_carry G cfg bk _ phase ac (values G cfg bk st)
                    (snd (_stable_grip_reward G cfg bk (set_success false st)))
                    (snd (_move_other_part_penalty cfg (values G cfg bk st)))
                    (dispatch_state G cfg bk st) _ Hn Hi eq_refl
                    (move_info_displacement cfg _))
          as (o' & succ & Hd' & _ & _ & Hs' & _).
        rewrite Hd in Hd'. inv_ok. congruence.
      - assert (phase = "move_leg_fine") as ->.
        { rewrite Hi in Hn. cbn in Hn. congruence. }
        destruct (Qgtb (v_table_displacement (values G cfg bk st)) 0.1) eqn:Em;
          [|destruct (_connected bk) eqn:Ec].
        + destruct (dispatch_fine_stay G cfg bk ac (values G cfg bk st)
                      (snd (_stable_grip_reward G cfg bk (set_success false st)))
                      (snd (_move_other_part_penalty cfg (values G cfg bk st)))
                      (dispatch_state G cfg bk st) _
                      (move_info_displacement cfg _) (or_introl Em))
            as (o' & Hd' & _ & _ & _ & Hs' & _).
          rewrite Hd in Hd'. inv_ok. congruence.
        + rewrite (dispatch_fine_connect G cfg bk ac (values G cfg bk st)
                     (snd (_stable_grip_reward G cfg bk (set_success false st)))
                     _ (dispatch_state G cfg bk st) _
                     (move_info_displacement cfg _) Em Ec) in Hd.
          destruct (_set_next_subtask G cfg bk _) as [[s1 b]|] eqn:En;
            cbn [bind] in Hd; inv_ok.
          cbn [o_state o_done] in *.
          change (_success (set_success b s1)) with b in Hs. subst b.
          apply set_next_subtask_spec in En.
          destruct En as (Hk & Hb & _ & Hst & _).
          specialize (Hst eq_refl). subst s1.
          symmetry in Hb. apply Nat.eqb_eq in Hb.
          cbn [_subtask_step set_phase_i] in Hb.
          split; [reflexivity|]. split; [|reflexivity].
          cbn. rewrite <- Hb. lia.
        + destruct (dispatch_fine_stay G cfg bk ac (values G cfg bk st)
                      (snd (_stable_grip_reward G cfg bk (set_success false st)))
                      (snd (_move_other_part_penalty cfg (values G cfg bk st)))
                      (dispatch_state G cfg bk st) _
                      (move_info_displacement cfg _) (or_intror Ec))
            as (o' & Hd' & _ & _ & _ & Hs' & _).
          rewrite Hd in Hd'. inv_ok. congruence. }
    destruct Hfin as (Hp0 & Hk & Hdone).
    rewrite H1 by (rewrite Hdone; apply orb_true_r).
    rewrite Hp0, Hk. reflexivity.
Qed.

End Assembly.

(** ** The reward is the sum of the logged terms *)

Section RewardAccounting.

Variables (G : Geometry) (cfg : Config) (bk : Backend).

Ltac phase_info_tac :=
  crunch; unfold phase_info_ok, dict_total, dict_num, dict_set; cbn;
  (split; [unfold Qsum; cbn [fold_right]; unfold b2q; ring
          | repeat split; reflexivity]).

Lemma move_eef_above_leg_accounted s :
  let '(r, d, _) := _move_eef_above_leg_reward G cfg bk s in phase_info_ok r d.
Proof. unfold _move_eef_above_leg_reward. phase_info_tac. Qed.

Lemma lower_eef_to_leg_accounted s :
  let '(r, d, _) := _lower_eef_to_leg_reward G cfg bk s in phase_info_ok r d.
Proof. unfold _lower_eef_to_leg_reward. phase_info_tac. Qed.

Lemma grasp_leg_accounted ac v s r d s' :
  _grasp_leg_reward G cfg bk ac v s = Ok (r, d, s') -> phase_info_ok r d.
Proof.
  unfold _grasp_leg_reward, _lower_eef_to_leg_reward.
  destruct (_prev_grasp_dist s) as [g|] eqn:Eg.
  - destruct (_diff_rew cfg); cbn; rewrite Eg; cbn;
      destruct (v_leg_touched v && negb (_leg_touched s)); cbn;
      intros H; injection H as <- <- _;
      unfold phase_info_ok, dict_total, dict_num, dict_set; cbn;
      (split; [unfold Qsum; cbn [fold_right]; unfold b2q; ring
              | repeat split; reflexivity]).
  - destruct (_diff_rew cfg); cbn; rewrite Eg; discriminate.
Qed.

Lemma lift_leg_accounted v s :
  let '(r, d, _) := _lift_leg_reward G cfg v s in phase_info_ok r d.
Proof. unfold _lift_leg_reward. phase_info_tac. Qed.

Lemma align_leg_accounted v s :
  let '(r, d, _) := _align_leg_reward G cfg bk v s in phase_info_ok r d.
Proof. unfold _align_leg_reward. phase_info_tac. Qed.

Lemma move_leg_accounted v s :
  let '(r, d, _) := _move_leg_reward cfg v s in phase_info_ok r d.
Proof. unfold _move_leg_reward. phase_info_tac. Qed.

Lemma move_leg_fine_accounted ac v s :
  let '(r, d, _) := _move_leg_fine_reward G cfg bk ac v s in phase_info_ok r d.
Proof. unfold _move_leg_fine_reward. phase_info_tac. Qed.

(** The reward and the info that the dispatch passes on are those of a phase
    reward function. *)
Lemma dispatch_accounted phase ac v sgi mi s o :
  phase_dispatch G cfg bk phase ac v sgi mi s = Ok o ->
  phase_info_ok (o_phase_reward o) (o_phase_info o).
Proof.
  intros H. unfold phase_dispatch in H.
  repeat match type of H with
         | (if String.eqb phase ?name then _ else _) = _ =>
             destruct (String.eqb_spec phase name) as [->|_]; [ | ]
         end.
  - pose proof (move_eef_above_leg_accounted s) as Ha.
    destruct (_move_eef_above_leg_reward G cfg bk s) as [[r d] s'].
    revert H. destruct (dict_flag _ d); cbn [bind]; [|discriminate].
    destruct (dict_flag _ sgi); cbn [bind]; [|discriminate].
    destruct (_ && _); intros H; inv_ok; exact Ha.
  - pose proof (lower_eef_to_leg_accounted s) as Ha.
    destruct (_lower_eef_to_leg_reward G cfg bk s) as [[r d] s'].
    revert H. destruct (dict_flag _ d); cbn [bind]; [|discriminate].
    destruct (dict_flag _ sgi); cbn [bind]; [|discriminate].
    destruct (_ && _); intros H; inv_ok; exact Ha.
  - destruct (_grasp_leg_reward G cfg bk ac v s) as [[[r d] s']|] eqn:Er;
      cbn [bind] in H; [|discriminate H].
    pose proof (grasp_leg_accounted ac v s r d s' Er) as Ha.
    revert H. destruct (dict_flag _ d); cbn [bind]; [|discriminate].
    destruct (dict_flag _ sgi); cbn [bind]; [|discriminate].
    destruct (_ && _); intros H; inv_ok; exact Ha.
  - pose proof (lift_leg_accounted v s) as Ha.
    destruct (_lift_leg_reward G cfg v s) as [[r d] s'].
    revert H. destruct (negb _); [intros H; inv_ok; exact Ha|].
    destruct (dict_q _ mi); cbn [bind]; [|discriminate].
    destruct (Qgtb _ _); [intros H; inv_ok; exact Ha|].
    destruct (dict_flag _ d) as [[|]|]; cbn [bind]; intros H; inv_ok;
      exact Ha.
  - pose proof (align_leg_accounted v s) as Ha.
    destruct (_align_leg_reward G cfg bk v s) as [[r d] s'].
    revert H. destruct (negb _); [intros H; inv_ok; exact Ha|].
    destruct (dict_q _ mi); cbn [bind]; [|discriminate].
    destruct (Qgtb _ _); [intros H; inv_ok; exact Ha|].
    destruct (dict_flag _ d) as [[|]|]; cbn [bind]; intros H; inv_ok;
      exact Ha.
  - pose proof (move_leg_accounted v s) as Ha.
    destruct (_move_leg_reward cfg v s) as [[r d] s'].
    revert H. destruct (negb _); [intros H; inv_ok; exact Ha|].
    destruct (dict_q _ mi); cbn [bind]; [|discriminate].
    destruct (Qgtb _ _); [intros H; inv_ok; exact Ha|].
    destruct (dict_flag _ d) as [[|]|]; cbn [bind]; intros H; inv_ok;
      exact Ha.
  - pose proof (move_leg_fine_accounted ac v s) as Ha.
    destruct (_move_leg_fine_reward G cfg bk ac v s) as [[r d] s'].
    revert H. destruct (dict_q _ mi); cbn [bind]; [|discriminate].
    destruct (Qgtb _ _); [intros H; inv_ok; exact Ha|].
    destruct (dict_flag _ d) as [[|]|]; cbn [bind]; [| |discriminate].
    + destruct (_set_next_subtask _ _ _ _) as [[s1 b]|]; cbn [bind];
        intros H; inv_ok; exact Ha.
    + destruct (negb _); intros H; inv_ok; exact Ha.
  - inv_ok. cbn. unfold phase_info_ok, dict_total. cbn.
    repeat split; try reflexivity.
Qed.

(** A key that the dicts merged after [phase_info] do not hold is looked up
    in [phase_info], then in the info built before it. *)
Lemma report_get st o cp gp ga k :
  ~ In k later_keys ->
  dict_get k
    (report G cfg bk [("ctrl_penalty", VNum cp)]
       [("gripper_penalty", VNum gp); ("gripper_action", VNum ga)] st o)
  = match dict_get k (o_phase_info o) with
    | Some v => Some v
    | None =>
        dict_get k
          (dict_set "phase_bonus" (VNum (o_phase_bonus o))
            (dict_set "touch" (VBool (v_leg_touched (values G cfg bk st)))
              (dict_set "subtask"
                (VIdx (_subtask_step (dispatch_state G cfg bk st)))
                (dict_set "phase_i"
                  (VIdx (_phase_i (dispatch_state G cfg bk st)
                         + 7 * _subtask_step (dispatch_state G cfg bk st)))
                  (dict_set "ctrl_penalty" (VNum cp) (super_info bk))))))
    end.
Proof.
  intros Hk. unfold report.
  assert (Hph : k <> "phase").
  { intros ->. apply Hk. simpl. auto. }
  assert (Hinner : forall X, dict_get k
            (if Nat.eqb (S (_episode_length bk)) (max_episode_steps cfg) || o_done o
             then dict_set "phase"
                    (VIdx (_phase_i (o_state o)
                           + List.length _phases * _subtask_step (o_state o))) X
             else X) = dict_get k X).
  { intros X. destruct (_ || _); [apply dict_get_set_other; exact Hph | reflexivity]. }
  cbv zeta. rewrite Hinner. unfold dict_merge.
  rewrite dict_get_app.
  rewrite (dict_get_notin k (snd (_move_other_part_penalty cfg _))).
  2:{ intros Hin. apply Hk. eapply move_other_part_info_keys; eauto. }
  rewrite dict_get_app.
  rewrite (dict_get_notin k [_; _]).
  2:{ intros Hin. apply Hk. simpl in Hin. unfold later_keys. simpl.
      intuition auto. }
  rewrite dict_get_app.
  rewrite (dict_get_notin k (snd (_stable_grip_reward G cfg bk _))).
  2:{ intros Hin. apply Hk. eapply stable_grip_info_keys; eauto. }
  rewrite dict_get_app.
  destruct (dict_get k (o_phase_info o)); [reflexivity|].
  unfold dict_set. cbn [app]. simpl dict_get.
  destruct (String.eqb k "ctrl_penalty") eqn:E.
  - apply String.eqb_eq in E. subst k. reflexivity.
  - reflexivity.
Qed.

Hypothesis Hsuper :
  forall k, In k reward_terms -> dict_get k (super_info bk) = None.

(** A term of the phase reward is reported as the phase logs it. *)
Lemma report_phase_term st o cp gp ga k :
  In k phase_reward_terms ->
  dict_num k
    (report G cfg bk [("ctrl_penalty", VNum cp)]
       [("gripper_penalty", VNum gp); ("gripper_action", VNum ga)] st o)
  = dict_num k (o_phase_info o).
Proof.
  intros Hk. unfold dict_num. rewrite report_get.
  2:{ unfold phase_reward_terms, later_keys in *. simpl in *.
      intros H.
      repeat (destruct Hk as [<-|Hk];
              [repeat (destruct H as [H|H]; [discriminate H|]); exact H|]).
      exact Hk. }
  destruct (dict_get k (o_phase_info o)); [reflexivity|].
  assert (Hs : dict_get k (super_info bk) = None).
  { apply Hsuper. unfold reward_terms. apply in_or_app. now right. }
  unfold dict_set. simpl dict_get. rewrite Hs.
  unfold phase_reward_terms in Hk. simpl in Hk.
  repeat (destruct Hk as [<-|Hk]; [reflexivity|]). destruct Hk.
Qed.

(** X7: the reward that a step returns is the sum of the terms that its info
    logs: the control, gripper and displacement penalties, the phase bonus,
    the two stable-grip terms (logged, and counted, only when the step
    starts before lift_leg) and the terms of the dispatched phase's reward;
    this holds when the info of the base class has none of these keys. *)
Theorem reward_accounted_in_info (ac : Action) (st st' : State) (rew : Q)
    (done : bool) (info : dict)
    (Hstep : _compute_reward G cfg bk ac st = Ok (st', (rew, done, info))) :
  rew == dict_total reward_terms info.
Proof.
  destruct (step_inv_full _ _ _ _ _ _ _ _ _ Hstep)
    as (phase & o & cp & gp & Hp & Hd & _ & _ & _ & _ & -> & ->).
  destruct (dispatch_accounted _ _ _ _ _ _ _ Hd) as (Hr & Hc & Hu & Hf).
  pose proof (report_reported G cfg bk phase ac st o cp gp Hd) as (Hpb & _).
  set (R := report G cfg bk [("ctrl_penalty", VNum cp)]
              [("gripper_penalty", VNum gp);
               ("gripper_action", VNum (ac_grip ac))] st o) in *.
  assert (Hphase_terms :
            dict_total phase_reward_terms R
            == dict_total phase_reward_terms (o_phase_info o)).
  { unfold dict_total.
    rewrite (map_ext_in _
               (fun k => match dict_num k (o_phase_info o) with
                         | Some q => q | None => 0 end)).
    - reflexivity.
    - intros k Hk. unfold R. rewrite report_phase_term by exact Hk.
      reflexivity. }
  assert (Hctrl : dict_num "ctrl_penalty" R = Some cp).
  { unfold dict_num, R. rewrite report_get.
    - rewrite Hc. reflexivity.
    - unfold later_keys. simpl. intros H.
      repeat (destruct H as [H|H]; [discriminate H|]). exact H. }
  assert (Hlater : forall k, k <> "phase" ->
            dict_get k R
            = dict_get k
                (snd (_move_other_part_penalty cfg (values G cfg bk st))
                 ++ [("gripper_penalty", VNum gp);
                     ("gripper_action", VNum (ac_grip ac))]
                 ++ snd (_stable_grip_reward G cfg bk (set_success false st))
                 ++ o_phase_info o
                 ++ [("ctrl_penalty", VNum cp)]
                 ++ dict_set "phase_bonus" (VNum (o_phase_bonus o))
                      (dict_set "touch"
                         (VBool (v_leg_touched (values G cfg bk st)))
                         (dict_set "subtask"
                            (VIdx (_subtask_step (dispatch_state G cfg bk st)))
                            (dict_set "phase_i"
                               (VIdx (_phase_i (dispatch_state G cfg bk st)
                                      + List.length _phases
                                        * _subtask_step (dispatch_state G cfg bk st)))
                               (super_info bk)))))%list).
  { intros k Hk. unfold R, report. cbv zeta.
    destruct (_ || _); [rewrite dict_get_set_other by exact Hk|];
      unfold dict_merge; reflexivity. }
  assert (Hgrip : dict_num "gripper_penalty" R = Some gp).
  { unfold dict_num. rewrite Hlater by discriminate. reflexivity. }
  assert (Hmove : dict_num "move_other_part_penalty" R
                  = Some (fst (_move_other_part_penalty cfg (values G cfg bk st)))).
  { unfold dict_num. rewrite Hlater by discriminate. reflexivity. }
  assert (Hbonus : dict_num "phase_bonus" R = Some (o_phase_bonus o)).
  { unfold dict_num. rewrite Hpb. reflexivity. }
  assert (Hsg : fst (_stable_grip_reward G cfg bk (set_success false st))
                == match dict_num "eef_up_grasp_rew" R with
                   | Some q => q | None => 0 end
                   + match dict_num "eef_forward_grasp_rew" R with
                     | Some q => q | None => 0 end).
  { unfold dict_num. rewrite !Hlater by discriminate.
    unfold _stable_grip_reward, _move_other_part_penalty.
    destruct (Nat.ltb (_phase_i (set_success false st)) 3).
    - cbn. ring.
    - cbn. rewrite !dict_get_app, Hu, Hf. cbn.
      rewrite !Hsuper by (unfold reward_terms; simpl; auto 10).
      cbn. ring. }
  assert (Hsplit :
            dict_total reward_terms R
            == match dict_num "ctrl_penalty" R with Some q => q | None => 0 end
               + (match dict_num "gripper_penalty" R with
                  | Some q => q | None => 0 end
                  + (match dict_num "phase_bonus" R with
                     | Some q => q | None => 0 end
                     + (match dict_num "move_other_part_penalty" R with
                        | Some q => q | None => 0 end
                        + (match dict_num "eef_up_grasp_rew" R with
                           | Some q => q | None => 0 end
                           + (match dict_num "eef_forward_grasp_rew" R with
                              | Some q => q | None => 0 end
                              + dict_total phase_reward_terms R)))))).
  { unfold dict_total, reward_terms. cbn [app map].
    rewrite !Qsum_cons. reflexivity. }
  rewrite Hsplit. unfold total_reward.
  rewrite Hsg, Hr, Hphase_terms, Hctrl, Hgrip, Hmove, Hbonus.
  ring.
Qed.

End RewardAccounting.

(** ** Loading a subtask *)

Section Subtasks.

Variables (G : Geometry) (cfg : Config) (bk : Backend).

(** [_update_reward_variables] returns only for a subtask that the recipe
    describes. *)
Lemma update_reward_variables_defined (k : nat) (s s' : State) :
  _update_reward_variables G cfg bk k s = Ok s' ->
  subtask_defined cfg k = true.
Proof.
  unfold subtask_defined, _update_reward_variables, list_index.
  destruct (nth_error (recipe cfg) k) as [[leg table]|]; [|discriminate].
  destruct (nth_error (_site_recipe cfg) k); [|discriminate].
  cbn [bind].
  destruct (object_id cfg leg); [|discriminate].
  destruct (object_id cfg table); [|discriminate].
  reflexivity.
Qed.

Lemma update_reward_variables_short (k : nat) (s : State) :
  (List.length (recipe cfg) <= k)%nat \/
  (List.length (_site_recipe cfg) <= k)%nat ->
  _update_reward_variables G cfg bk k s = Raise IndexError.
Proof.
  intros H. unfold _update_reward_variables, list_index.
  destruct (nth_error (recipe cfg) k) as [[leg table]|] eqn:E1;
    [|reflexivity].
  cbn [bind].
  destruct (nth_error (_site_recipe cfg) k) eqn:E2; [|reflexivity].
  exfalso. destruct H as [H|H].
  + apply nth_error_None in H. congruence.
  + apply nth_error_None in H. congruence.
Qed.

Lemma update_reward_variables_raises (k : nat) (s : State) (e : PyError) :
  _update_reward_variables G cfg bk k s = Raise e ->
  e = IndexError \/ e = KeyError.
Proof.
  unfold _update_reward_variables, list_index, object_id.
  destruct (nth_error (recipe cfg) k) as [[leg table]|]; cbn [bind];
    [|intros H; injection H as <-; auto].
  destruct (nth_error (_site_recipe cfg) k); cbn [bind];
    [|intros H; injection H as <-; auto].
  destruct (find _ _); cbn [bind]; [|intros H; injection H as <-; auto].
  destruct (find _ _); cbn [bind]; [|intros H; injection H as <-; auto].
  destruct (_diff_rew cfg); discriminate.
Qed.

(** X8: [_update_reward_variables] returns exactly for a subtask index that
    the recipe describes.  It raises IndexError when the recipe or the site
    recipe has no entry at the index, and KeyError when the entries exist
    but one of the two part names has no object id; it raises nothing
    else. *)
Theorem update_reward_variables_errors (k : nat) (s : State) :
  (subtask_defined cfg k = true <->
   exists s', _update_reward_variables G cfg bk k s = Ok s') /\
  ((List.length (recipe cfg) <= k)%nat \/
   (List.length (_site_recipe cfg) <= k)%nat ->
   _update_reward_variables G cfg bk k s = Raise IndexError) /\
  (forall leg table se,
     nth_error (recipe cfg) k = Some (leg, table) ->
     nth_error (_site_recipe cfg) k = Some se ->
     object_id cfg leg = Raise KeyError \/
     object_id cfg table = Raise KeyError ->
     _update_reward_variables G cfg bk k s = Raise KeyError) /\
  (forall e, _update_reward_variables G cfg bk k s = Raise e ->
             e = IndexError \/ e = KeyError).
Proof.
  split; [|split; [|split]].
  - split; [apply update_reward_variables_ok|].
    intros [s' H]. eapply update_reward_variables_defined; eauto.
  - apply update_reward_variables_short.
  - intros leg table se E1 E2 H.
    unfold _update_reward_variables, list_index. rewrite E1, E2.
    cbn [bind].
    destruct (object_id cfg leg) as [p1|e1] eqn:El.
    + destruct H as [H|H]; [discriminate H|]. rewrite H. reflexivity.
    + cbn [bind]. unfold object_id in El.
      destruct (find _ _); [discriminate El|]. congruence.
  - apply update_reward_variables_raises.
Qed.

(** X9: when the fine phase sees the parts connected, the table has moved by
    at most 0.1 and connections are left to make, but the recipe does not
    describe the next subtask, the exception of [_update_reward_variables]
    leaves the step: an IndexError when the recipe or the site recipe is too
    short, a KeyError otherwise. *)
Theorem connect_next_subtask_error (ac : Action) (st : State)
    (Hassert : assertions_hold G cfg ac)
    (Hphase : current_phase G cfg bk st = Ok "move_leg_fine")
    (Hconn : _connected bk = true)
    (Htd : v_table_displacement (values G cfg bk st) <= 0.1)
    (Hleft : S (_subtask_step st) <> _success_num_conn cfg)
    (Hundef : subtask_defined cfg (S (_subtask_step st)) = false) :
  exists e,
    _compute_reward G cfg bk ac st = Raise e /\
    (e = IndexError \/ e = KeyError) /\
    ((List.length (recipe cfg) <= S (_subtask_step st))%nat \/
     (List.length (_site_recipe cfg) <= S (_subtask_step st))%nat ->
     e = IndexError).
Proof.
  pose proof (dispatch_state_frame G cfg bk st) as (Hsub & _).
  cbv zeta in Hsub.
  apply Qgtb_le in Htd.
  rewrite compute_reward_unfold.
  rewrite (ctrl_penalty_ok G cfg ac Hassert). cbn [bind].
  rewrite Hphase. cbn [bind].
  destruct (gripper_penalty_ok G cfg ac _ _ Hassert Hphase) as [gp ->].
  cbn [bind].
  rewrite (dispatch_fine_connect G cfg bk ac _ _ _ _ _
             (move_info_displacement cfg _) Htd Hconn).
  unfold _set_next_subtask.
  cbn [_subtask_step set_subtask_step set_phase_i].
  rewrite Hsub, Nat.add_1_r.
  apply Nat.eqb_neq in Hleft. rewrite Hleft.
  set (s1 := set_subtask_step _ _).
  destruct (_update_reward_variables G cfg bk (S (_subtask_step st)) s1)
    as [s2|e] eqn:Eu.
  - exfalso. apply update_reward_variables_defined in Eu. congruence.
  - exists e. cbn [bind]. split; [reflexivity|].
    split; [eapply update_reward_variables_raises; eauto|].
    intros Hshort.
    rewrite (update_reward_variables_short _ s1 Hshort) in Eu. congruence.
Qed.

End Subtasks.

(** ** Reset of the reward variables *)

Section ResetVariables.

Variables (G : Geometry) (cfg : Config) (bk : Backend).

(** X10: resetting the reward variables forgets the previous episode: from
    any two states it yields the same subtask variables (phase 0, the
    subtask after the preassembled parts, cleared flags and counter, the
    parts and sites of the recipe, the positions measured now) and, in
    differential mode, the same seeded baselines; resetting twice in the
    same scene is the same as resetting once.  The baselines that are
    seeded only at a phase transition are carried over from the old state,
    and in absolute mode so are the four others. *)
Theorem reset_forgets_history (s s1 : State)
    (Hreset : _reset_reward_variables G cfg bk s = Ok s1) :
  _reset_reward_variables G cfg bk s1 = Ok s1 /\
  _phase_i s1 = 0%nat /\
  _subtask_step s1 = _preassembled cfg /\
  _leg_touched s1 = false /\ _leg_lift s1 = false /\
  _leg_fine_aligned s1 = 0%nat /\
  same_carried_baselines s1 s /\
  (_diff_rew cfg = false -> same_seeded_baselines s1 s) /\
  (forall t, exists t1,
     _reset_reward_variables G cfg bk t = Ok t1 /\
     same_subtask_variables s1 t1 /\
     (_diff_rew cfg = true -> same_seeded_baselines s1 t1)).
Proof.
  revert Hreset.
  unfold _reset_reward_variables, _update_reward_variables.
  cbn [_subtask_step set_subtask_step].
  destruct (list_index (recipe cfg) (_preassembled cfg)) as [[leg table]|];
    cbn [bind]; [|discriminate].
  destruct (list_index (_site_recipe cfg) (_preassembled cfg)) as [se|];
    cbn [bind]; [|discriminate].
  destruct (object_id cfg leg) as [p1|]; cbn [bind]; [|discriminate].
  destruct (object_id cfg table) as [p2|]; cbn [bind]; [|discriminate].
  destruct (_diff_rew cfg); intros H; inv_ok;
    cbn [_subtask_step set_subtask_step set_prev_lift_leg_xy_dist
         set_prev_lift_leg_z_dist set_prev_grasp_dist
         set_prev_eef_above_leg_dist];
    (split; [reflexivity|]);
    (split; [reflexivity|]); (split; [reflexivity|]);
    (split; [reflexivity|]); (split; [reflexivity|]);
    (split; [reflexivity|]);
    (split; [repeat split|]);
    (split; [intros Hd; try discriminate Hd; repeat split|]);
    intros t; eexists; (split; [reflexivity|]);
    (split; [repeat split|]); intros Hd; try discriminate Hd; repeat split.
Qed.

End ResetVariables.

(** ** One-time bonuses *)

Section OneTimeBonuses.

Variables (G : Geometry) (cfg : Config) (bk : Backend).

(** The skip checks change the phase index and the baselines of the phases
    skipped to, nothing else. *)
Lemma dispatch_state_flags (st : State) :
  let ds := dispatch_state G cfg bk st in
  _leg_touched ds = _leg_touched st /\
  _leg_lift ds = _leg_lift st /\
  _init_lift_leg_pos ds = _init_lift_leg_pos st /\
  _lift_leg_pos ds = _lift_leg_pos st /\
  _prev_lift_leg_z_dist ds = _prev_lift_leg_z_dist st /\
  _prev_lift_leg_xy_dist ds = _prev_lift_leg_xy_dist st /\
  _prev_grasp_dist ds = _prev_grasp_dist st.
Proof.
  cbv zeta. unfold dispatch_state. rewrite after_picking_eq.
  unfold detect_early_align, detect_early_fine.
  split_ifs; cbn; repeat split; reflexivity.
Qed.

(** What grasp_leg does with the touch flag and the gripper baseline. *)
Lemma dispatch_grasp ac v sgi mi s o :
  phase_dispatch G cfg bk "grasp_leg" ac v sgi mi s = Ok o ->
  dict_get "touch_rew" (o_phase_info o)
  = Some (VNum (if v_leg_touched v && negb (_leg_touched s)
                then 0 + _touch_coef cfg * 10 else 0)) /\
  _leg_touched (o_state o) = _leg_touched s || v_leg_touched v /\
  exists g,
    _prev_grasp_dist s = Some g /\
    dict_get "grasp_leg_rew" (o_phase_info o)
    = Some (VNum ((ac_grip ac - g) * _grasp_dist_coef cfg)) /\
    _prev_grasp_dist (o_state o) = Some (ac_grip ac).
Proof.
  unfold phase_dispatch. cbn [String.eqb Ascii.eqb Bool.eqb].
  unfold _grasp_leg_reward, _lower_eef_to_leg_reward.
  destruct (_prev_grasp_dist s) as [g|] eqn:Eg.
  - destruct (dict_flag "stable_grip_succ" sgi) as [sg|];
      destruct (v_leg_touched v) eqn:Ev; destruct (_leg_touched s) eqn:Es;
      destruct (_diff_rew cfg); cbn; rewrite ?Eg; cbn; rewrite ?Ev, ?Es; cbn;
      try discriminate; try destruct sg; cbn; intros H; inv_ok; cbn;
      rewrite ?Es; (split; [reflexivity|]); (split; [reflexivity|]);
      exists g; repeat split; reflexivity.
  - destruct (_diff_rew cfg); cbn; rewrite Eg; discriminate.
Qed.

(** What lift_leg does with the lift flag. *)
Lemma dispatch_lift ac v sgi mi s o :
  phase_dispatch G cfg bk "lift_leg" ac v sgi mi s = Ok o ->
  let xy := norm G (vsub (firstn 2 (_lift_leg_pos s)) (firstn 2 (v_leg_pos v))) in
  let z := Qabs (idx (_lift_leg_pos s) 2 - idx (v_leg_pos v) 2) in
  let leg_lift :=
    Qgtb (idx (v_leg_pos v) 2) (idx (_init_lift_leg_pos s) 2 + 0.01) in
  exists r,
    dict_get "lift_leg_rew" (o_phase_info o) = Some (VNum r) /\
    r == (if _diff_rew cfg
          then (_prev_lift_leg_z_dist s - z) * _lift_dist_coef cfg * 10
               + (_prev_lift_leg_xy_dist s - xy) * _lift_dist_coef cfg * 10
          else - (z + xy) * _lift_dist_coef cfg)
         + (if v_leg_touched v && leg_lift && negb (_leg_lift s)
            then _phase_bonus cfg / 10 else 0) /\
    dict_get "lift" (o_phase_info o) = Some (VBool leg_lift) /\
    _leg_lift (o_state o) = _leg_lift s || (v_leg_touched v && leg_lift).
Proof.
  unfold phase_dispatch. cbn [String.eqb Ascii.eqb Bool.eqb].
  unfold _lift_leg_reward.
  destruct (dict_q "table_displacement" mi) as [td|];
    destruct (v_leg_touched v) eqn:Ev; destruct (_leg_lift s) eqn:Es;
    destruct (Qgtb (idx (v_leg_pos v) 2) (idx (_init_lift_leg_pos s) 2 + 0.01))
      eqn:El;
    destruct (_diff_rew cfg); cbn; rewrite ?Ev, ?Es, ?El; cbn;
    try discriminate;
    try (destruct (Qgtb td 0.1)); cbn;
    try match goal with
        | |- context [if ?c then _ else _] => destruct c
        end;
    cbn; intros H; inv_ok; cbn; rewrite ?Es;
    eexists; (split; [reflexivity|]); (split; [ring|]);
    split; reflexivity.
Qed.

(** Within a subtask no phase clears the touch flag or the lift flag. *)
Lemma phase_dispatch_flags phase ac v sgi mi s o :
  phase_dispatch G cfg bk phase ac v sgi mi s = Ok o ->
  _subtask_step (o_state o) = _subtask_step s ->
  (_leg_touched s = true -> _leg_touched (o_state o) = true) /\
  (_leg_lift s = true -> _leg_lift (o_state o) = true).
Proof.
  intros H.
  unfold phase_dispatch in H.
  repeat match type of H with
         | (if String.eqb phase ?name then _ else _) = _ =>
             destruct (String.eqb_spec phase name) as [->|_]; [ | ]
         end;
    [ unfold _move_eef_above_leg_reward in H
    | unfold _lower_eef_to_leg_reward in H
    | unfold _grasp_leg_reward, _lower_eef_to_leg_reward in H
    | unfold _lift_leg_reward in H
    | unfold _align_leg_reward in H
    | unfold _move_leg_reward in H
    | unfold _move_leg_fine_reward in H
    | inv_ok; cbn; auto ];
    revert H; destruct (dict_flag "stable_grip_succ" sgi);
    destruct (dict_q "table_displacement" mi);
    crunch;
    try match goal with
        | |- context [_prev_grasp_dist s] => destruct (_prev_grasp_dist s)
        end;
    crunch;
    try match goal with
        | |- context [_set_next_subtask ?a ?b ?c ?d] =>
            destruct (_set_next_subtask a b c d) as [[? ?]|] eqn:En
        end;
    cbn; intros H; inv_ok; cbn; auto;
    try (apply set_next_subtask_spec in En; destruct En as (En & _);
         cbn in En; intros Hk; exfalso; cbn in Hk; lia).
Qed.

(** X11: the touch bonus of grasp_leg (10 * touch_coef) and the lift bonus
    of lift_leg (phase_bonus / 10) are paid once per subtask: each is paid
    only in a step that finds its flag unset and sets it, a subtask starts
    with both flags unset, and no step clears a flag without moving to the
    next subtask. *)
Theorem one_time_bonuses (ac : Action) (st st' : State) (rew : Q)
    (done : bool) (info : dict)
    (Hstep : _compute_reward G cfg bk ac st = Ok (st', (rew, done, info))) :
  let v := values G cfg bk st in
  (current_phase G cfg bk st = Ok "grasp_leg" ->
   dict_get "touch_rew" info
   = Some (VNum (if v_leg_touched v && negb (_leg_touched st)
                 then 0 + _touch_coef cfg * 10 else 0)) /\
   _leg_touched st' = _leg_touched st || v_leg_touched v) /\
  (current_phase G cfg bk st = Ok "lift_leg" ->
   let xy :=
     norm G (vsub (firstn 2 (_lift_leg_pos st)) (firstn 2 (v_leg_pos v))) in
   let z := Qabs (idx (_lift_leg_pos st) 2 - idx (v_leg_pos v) 2) in
   let leg_lift :=
     Qgtb (idx (v_leg_pos v) 2) (idx (_init_lift_leg_pos st) 2 + 0.01) in
   exists r,
     dict_get "lift_leg_rew" info = Some (VNum r) /\
     r == (if _diff_rew cfg
           then (_prev_lift_leg_z_dist st - z) * _lift_dist_coef cfg * 10
                + (_prev_lift_leg_xy_dist st - xy) * _lift_dist_coef cfg * 10
           else - (z + xy) * _lift_dist_coef cfg)
          + (if v_leg_touched v && leg_lift && negb (_leg_lift st)
             then _phase_bonus cfg / 10 else 0) /\
     _leg_lift st' = _leg_lift st || (v_leg_touched v && leg_lift)) /\
  (_subtask_step st' = _subtask_step st ->
   (_leg_touched st = true -> _leg_touched st' = true) /\
   (_leg_lift st = true -> _leg_lift st' = true)) /\
  (forall k s s',
     _update_reward_variables G cfg bk k s = Ok s' ->
     _leg_touched s' = false /\ _leg_lift s' = false).
Proof.
  intros v.
  destruct (step_inv G cfg bk _ _ _ _ _ _ Hstep)
    as (phase & o & Hp & Hd & -> & -> & Hrep).
  destruct Hrep as (_ & _ & _ & _ & Hinfo).
  pose proof (dispatch_state_flags st)
    as (Ht & Hl & Hinit & Hpos & Hz & Hxy & _).
  pose proof (dispatch_state_frame G cfg bk st) as (Hsub & _).
  cbv zeta in Ht, Hl, Hinit, Hpos, Hz, Hxy, Hsub.
  assert (Hk : forall k, In k ["touch_rew"; "lift_leg_rew"] ->
                         ~ In k later_keys).
  { unfold later_keys. simpl.
    intros k [<-|[<-|[]]] H;
      repeat (destruct H as [H|H]; [discriminate H|]); exact H. }
  split; [|split; [|split]].
  - intros Hg. rewrite Hg in Hp. injection Hp as <-.
    destruct (dispatch_grasp _ _ _ _ _ _ Hd) as (H1 & H2 & _).
    rewrite Ht in H1, H2.
    split; [|exact H2].
    apply Hinfo; [apply Hk; simpl; auto | exact H1].
  - intros Hg. rewrite Hg in Hp. injection Hp as <-.
    destruct (dispatch_lift _ _ _ _ _ _ Hd) as (r & H1 & H2 & _ & H3).
    cbv zeta. fold v in H2, H3.
    rewrite Hl, Hinit, Hpos, Hz, Hxy in H2. rewrite Hl, Hinit in H3.
    exists r.
    split; [apply Hinfo; [apply Hk; simpl; auto | exact H1]|].
    split; [exact H2 | exact H3].
  - intros Hs. rewrite <- Hsub in Hs.
    destruct (phase_dispatch_flags _ _ _ _ _ _ _ Hd Hs) as [H1 H2].
    rewrite Ht in H1. rewrite Hl in H2. split; assumption.
  - intros k s s' Hu.
    apply update_reward_variables_frame in Hu. tauto.
Qed.

End OneTimeBonuses.

(** ** Potential-shaped rewards *)

Section Potentials.

Variables (G : Geometry) (cfg : Config).

(** One step of a potential term: the reward is the increase of the
    potential times the scale, and the measurement becomes the baseline. *)
Lemma potential_dispatch bk p ac v sgi mi s sg td phase :
  In p potential_terms ->
  _diff_rew cfg = true ->
  _phase_i s = p_phase p ->
  nth_error _phases (p_phase p) = Some phase ->
  dict_flag "stable_grip_succ" sgi = Ok sg ->
  dict_q "table_displacement" mi = Ok td ->
  (p_phase p = 6%nat -> _connected bk = false) ->
  (p_phase p = 2%nat -> _prev_grasp_dist s <> None) ->
  exists o d r,
    phase_dispatch G cfg bk phase ac v sgi mi s = Ok o /\
    (p_phase p <> 2%nat ->
     dict_get (p_val_key p) (o_phase_info o) = Some (VNum d)) /\
    (p_phase p = 2%nat -> d = ac_grip ac) /\
    dict_get (p_rew_key p) (o_phase_info o) = Some (VNum r) /\
    r == (p_shape p G d - p_shape p G (p_prev p s)) * p_scale p cfg /\
    (_phase_i (o_state o) = p_phase p -> p_prev p (o_state o) = d).
Proof.
  intros Hp Hdiff Hs Hn Hsg Htd Hc Hg.
  unfold potential_terms in Hp. simpl in Hp.
  destruct Hp as [<-|[<-|[<-|[<-|[<-|[<-|[<-|[<-|[<-|[<-|[]]]]]]]]]]];
    cbn in Hs, Hn, Hc, Hg |- *;
    injection Hn as <-; unfold phase_dispatch;
    cbn [String.eqb Ascii.eqb Bool.eqb].
  - destruct (_prev_grasp_dist s) as [g|] eqn:Eg;
      [|exfalso; apply (Hg eq_refl); reflexivity].
    unfold _grasp_leg_reward, _lower_eef_to_leg_reward, assigned_grasp_dist.
    rewrite Hdiff, Hsg. cbn. rewrite Eg. crunch;
      do 3 eexists; (split; [reflexivity|]); cbn;
      (split; [intros H; exfalso; apply H; reflexivity|]);
      (split; [reflexivity|]); (split; [reflexivity|]);
      (split; [ring|]); reflexivity.
  - unfold _align_leg_reward. rewrite Hdiff, Htd. crunch;
      do 3 eexists; (split; [reflexivity|]); cbn;
      (split; [reflexivity|]); (split; [discriminate|]);
      (split; [reflexivity|]); (split; [ring|]);
      intros Hph; try reflexivity; exfalso; lia.
  - unfold _align_leg_reward. rewrite Hdiff, Htd. crunch;
      do 3 eexists; (split; [reflexivity|]); cbn;
      (split; [reflexivity|]); (split; [discriminate|]);
      (split; [reflexivity|]); (split; [ring|]);
      intros Hph; try reflexivity; exfalso; lia.
  - unfold _move_leg_reward. rewrite Hdiff, Htd. crunch;
      do 3 eexists; (split; [reflexivity|]); cbn;
      (split; [reflexivity|]); (split; [discriminate|]);
      (split; [reflexivity|]); (split; [ring|]);
      intros Hph; try reflexivity; exfalso; lia.
  - unfold _move_leg_reward. rewrite Hdiff, Htd. crunch;
      do 3 eexists; (split; [reflexivity|]); cbn;
      (split; [reflexivity|]); (split; [discriminate|]);
      (split; [reflexivity|]); (split; [ring|]);
      intros Hph; try reflexivity; exfalso; lia.
  - unfold _move_leg_fine_reward. rewrite Hdiff, Htd, (Hc eq_refl). crunch;
      do 3 eexists; (split; [reflexivity|]); cbn;
      (split; [reflexivity|]); (split; [discriminate|]);
      (split; [reflexivity|]); (split; [ring|]);
      intros Hph; reflexivity.
  - unfold _move_leg_fine_reward. rewrite Hdiff, Htd, (Hc eq_refl). crunch;
      do 3 eexists; (split; [reflexivity|]); cbn;
      (split; [reflexivity|]); (split; [discriminate|]);
      (split; [reflexivity|]); (split; [ring|]);
      intros Hph; reflexivity.
  - unfold _move_leg_fine_reward. rewrite Hdiff, Htd, (Hc eq_refl). crunch;
      do 3 eexists; (split; [reflexivity|]); cbn;
      (split; [reflexivity|]); (split; [discriminate|]);
      (split; [reflexivity|]); (split; [ring|]);
      intros Hph; reflexivity.
  - unfold _move_leg_fine_reward. rewrite Hdiff, Htd, (Hc eq_refl). crunch;
      do 3 eexists; (split; [reflexivity|]); cbn;
      (split; [reflexivity|]); (split; [discriminate|]);
      (split; [reflexivity|]); (split; [ring|]);
      intros Hph; reflexivity.
  - unfold _move_leg_fine_reward. rewrite Hdiff, Htd, (Hc eq_refl). crunch;
      do 3 eexists; (split; [reflexivity|]); cbn;
      (split; [reflexivity|]); (split; [discriminate|]);
      (split; [reflexivity|]); (split; [ring|]);
      intros Hph; reflexivity.
Qed.

Lemma potential_keys_not_later p :
  In p potential_terms ->
  (p_phase p <> 2%nat -> ~ In (p_val_key p) later_keys) /\
  ~ In (p_rew_key p) later_keys.
Proof.
  unfold potential_terms, later_keys. simpl.
  intros [<-|[<-|[<-|[<-|[<-|[<-|[<-|[<-|[<-|[<-|[]]]]]]]]]]]; cbn;
    (split;
     [intros H; try (exfalso; apply H; reflexivity); intros H' | intros H']);
    repeat (destruct H' as [H'|H']; [discriminate H'|]); exact H'.
Qed.

Lemma potential_step bk p ac st :
  In p potential_terms ->
  _diff_rew cfg = true ->
  _phase_i st = p_phase p ->
  _phase_i (dispatch_state G cfg bk st) = p_phase p ->
  assertions_hold G cfg ac ->
  (p_phase p = 6%nat -> _connected bk = false) ->
  (p_phase p = 2%nat -> _prev_grasp_dist st <> None) ->
  exists st1 out d,
    _compute_reward G cfg bk ac st = Ok (st1, out) /\
    info_num (p_val_key p) out = d /\
    info_num (p_rew_key p) out
    == (p_shape p G d - p_shape p G (p_prev p st)) * p_scale p cfg /\
    (_phase_i st1 = p_phase p -> p_prev p st1 = d).
Proof.
  intros Hp Hdiff Hs Hds Hassert Hc Hg.
  assert (Hlt : (p_phase p < 7)%nat).
  { unfold potential_terms in Hp. simpl in Hp.
    destruct Hp as [<-|[<-|[<-|[<-|[<-|[<-|[<-|[<-|[<-|[<-|[]]]]]]]]]]];
      cbn; lia. }
  destruct (nth_error _phases (p_phase p)) as [phase|] eqn:Hn.
  2:{ apply nth_error_None in Hn. cbn in Hn. lia. }
  assert (Hcur : current_phase G cfg bk st = Ok phase).
  { unfold current_phase, list_index. rewrite Hds, Hn. reflexivity. }
  assert (Heq : dispatch_state G cfg bk st = set_success false st).
  { apply dispatch_state_same_phase. congruence. }
  destruct (potential_dispatch bk p ac (values G cfg bk st)
              (snd (_stable_grip_reward G cfg bk (set_success false st)))
              (snd (_move_other_part_penalty cfg (values G cfg bk st)))
              (dispatch_state G cfg bk st) _ _ phase Hp Hdiff Hds Hn
              (stable_grip_flag_eq G cfg bk st)
              (move_info_displacement cfg _) Hc
              (fun E => eq_ind_r (fun x => x <> None) (Hg E)
                          (dispatch_state_grasp_dist G cfg bk st)))
    as (o & d & r & Hd & Hval & Hgrip & Hrew & Hr & Hprev).
  destruct (step_intro G cfg bk ac st phase o Hassert Hcur Hd)
    as (rew & info & Hstep & Hrep).
  destruct (step_inv_full G cfg bk _ _ _ _ _ _ Hstep)
    as (phase' & o' & cp & gp & _ & _ & _ & _ & _ & _ & _ & Hinfo').
  destruct Hrep as (_ & _ & _ & _ & Hinfo).
  destruct (potential_keys_not_later p Hp) as [Hk1 Hk2].
  exists (o_state o), (rew, o_done o, info), d.
  split; [exact Hstep|].
  unfold info_num, dict_num. cbn [snd].
  rewrite (Hinfo _ _ Hk2 Hrew).
  split; [|split].
  - destruct (Nat.eq_dec (p_phase p) 2) as [E|E].
    + rewrite (Hgrip E).
      assert (Hkey : p_val_key p = "gripper_action").
      { unfold potential_terms in Hp. simpl in Hp.
        destruct Hp as [<-|[<-|[<-|[<-|[<-|[<-|[<-|[<-|[<-|[<-|[]]]]]]]]]]];
          cbn in E |- *; try reflexivity; discriminate E. }
      rewrite Hkey, Hinfo', report_gripper_action. reflexivity.
    + rewrite (Hinfo _ _ (Hk1 E) (Hval E)). reflexivity.
  - rewrite Hr, Heq.
    unfold potential_terms in Hp. simpl in Hp.
    destruct Hp as [<-|[<-|[<-|[<-|[<-|[<-|[<-|[<-|[<-|[<-|[]]]]]]]]]]];
      reflexivity.
  - exact Hprev.
Qed.

(** X12: in differential mode, over any finite trajectory that stays in the
    phase of a potential term, the rewards of that term add up to the
    potential of the last measurement minus the potential of the baseline
    at the start, times the scale of the term, whatever happens in between.
    The terms are the two angular similarities of align_leg and of move_leg
    (potential: the similarity itself, scale 10 * coefficient), the gripper
    action of grasp_leg (scale: the coefficient), and, while the parts are
    not connected, the five measurements of move_leg_fine, whose potentials
    are exp(-25 * distance) and exp(-3 * (1 - similarity)). *)
Theorem potential_reward_telescopes (p : Potential)
    (steps : list (Backend * Action)) (st : State)
    (Hp : In p potential_terms)
    (Hdiff : _diff_rew cfg = true)
    (Hstay : stays_in G cfg (p_phase p) steps st)
    (Hconn : p_phase p = 6%nat -> never_connected steps) :
  exists st' outs,
    run G cfg steps st = Ok (st', outs) /\
    List.length outs = List.length steps /\
    let d0 := p_prev p st in
    let dn := last (map (info_num (p_val_key p)) outs) d0 in
    Qsum (map (info_num (p_rew_key p)) outs)
    == (p_shape p G dn - p_shape p G d0) * p_scale p cfg.
Proof.
  revert st Hstay.
  induction steps as [|[bk ac] rest IH]; intros st Hstay.
  - exists st, []. split; [reflexivity|]. split; [reflexivity|].
    cbv zeta. cbn [map last]. rewrite Qsum_nil. ring.
  - cbn [stays_in] in Hstay. destruct Hstay as (Hs & Hds & Hassert & Hrest).
    assert (Hc : p_phase p = 6%nat -> _connected bk = false).
    { intros H6. specialize (Hconn H6). unfold never_connected in Hconn.
      inversion Hconn; subst. assumption. }
    assert (Hconn' : p_phase p = 6%nat -> never_connected rest).
    { intros H6. specialize (Hconn H6). unfold never_connected in *.
      inversion Hconn; subst. assumption. }
    assert (Hg : p_phase p = 2%nat -> _prev_grasp_dist st <> None).
    { intros E2.
      destruct (_compute_reward G cfg bk ac st) as [[s1 o1]|] eqn:Es;
        [|contradiction].
      apply (step_grasp_assigned G cfg bk ac st s1 o1 Es). congruence. }
    destruct (potential_step bk p ac st Hp Hdiff Hs Hds Hassert Hc Hg)
      as (st1 & out & d & Hstep & Hdist & Hrew & Hprev).
    rewrite Hstep in Hrest.
    destruct (IH Hconn' st1 Hrest) as (st' & outs & Hrun & Hlen & Hsum).
    exists st', (out :: outs).
    cbn [run]. rewrite Hstep. cbn [bind]. rewrite Hrun. cbn [bind].
    split; [reflexivity|]. split; [cbn; congruence|].
    cbv zeta in Hsum |- *.
    cbn [map]. rewrite last_cons_default. rewrite Hdist.
    rewrite Qsum_cons, Hrew.
    destruct rest as [|[bk' ac'] rest'].
    + destruct outs; [|discriminate Hlen]. cbn [map last].
      rewrite Qsum_nil. ring.
    + cbn [stays_in] in Hrest. destruct Hrest as (Hs1 & _).
      rewrite (Hprev Hs1) in Hsum.
      rewrite Hsum. ring.
Qed.

End Potentials.

(** ** Allowed angles of a connection site *)

Lemma split_comma_aux_field (a rest cur : string) :
  no_comma a = true ->
  split_comma_aux (a ++ rest) cur = split_comma_aux rest (cur ++ a).
Proof.
  revert cur. induction a as [|c a IH]; intros cur Ha.
  - cbn. replace (cur ++ "") with cur; [reflexivity|].
    clear. induction cur; cbn; congruence.
  - cbn in Ha. apply andb_true_iff in Ha. destruct Ha as [Hc Ha].
    apply negb_true_iff in Hc.
    cbn [append split_comma_aux]. rewrite Hc.
    rewrite IH by exact Ha. f_equal.
    clear. induction cur; cbn; congruence.
Qed.

Lemma split_comma_aux_last (a cur : string) :
  no_comma a = true -> split_comma_aux a cur = [cur ++ a].
Proof.
  intros Ha.
  replace a with (a ++ "") at 1.
  - rewrite split_comma_aux_field by exact Ha. reflexivity.
  - clear. induction a; cbn; congruence.
Qed.

(** Splitting at the commas undoes joining with commas. *)
Lemma split_join_comma (fields : list string) :
  fields <> [] ->
  forallb no_comma fields = true ->
  split_comma (join_comma fields) = fields.
Proof.
  unfold split_comma.
  induction fields as [|a rest IH]; intros Hne Hall; [congruence|].
  cbn [forallb] in Hall. apply andb_true_iff in Hall.
  destruct Hall as [Ha Hrest].
  destruct rest as [|b rest'].
  - cbn [join_comma]. rewrite split_comma_aux_last by exact Ha. reflexivity.
  - change (join_comma (a :: b :: rest'))
      with (a ++ String ","%char (join_comma (b :: rest'))).
    rewrite split_comma_aux_field by exact Ha.
    cbn [split_comma_aux Ascii.eqb Bool.eqb append].
    rewrite IH by (congruence || exact Hrest). reflexivity.
Qed.

Section AllowedAngles.

Variables (G : Geometry) (cfg : Config) (bk : Backend).

(** X13: for a leg site named [name,a1,...,an,conn] (fields without commas)
    the allowed angles of the subtask are the non-empty fields among
    a1..an: the first and the last field are dropped.  When none is left,
    the target forward vector of every later step is the leg's own forward
    vector; otherwise it is the projected connector direction. *)
Theorem allowed_angles_spec (k : nat) (s s' : State) (se : SiteEntry)
    (name conn : string) (angles : list string)
    (Hupd : _update_reward_variables G cfg bk k s = Ok s')
    (Hse : nth_error (_site_recipe cfg) k = Some se)
    (Hname : se_leg_site se = join_comma (name :: angles ++ [conn]))
    (Hfields : forallb no_comma (name :: angles ++ [conn]) = true) :
  _leg_allowed_angles s' = filter nonempty angles /\
  forall bk' s'',
    _leg_allowed_angles s'' = _leg_allowed_angles s' ->
    v_target_forward (_collect_values G cfg bk' s'')
    = match filter nonempty angles with
      | [] => _get_forward_vector bk' (_leg_site s'')
      | _ :: _ =>
          _project_connector_forward bk' (_table_site s'') (_leg_site s'')
            (_table_leg_angle s'')
      end.
Proof.
  assert (Hallowed : _leg_allowed_angles s' = filter nonempty angles).
  { revert Hupd. unfold _update_reward_variables, list_index.
    destruct (nth_error (recipe cfg) k) as [[leg table]|]; [|discriminate].
    rewrite Hse. cbn [bind].
    destruct (object_id cfg leg); [|discriminate].
    destruct (object_id cfg table); [|discriminate].
    cbn [bind].
    assert (Hs : slice_1_m1 (split_comma (se_leg_site se)) = angles).
    { rewrite Hname, split_join_comma by (discriminate || exact Hfields).
      unfold slice_1_m1. cbn [tl]. apply removelast_last. }
    destruct (_diff_rew cfg); intros H; injection H as <-; cbn;
      rewrite Hs; reflexivity. }
  split; [exact Hallowed|].
  intros bk' s'' Hsame. unfold _collect_values.
  destruct (_finger_contact bk' (_leg s'')) as [l r]. cbn [v_target_forward].
  rewrite Hsame, Hallowed.
  destruct (filter nonempty angles); reflexivity.
Qed.

End AllowedAngles.

(** ** The stable-grip term *)

Section StableGrip.

Variables (G : Geometry) (cfg : Config) (bk : Backend).

(** X14: the stable-grip reward is paid only while the step starts before
    lift_leg (phase index below 3), where it is
    eef_up_rot_dist_coef * (up - 1) + (|forward| - 1) * eef_rot_dist_coef
    for the two cosine similarities, hence not positive for similarities in
    [-1, 1] and non-negative coefficients; from lift_leg on it is 0.  The
    stable-grip flag is computed in every phase.  The phase tested is the
    one the step starts in: a step whose skip check moves on to lift_leg or
    beyond still logs the two terms. *)
Theorem stable_grip_reward_spec (st : State) :
  let up := cos_siml G (_get_up_vector bk "grip_site") [0; 0; -1] in
  let fwd := cos_siml G (_get_forward_vector bk "grip_site")
               (_get_leg_grasp_vector bk st) in
  let r := fst (_stable_grip_reward G cfg bk st) in
  ((3 <= _phase_i st)%nat -> r = 0) /\
  ((_phase_i st < 3)%nat ->
   r = _eef_up_rot_dist_coef cfg * (up - 1)
       + (Qabs fwd - 1) * _eef_rot_dist_coef cfg) /\
  (up <= 1 -> Qabs fwd <= 1 ->
   0 <= _eef_up_rot_dist_coef cfg -> 0 <= _eef_rot_dist_coef cfg ->
   r <= 0) /\
  dict_flag "stable_grip_succ" (snd (_stable_grip_reward G cfg bk st))
  = Ok (Qgtb up (1 - _rot_threshold cfg)
        && Qgtb (Qabs fwd) (1 - _rot_threshold cfg)) /\
  (forall ac st' rew done info,
     _compute_reward G cfg bk ac st = Ok (st', (rew, done, info)) ->
     (_phase_i st < 3)%nat ->
     dict_get "eef_up_grasp_rew" info
     = Some (VNum (_eef_up_rot_dist_coef cfg * (up - 1))) /\
     dict_get "eef_forward_grasp_rew" info
     = Some (VNum ((Qabs fwd - 1) * _eef_rot_dist_coef cfg))).
Proof.
  intros up fwd r.
  split; [|split; [|split; [|split]]].
  - intros H. unfold r, _stable_grip_reward.
    replace (Nat.ltb (_phase_i st) 3) with false
      by (symmetry; apply Nat.ltb_ge; exact H).
    reflexivity.
  - intros H. unfold r, _stable_grip_reward.
    replace (Nat.ltb (_phase_i st) 3) with true
      by (symmetry; apply Nat.ltb_lt; exact H).
    reflexivity.
  - intros Hu Hf Hcu Hcr. unfold r, _stable_grip_reward.
    fold up. fold fwd.
    destruct (Nat.ltb (_phase_i st) 3); cbn [fst]; [|lra].
    assert (H1 : _eef_up_rot_dist_coef cfg * (up - 1) <= 0) by nra.
    assert (H2 : (Qabs fwd - 1) * _eef_rot_dist_coef cfg <= 0) by nra.
    lra.
  - unfold _stable_grip_reward.
    destruct (Nat.ltb (_phase_i st) 3); reflexivity.
  - intros ac st' rew done info Hstep Hlt.
    destruct (step_inv_full G cfg bk _ _ _ _ _ _ Hstep)
      as (phase & o & cp & gp & _ & _ & _ & _ & _ & _ & _ & ->).
    rewrite !report_get_merged by discriminate.
    unfold _move_other_part_penalty, _stable_grip_reward.
    change (_phase_i (set_success false st)) with (_phase_i st).
    replace (Nat.ltb (_phase_i st) 3) with true
      by (symmetry; apply Nat.ltb_lt; exact Hlt).
    split; reflexivity.
Qed.

End StableGrip.

(** * Properties of the placement sampler *)

Section PlacementFacts.

Import Placement.

Variables (G : Geometry) (euler_to_quat : vec -> vec -> vec) (u : nat -> Q).

(** A placed candidate overlaps none of the objects placed before it. *)
Lemma place_spec attempts s obj_name obj_r placed n po n' :
  place G euler_to_quat u attempts s obj_name obj_r placed n
  = Sampled (po, n') ->
  exists q cx cy qt,
    init_of s obj_name = Sampled q /\
    po = (obj_name, obj_r,
          mkQpos (table_top_offset s + cx) (table_top_offset s + cy)
            (table_top_offset s + (z q + 0.01)) qt) /\
    existsb (overlaps G cx cy obj_r) placed = false.
Proof.
  revert n. induction attempts as [|k IH]; intros n; [discriminate|].
  cbn [place]. destruct (init_of s obj_name) as [q| |] eqn:Ei;
    cbn [sbind]; try discriminate.
  destruct (sample_x u s obj_r n) as [dx n1].
  destruct (sample_y u s obj_r n1) as [dy n2].
  destruct (existsb _ placed) eqn:Eo; cbn [negb].
  - intros H. apply IH in H. exact H.
  - destruct (sample_quat euler_to_quat u s (quat q) n2) as [[qt n3]| |];
      cbn [sbind]; try discriminate.
    intros H. injection H as <- <-.
    exists q, (x q + dx), (y q + dy), qt.
    split; [reflexivity|]. split; [reflexivity|]. exact Eo.
Qed.

Hypothesis Hnorm :
  forall a b c d, a == c -> b == d -> norm G [a; b] == norm G [c; d].

(** With the table-top offset 0 that [setup] assigns, the stored position is
    the candidate. *)
Lemma place_separated attempts s obj_name obj_r placed n po n' :
  table_top_offset s == 0 ->
  place G euler_to_quat u attempts s obj_name obj_r placed n
  = Sampled (po, n') ->
  fst po = (obj_name, obj_r) /\
  Forall (fun q => separated G q po) placed.
Proof.
  intros Hoff H. apply place_spec in H.
  destruct H as (q & cx & cy & qt & _ & -> & Ho).
  split; [reflexivity|].
  apply Forall_forall. intros [[pn pr] pq] Hin.
  assert (Hq : overlaps G cx cy obj_r (pn, pr, pq) = false).
  { destruct (overlaps G cx cy obj_r (pn, pr, pq)) eqn:E; trivial.
    assert (existsb (overlaps G cx cy obj_r) placed = true)
      by (apply existsb_exists; eauto).
    congruence. }
  unfold overlaps in Hq. unfold separated. cbn [fst snd x y].
  apply Qnot_le_lt. intros Hle.
  assert (Hb : Qle_bool (norm G [cx - x pq; cy - y pq]) (pr + obj_r) = true).
  { apply Qle_bool_iff.
    rewrite (Hnorm (cx - x pq) (cy - y pq)
               (table_top_offset s + cx - x pq) (table_top_offset s + cy - y pq))
      by (rewrite Hoff; ring).
    exact Hle. }
  congruence.
Qed.

(** X15: when [sample] has placed all objects, with the table-top offset 0
    that [setup] assigns, the list of placed objects is the given one
    followed by one entry per object, in order, with the object's name and
    radius; and every new entry is farther from every entry before it,
    given or new, than the sum of the two radii. *)
Theorem placement_separated (s : Sampler) (objects : list (string * Q))
    (placed placed' : list PlacedObject)
    (pos_arr quat_arr pos_arr' quat_arr' : list (string * vec)) (n n' : nat)
    (Hoff : table_top_offset s == 0)
    (Hrun : place_all G euler_to_quat u s objects placed pos_arr quat_arr n
            = Sampled (placed', pos_arr', quat_arr', n')) :
  exists new,
    placed' = (placed ++ new)%list /\
    map fst new = objects /\
    forall before p after,
      new = (before ++ p :: after)%list ->
      Forall (fun q => separated G q p) (placed ++ before)%list.
Proof.
  revert placed pos_arr quat_arr n Hrun.
  induction objects as [|[obj_name obj_r] rest IH];
    intros placed pos_arr quat_arr n Hrun.
  - cbn in Hrun. injection Hrun as <- _ _ _.
    exists []. rewrite app_nil_r. split; [reflexivity|].
    split; [reflexivity|].
    intros before p after H. destruct before; discriminate H.
  - cbn [place_all] in Hrun.
    destruct (place G euler_to_quat u (100 * 100) s obj_name obj_r placed n)
      as [[po n1]| |] eqn:Ep; cbn [sbind] in Hrun; try discriminate.
    destruct (place_separated _ _ _ _ _ _ _ _ Hoff Ep) as [Hfst Hsep].
    apply IH in Hrun. destruct Hrun as (new & -> & Hmap & Hall).
    exists (po :: new).
    split; [rewrite <- app_assoc; reflexivity|].
    split; [cbn [map]; rewrite Hfst, Hmap; reflexivity|].
    intros before p after H.
    destruct before as [|b before'].
    + cbn in H. injection H as <- _. rewrite app_nil_r. exact Hsep.
    + cbn in H. injection H as <- H.
      specialize (Hall _ _ _ H).
      rewrite <- app_assoc in Hall. exact Hall.
Qed.

(** The attempts: the first candidate that overlaps nothing is taken, and
    the object cannot be placed when all candidates overlap. *)
Lemma place_first_valid s obj_name obj_r placed q attempts :
  init_of s obj_name = Sampled q ->
  forall n,
    (forall i, (i < attempts)%nat -> rejected G u s q obj_r placed n i = true) ->
    place G euler_to_quat u attempts s obj_name obj_r placed n
    = RandomizationError.
Proof.
  intros Hq. induction attempts as [|k IH]; intros n Hall; [reflexivity|].
  cbn [place]. rewrite Hq. cbn [sbind].
  pose proof (Hall 0%nat ltac:(lia)) as H0.
  unfold rejected, candidate in H0.
  replace (n + 2 * 0)%nat with n in H0 by lia.
  replace (n + 1)%nat with (S n) in H0 by lia.
  destruct (sample_x u s obj_r n) as [dx n1] eqn:Ex.
  assert (n1 = S n) by (unfold sample_x, uniform in Ex;
                        destruct (match x_range s with Some r => r | None => _ end);
                        injection Ex as _ <-; reflexivity).
  subst n1.
  destruct (sample_y u s obj_r (S n)) as [dy n2] eqn:Ey.
  assert (n2 = S (S n)) by (unfold sample_y, uniform in Ey;
                            destruct (match y_range s with Some r => r | None => _ end);
                            injection Ey as _ <-; reflexivity).
  subst n2. cbn [fst] in H0. rewrite H0. cbn [negb].
  apply IH. intros i Hi.
  specialize (Hall (S i) ltac:(lia)).
  unfold rejected, candidate in *.
  replace (S (S n) + 2 * i)%nat with (n + 2 * S i)%nat by lia.
  exact Hall.
Qed.

Lemma place_takes_first s obj_name obj_r placed q k :
  init_of s obj_name = Sampled q ->
  forall attempts n,
    (k < attempts)%nat ->
    (forall i, (i < k)%nat -> rejected G u s q obj_r placed n i = true) ->
    rejected G u s q obj_r placed n k = false ->
    place G euler_to_quat u attempts s obj_name obj_r placed n
    = sbind (sample_quat euler_to_quat u s (quat q) (n + 2 * k + 2))
        (fun '(qt, n') =>
           let '(cx, cy) := candidate u s q obj_r n k in
           Sampled ((obj_name, obj_r,
                     mkQpos (table_top_offset s + cx) (table_top_offset s + cy)
                       (table_top_offset s + (z q + 0.01)) qt), n')).
Proof.
  intros Hq. induction k as [|k IH]; intros attempts n Hlt Hrej Hok.
  - destruct attempts as [|a]; [lia|].
    cbn [place]. rewrite Hq. cbn [sbind].
    unfold rejected, candidate in Hok. unfold candidate.
    replace (n + 2 * 0)%nat with n in * by lia.
    replace (n + 1)%nat with (S n) in * by lia.
    replace (n + 2)%nat with (S (S n)) by lia.
    destruct (sample_x u s obj_r n) as [dx n1] eqn:Ex.
    assert (n1 = S n) by (unfold sample_x, uniform in Ex;
                          destruct (match x_range s with Some r => r | None => _ end);
                          injection Ex as _ <-; reflexivity).
    subst n1.
    destruct (sample_y u s obj_r (S n)) as [dy n2] eqn:Ey.
    assert (n2 = S (S n)) by (unfold sample_y, uniform in Ey;
                              destruct (match y_range s with Some r => r | None => _ end);
                              injection Ey as _ <-; reflexivity).
    subst n2. cbn [fst] in Hok |- *. rewrite Hok. cbn [negb].
    destruct (sample_quat euler_to_quat u s (quat q) (S (S n)))
      as [[qt n3]| |]; reflexivity.
  - destruct attempts as [|a]; [lia|].
    cbn [place]. rewrite Hq. cbn [sbind].
    pose proof (Hrej 0%nat ltac:(lia)) as H0.
    unfold rejected, candidate in H0.
    replace (n + 2 * 0)%nat with n in H0 by lia.
    replace (n + 1)%nat with (S n) in H0 by lia.
    destruct (sample_x u s obj_r n) as [dx n1] eqn:Ex.
    assert (n1 = S n) by (unfold sample_x, uniform in Ex;
                          destruct (match x_range s with Some r => r | None => _ end);
                          injection Ex as _ <-; reflexivity).
    subst n1.
    destruct (sample_y u s obj_r (S n)) as [dy n2] eqn:Ey.
    assert (n2 = S (S n)) by (unfold sample_y, uniform in Ey;
                              destruct (match y_range s with Some r => r | None => _ end);
                              injection Ey as _ <-; reflexivity).
    subst n2. cbn [fst] in H0. rewrite H0. cbn [negb].
    rewrite (IH a (S (S n))).
    + unfold candidate.
      replace (S (S n) + 2 * k + 2)%nat with (n + 2 * S k + 2)%nat by lia.
      replace (S (S n) + 2 * k)%nat with (n + 2 * S k)%nat by lia.
      reflexivity.
    + lia.
    + intros i Hi. specialize (Hrej (S i) ltac:(lia)).
      unfold rejected, candidate in *.
      replace (S (S n) + 2 * i)%nat with (n + 2 * S i)%nat by lia.
      exact Hrej.
    + unfold rejected, candidate in *.
      replace (S (S n) + 2 * k)%nat with (n + 2 * S k)%nat by lia.
      exact Hok.
Qed.

(** X16: every attempt to place an object draws twice from the generator,
    and the first candidate that overlaps no placed object is taken: it is
    stored with the table-top offset added and with the rotation drawn next.
    When all 10000 candidates overlap, [sample] raises RandomizationError. *)
Theorem placement_attempts (s : Sampler) (obj_name : string) (obj_r : Q)
    (placed : list PlacedObject) (q : Qpos) (n : nat)
    (Hinit : init_of s obj_name = Sampled q) :
  (forall k,
     (k < 100 * 100)%nat ->
     (forall i, (i < k)%nat -> rejected G u s q obj_r placed n i = true) ->
     rejected G u s q obj_r placed n k = false ->
     place G euler_to_quat u (100 * 100) s obj_name obj_r placed n
     = sbind (sample_quat euler_to_quat u s (quat q) (n + 2 * k + 2))
         (fun '(qt, n') =>
            let '(cx, cy) := candidate u s q obj_r n k in
            Sampled ((obj_name, obj_r,
                      mkQpos (table_top_offset s + cx) (table_top_offset s + cy)
                        (table_top_offset s + (z q + 0.01)) qt), n'))) /\
  ((forall i, (i < 100 * 100)%nat ->
              rejected G u s q obj_r placed n i = true) ->
   sample G euler_to_quat u s (Some [(obj_name, obj_r)]) (Some placed) n
   = RandomizationError).
Proof.
  split.
  - intros k Hk Hrej Hok.
    apply place_takes_first; assumption.
  - intros Hall. unfold sample. cbn [sbind place_all].
    rewrite (place_first_valid _ _ _ _ _ _ Hinit n Hall). reflexivity.
Qed.

(** X17: the rotation that [sample_quat] adds is not random: the generator
    is asked for a number between the maximum of the rotation range and
    itself, so the noise is that maximum whatever the generator draws (one
    draw is consumed), and the minimum of the range plays no part.  Without
    a rotation range (r_rot = None) the call raises TypeError. *)
Theorem rotation_noise_not_random (s : Sampler) (quaternion : vec) (n : nat) :
  match rot_range s with
  | None => sample_quat euler_to_quat u s quaternion n = Throw TypeError
  | Some (a, b) =>
      exists noise,
        sample_quat euler_to_quat u s quaternion n
        = Sampled (euler_to_quat [noise; 0; 0] quaternion, S n) /\
        noise == Qmax a b
  end /\
  (forall r_xyz r use_xml_init init_qpos,
     0 <= r ->
     exists noise,
       sample_quat euler_to_quat u
         (init r_xyz (RotValue r) use_xml_init init_qpos) quaternion n
       = Sampled (euler_to_quat [noise; 0; 0] quaternion, S n) /\
       noise == r).
Proof.
  split.
  - unfold sample_quat, uniform.
    destruct (rot_range s) as [[a b]|]; [|reflexivity].
    eexists. split; [reflexivity|]. ring.
  - intros r_xyz r use_xml_init init_qpos Hr.
    unfold sample_quat, uniform, init. cbn [rot_range].
    eexists. split; [reflexivity|].
    assert (Hmax : Qmax (- r) r == r) by (apply Q.max_r; lra).
    rewrite Hmax. ring.
Qed.

(** X18: for a draw in [0, 1] the offsets that [sample_x] and [sample_y] add
    lie between the minimum and the maximum of their range.  Without ranges
    (as while [setup] places the remaining parts) both are drawn from
    -table_size[0] / 2 .. table_size[0] / 2: [sample_y] uses the table's
    x size too. *)
Theorem sample_xy_within_range (s : Sampler) (obj_r : Q) (n : nat)
    (Hu : 0 <= u n <= 1) :
  let size := idx (table_size s) 0 in
  let xr :=
    match x_range s with Some r => r | None => (- size / 2, size / 2) end in
  let yr :=
    match y_range s with Some r => r | None => (- size / 2, size / 2) end in
  Qmin (fst xr) (snd xr) <= fst (sample_x u s obj_r n) <= Qmax (fst xr) (snd xr) /\
  Qmin (fst yr) (snd yr) <= fst (sample_y u s obj_r n) <= Qmax (fst yr) (snd yr) /\
  snd (sample_x u s obj_r n) = S n /\ snd (sample_y u s obj_r n) = S n /\
  (x_range s = None -> y_range s = None ->
   sample_y u s obj_r n = sample_x u s obj_r n).
Proof.
  intros size xr yr.
  assert (Hb : forall a b,
            Qmin a b <= Qmin a b + (Qmax a b - Qmin a b) * u n <= Qmax a b).
  { intros a b.
    assert (Qmin a b <= Qmax a b).
    { apply Qle_trans with a; [apply Q.le_min_l | apply Q.le_max_l]. }
    split; nra. }
  split; [|split; [|split; [|split]]].
  - unfold sample_x, uniform, xr, size.
    destruct (x_range s) as [[a b]|]; cbn [fst snd]; apply Hb.
  - unfold sample_y, uniform, yr, size.
    destruct (y_range s) as [[a b]|]; cbn [fst snd]; apply Hb.
  - unfold sample_x, uniform. destruct (x_range s) as [[a b]|]; reflexivity.
  - unfold sample_y, uniform. destruct (y_range s) as [[a b]|]; reflexivity.
  - intros Hx Hy. unfold sample_x, sample_y. rewrite Hx, Hy. reflexivity.
Qed.

(** Assigning a key keeps the keys that are there. *)
Lemma lookup_assign {A} (k k' : string) (v : A) (d : list (string * A)) :
  lookup k (assign k' v d)
  = if String.eqb k k' then Some v else lookup k d.
Proof.
  induction d as [|[k0 v0] d IH]; cbn.
  - destruct (String.eqb k k'); reflexivity.
  - destruct (String.eqb_spec k' k0) as [->|Hne]; cbn.
    + destruct (String.eqb k k0); reflexivity.
    + rewrite IH.
      destruct (String.eqb_spec k k0) as [->|Hne'].
      * destruct (String.eqb_spec k0 k') as [->|_]; [congruence|reflexivity].
      * reflexivity.
Qed.

Lemma lookup_assign_keeps {A} (k k' : string) (v : A) (d : list (string * A)) :
  lookup k d <> None -> lookup k (assign k' v d) <> None.
Proof.
  rewrite lookup_assign. destruct (String.eqb k k'); [discriminate|trivial].
Qed.

Lemma split_objects_entries use_xml objects :
  forall init preset remaining init' preset' remaining',
    split_objects use_xml objects init preset remaining
    = Sampled (init', preset', remaining') ->
    (forall k, lookup k init <> None -> lookup k init' <> None) /\
    (forall k r, In (k, r) objects -> lookup k init' <> None).
Proof.
  induction objects as [|[name r] rest IH];
    intros init preset remaining init' preset' remaining' H.
  - cbn in H. injection H as <- _ _. split; [trivial|]. intros k r [].
  - cbn [split_objects] in H.
    destruct (lookup name init) as [q|] eqn:El.
    + destruct use_xml.
      * destruct (pop name remaining) as [rem|]; [|discriminate].
        apply IH in H. destruct H as [Hkeep Hall].
        split; [exact Hkeep|].
        intros k r0 [Heq|Hin]; [|eauto].
        injection Heq as <- _. apply Hkeep. congruence.
      * apply IH in H. destruct H as [Hkeep Hall].
        split; [exact Hkeep|].
        intros k r0 [Heq|Hin]; [|eauto].
        injection Heq as <- _. apply Hkeep. congruence.
    + apply IH in H. destruct H as [Hkeep Hall].
      split.
      * intros k Hk. apply Hkeep. apply lookup_assign_keeps. exact Hk.
      * intros k r0 [Heq|Hin]; [|eauto].
        injection Heq as <- _. apply Hkeep.
        rewrite lookup_assign, String.eqb_refl. discriminate.
Qed.

Lemma store_sampled_entries names xpos qts :
  forall init init',
    store_sampled names xpos qts init = Sampled init' ->
    forall k, lookup k init <> None -> lookup k init' <> None.
Proof.
  induction names as [|name rest IH]; intros init init' H k Hk.
  - cbn in H. injection H as <-. exact Hk.
  - cbn [store_sampled] in H.
    destruct (lookup name xpos); [|discriminate].
    destruct (lookup name qts); [|discriminate].
    eapply IH; [exact H|]. apply lookup_assign_keeps. exact Hk.
Qed.

(** With its initial position known, placing an object fails only for want
    of a rotation range or of a free place. *)
Lemma place_raises attempts s obj_name obj_r placed q :
  init_of s obj_name = Sampled q ->
  forall n e,
    place G euler_to_quat u attempts s obj_name obj_r placed n = Throw e ->
    e = TypeError /\ rot_range s = None.
Proof.
  intros Hq. induction attempts as [|k IH]; intros n e; [discriminate|].
  cbn [place]. rewrite Hq. cbn [sbind].
  destruct (sample_x u s obj_r n) as [dx n1].
  destruct (sample_y u s obj_r n1) as [dy n2].
  destruct (existsb _ placed); cbn [negb]; [apply IH|].
  unfold sample_quat. destruct (rot_range s) as [[a b]|]; cbn.
  - discriminate.
  - intros H. injection H as <-. split; reflexivity.
Qed.

Lemma place_all_raises s objects :
  (forall k r, In (k, r) objects -> exists q, init_of s k = Sampled q) ->
  forall placed pos_arr quat_arr n e,
    place_all G euler_to_quat u s objects placed pos_arr quat_arr n = Throw e ->
    e = TypeError /\ rot_range s = None.
Proof.
  induction objects as [|[name r] rest IH];
    intros Hall placed pos_arr quat_arr n e; [discriminate|].
  cbn [place_all].
  destruct (Hall name r (or_introl eq_refl)) as [q Hq].
  destruct (place G euler_to_quat u (100 * 100) s name r placed n)
    as [[po n1]| e' |] eqn:Ep; cbn [sbind]; try discriminate.
  - apply IH. intros k r0 Hin. apply (Hall k r0). now right.
  - intros H. injection H as <-. eapply place_raises; eauto.
Qed.

(** X19: when [setup] returns, the table-top offset is 0 whatever was
    passed, the placement ranges are those of the constructor again, and
    every object has an initial position; hence a later [sample] of all
    objects never raises KeyError: it can only fail for want of a rotation
    range (TypeError) or of a free place (RandomizationError). *)
Theorem setup_establishes (s s' : Sampler) (objects : list (string * Q))
    (offset : Q) (size : vec) (n n' : nat)
    (Hsetup : setup G euler_to_quat u s objects offset size n
              = Sampled (s', n')) :
  table_top_offset s' = 0 /\
  table_size s' = size /\
  mujoco_objects s' = objects /\
  x_range s' = x_range s /\ y_range s' = y_range s /\
  rot_range s' = rot_range s /\
  (forall k r, In (k, r) objects -> exists q, init_of s' k = Sampled q) /\
  (forall m e,
     sample G euler_to_quat u s' None None m = Throw e ->
     e = TypeError /\ rot_range s = None).
Proof.
  revert Hsetup. unfold setup. cbn [init_qpos _use_xml_init].
  destruct (split_objects _ objects _ [] objects)
    as [[[init1 preset] remaining]| |] eqn:Es; cbn [sbind]; try discriminate.
  apply split_objects_entries in Es. destruct Es as [_ Hall].
  assert (Hmain : forall init2,
            (forall k, lookup k init1 <> None -> lookup k init2 <> None) ->
            forall s2,
              init_qpos s2 = Some init2 ->
              mujoco_objects s2 = objects ->
              rot_range s2 = rot_range s ->
              (forall k r, In (k, r) objects ->
                           exists q, init_of s2 k = Sampled q) /\
              (forall m e,
                 sample G euler_to_quat u s2 None None m = Throw e ->
                 e = TypeError /\ rot_range s = None)).
  { intros init2 Hkeep s2 Hi Hm Hr.
    assert (Hinit : forall k r, In (k, r) objects ->
                                exists q, init_of s2 k = Sampled q).
    { intros k r Hin. unfold init_of. rewrite Hi.
      specialize (Hkeep k (Hall k r Hin)).
      destruct (lookup k init2) as [q|]; [eauto | congruence]. }
    split; [exact Hinit|].
    intros m e. unfold sample. rewrite Hm. cbn [take_preset sbind].
    destruct (place_all G euler_to_quat u s2 objects [] [] [] m)
      as [[[[pl pa] qa] m']| e' |] eqn:Ep; cbn [sbind]; try discriminate.
    intros H. injection H as <-.
    rewrite <- Hr. eapply place_all_raises; eauto. }
  destruct (Nat.ltb 0 (List.length remaining)).
  - destruct (sample G euler_to_quat u _ (Some remaining) (Some preset) n)
      as [[[xpos qts] n1]| |]; cbn [sbind]; try discriminate.
    destruct (store_sampled (map fst xpos) xpos qts init1) as [init2| |] eqn:Est;
      cbn [sbind]; try discriminate.
    intros H. injection H as <- <-.
    pose proof (store_sampled_entries _ _ _ _ _ Est) as Hkeep.
    repeat (split; [reflexivity|]).
    eapply Hmain; [exact Hkeep|reflexivity..].
  - intros H. injection H as <- <-.
    repeat (split; [reflexivity|]).
    eapply Hmain; [intros k Hk; exact Hk|reflexivity..].
Qed.

End PlacementFacts.

(** * Properties of [list2dict] *)

Section Rollouts.

Context {A : Type}.

Lemma lookup_in {B} (k : string) (d : list (string * B)) :
  lookup k d <> None <-> In k (map fst d).
Proof.
  induction d as [|[k' v] d IH]; cbn.
  - split; [congruence | intros []].
  - destruct (String.eqb_spec k k') as [->|Hne].
    + split; [auto | discriminate].
    + rewrite IH. split; [auto | intros [H|H]; [congruence | exact H]].
Qed.

Lemma lookup_in_value {B} (k : string) (d : list (string * B)) :
  In k (map fst d) -> exists v, lookup k d = Some v.
Proof.
  intros H. apply lookup_in in H.
  destruct (lookup k d) as [v|]; [eauto | congruence].
Qed.

Lemma assign_keys_present {B} (k : string) (v : B) (d : list (string * B)) :
  lookup k d <> None -> map fst (assign k v d) = map fst d.
Proof.
  induction d as [|[k' v'] d IH]; cbn; [congruence|].
  destruct (String.eqb_spec k k') as [->|Hne]; cbn; [reflexivity|].
  intros H. rewrite IH by exact H. reflexivity.
Qed.

Lemma assign_keys_absent {B} (k : string) (v : B) (d : list (string * B)) :
  lookup k d = None -> map fst (assign k v d) = (map fst d ++ [k])%list.
Proof.
  induction d as [|[k' v'] d IH]; cbn; [reflexivity|].
  destruct (String.eqb_spec k k') as [->|Hne]; cbn; [discriminate|].
  intros H. rewrite IH by exact H. reflexivity.
Qed.

(** The dict of empty lists that [list2dict] starts from. *)
Lemma empty_columns (keys : list string) :
  NoDup keys ->
  forall acc : list (string * list A),
    (forall k, In k keys -> lookup k acc = None) ->
    let ret := fold_left (fun ret k => assign k [] ret) keys acc in
    map fst ret = (map fst acc ++ keys)%list /\
    (forall k, In k keys -> lookup k ret = Some []) /\
    (forall k, ~ In k keys -> lookup k ret = lookup k acc).
Proof.
  intros Hnd. induction Hnd as [|k keys Hk Hnd IH]; intros acc Hacc; cbn.
  - rewrite app_nil_r. repeat split; trivial. intros k [].
  - assert (Hk0 : lookup k acc = None) by (apply Hacc; now left).
    destruct (IH (assign k [] acc)) as (H1 & H2 & H3).
    { intros k' Hin. rewrite lookup_assign.
      destruct (String.eqb_spec k' k) as [->|_]; [contradiction|].
      apply Hacc. now right. }
    cbv zeta in H1, H2, H3.
    split; [|split].
    + rewrite H1, assign_keys_absent by exact Hk0.
      rewrite <- app_assoc. reflexivity.
    + intros k' [<-|Hin]; [|auto].
      rewrite H3 by exact Hk. rewrite lookup_assign, String.eqb_refl.
      reflexivity.
    + intros k' Hn. rewrite H3 by (intros H; apply Hn; now right).
      rewrite lookup_assign.
      destruct (String.eqb_spec k' k) as [->|_]; [|reflexivity].
      exfalso. apply Hn. now left.
Qed.

(** One transition whose keys are all there appends one value to the list
    of each of its keys. *)
Lemma append_items_spec (items : list (string * A)) :
  NoDup (map fst items) ->
  forall ret,
    (forall k, In k (map fst items) -> lookup k ret <> None) ->
    exists ret',
      append_items items ret = Ok ret' /\
      map fst ret' = map fst ret /\
      forall k,
        lookup k ret'
        = match lookup k items with
          | Some v => option_map (fun l => (l ++ [v])%list) (lookup k ret)
          | None => lookup k ret
          end.
Proof.
  induction items as [|[k v] items IH]; intros Hnd ret Hin.
  - exists ret. repeat split; reflexivity.
  - cbn [map fst] in Hnd. inversion Hnd as [|? ? Hnk Hnd']; subst.
    cbn [append_items].
    destruct (lookup k ret) as [l|] eqn:El.
    2:{ exfalso. apply (Hin k); [now left | exact El]. }
    destruct (IH Hnd' (assign k (l ++ [v])%list ret)) as (ret' & Hr & Hk & Hl).
    { intros k' Hk'. apply lookup_assign_keeps. apply Hin. now right. }
    exists ret'. split; [exact Hr|]. split.
    + rewrite Hk. apply assign_keys_present. congruence.
    + intros k'. rewrite Hl, lookup_assign. cbn [lookup].
      destruct (String.eqb_spec k' k) as [->|Hne].
      * assert (Hno : lookup k items = None).
        { destruct (lookup k items) eqn:E; trivial.
          exfalso. apply Hnk. apply lookup_in. congruence. }
        rewrite Hno, El. reflexivity.
      * reflexivity.
Qed.

(** A key that the dict does not hold raises KeyError. *)
Lemma append_items_unknown (items : list (string * A)) :
  forall ret k,
    In k (map fst items) -> lookup k ret = None ->
    append_items items ret = Raise KeyError.
Proof.
  induction items as [|[k0 v0] items IH]; intros ret k Hin Hk; [destruct Hin|].
  cbn [append_items].
  destruct (lookup k0 ret) as [l|] eqn:El; [|reflexivity].
  destruct Hin as [Heq|Hin]; [cbn in Heq; congruence|].
  apply (IH _ k Hin).
  rewrite lookup_assign.
  destruct (String.eqb_spec k k0) as [->|_]; [congruence | exact Hk].
Qed.

(** The loop over the transitions keeps the keys and appends to every
    list the value of each transition. *)
Lemma append_rollout_spec (first : list (string * A)) (rest : list (list (string * A))) :
  Forall (same_keys first) rest ->
  forall done ret,
    map fst ret = map fst first ->
    (forall k, In k (map fst first) ->
       exists col, lookup k ret = Some col /\
                   Forall2 (fun t v => lookup k t = Some v) done col) ->
    exists ret',
      append_rollout rest ret = Ok ret' /\
      map fst ret' = map fst first /\
      forall k, In k (map fst first) ->
        exists col, lookup k ret' = Some col /\
                    Forall2 (fun t v => lookup k t = Some v)
                      (done ++ rest)%list col.
Proof.
  induction rest as [|t rest IH]; intros Hall done ret Hkeys Hcols.
  - exists ret. rewrite app_nil_r. repeat split; assumption.
  - inversion Hall as [|? ? [Hnd Hsame] Hall']; subst.
    cbn [append_rollout].
    destruct (append_items_spec t Hnd ret) as (ret1 & Hr & Hk & Hl).
    { intros k Hk. apply lookup_in. rewrite Hkeys. apply Hsame. exact Hk. }
    rewrite Hr. cbn [bind].
    destruct (IH Hall' (done ++ [t])%list ret1) as (ret' & Hr' & Hk' & Hc').
    + congruence.
    + intros k Hin. destruct (Hcols k Hin) as (col & Hcol & Hf).
      assert (Hin' : In k (map fst t)) by (apply Hsame; exact Hin).
      destruct (lookup_in_value k t Hin') as [v Hv].
      exists (col ++ [v])%list. split.
      * rewrite Hl, Hv, Hcol. reflexivity.
      * apply Forall2_app; [exact Hf|]. constructor; [exact Hv | constructor].
    + exists ret'. rewrite <- app_assoc in Hc'. repeat split; assumption.
Qed.

(** X20: [list2dict] transposes a rollout whose transitions all have the
    keys of the first one: the result has the keys of the first transition
    in its order, and under every key the values of that key in the
    transitions, in the order of the rollout.  An empty rollout raises
    IndexError, and a transition with a key that the first one lacks raises
    KeyError. *)
Theorem list2dict_transposes (rollout : list (list (string * A))) :
  (rollout = [] -> list2dict rollout = Raise IndexError) /\
  (forall first rest,
     rollout = first :: rest ->
     Forall (same_keys first) rollout ->
     exists ret,
       list2dict rollout = Ok ret /\
       map fst ret = map fst first /\
       forall k, In k (map fst first) ->
         exists col,
           lookup k ret = Some col /\
           Forall2 (fun t v => lookup k t = Some v) rollout col) /\
  (forall first good t rest k,
     rollout = (first :: good ++ t :: rest)%list ->
     Forall (same_keys first) (first :: good) ->
     In k (map fst t) -> ~ In k (map fst first) ->
     list2dict rollout = Raise KeyError).
Proof.
  split; [intros ->; reflexivity|].
  assert (Hstart : forall first : list (string * A),
            NoDup (map fst first) ->
            let ret := fold_left (fun ret k => assign k [] ret)
                         (map fst first) ([] : list (string * list A)) in
            map fst ret = map fst first /\
            (forall k, In k (map fst first) ->
               exists col, lookup k ret = Some col /\
                           Forall2 (fun (t : list (string * A)) v =>
                                      lookup k t = Some v) [] col)).
  { intros first Hnd.
    destruct (empty_columns (map fst first) Hnd []) as (H1 & H2 & _);
      [reflexivity|].
    cbv zeta in H1, H2 |- *. split; [exact H1|].
    intros k Hk. exists []. split; [auto | constructor]. }
  split.
  - intros first rest -> Hall.
    unfold list2dict. cbn [list_index nth_error bind].
    pose proof Hall as Hall0. inversion Hall0 as [|? ? [Hnd _] _]; subst.
    destruct (Hstart first Hnd) as [Hk Hc].
    destruct (append_rollout_spec first (first :: rest) Hall [] _ Hk Hc)
      as (ret' & Hr & Hk' & Hc').
    exists ret'. repeat split; assumption.
  - intros first good t rest k -> Hall Hin Hnot.
    unfold list2dict. cbn [list_index nth_error bind].
    pose proof Hall as Hall0. inversion Hall0 as [|? ? [Hnd _] _]; subst.
    destruct (Hstart first Hnd) as [Hk Hc].
    destruct (append_rollout_spec first (first :: good) Hall [] _ Hk Hc)
      as (ret' & Hr & Hk' & _).
    assert (Happ : forall (l1 l2 : list (list (string * A))) r r1,
              append_rollout l1 r = Ok r1 ->
              append_rollout (l1 ++ l2) r = append_rollout l2 r1).
    { induction l1 as [|a l1 IH]; intros l2 r r1 H.
      - cbn in H. injection H as <-. reflexivity.
      - cbn [append_rollout app] in H |- *.
        destruct (append_items a r) as [r2|]; cbn [bind] in H |- *;
          [apply IH; exact H | discriminate]. }
    change (first :: good ++ t :: rest)%list
      with ((first :: good) ++ t :: rest)%list.
    rewrite (Happ _ _ _ _ Hr). cbn [append_rollout].
    rewrite (append_items_unknown t ret' k Hin); [reflexivity|].
    destruct (lookup k ret') eqn:E; trivial.
    exfalso. apply Hnot. rewrite <- Hk'. apply lookup_in. congruence.
Qed.

End Rollouts.

(** A rollout of two transitions with the keys in different orders. *)
Lemma list2dict_transposes_witness :
  exists ret,
    list2dict [[("ob", 1); ("ac", 2)]; [("ac", 4); ("ob", 3)]] = Ok ret /\
    map fst ret = ["ob"; "ac"] /\
    exists col,
      lookup "ob" ret = Some col /\
      Forall2 (fun t v => lookup "ob" t = Some v)
        [[("ob", 1); ("ac", 2)]; [("ac", 4); ("ob", 3)]] col.
Proof.
  destruct (proj1 (proj2 (list2dict_transposes
                            [[("ob", 1); ("ac", 2)]; [("ac", 4); ("ob", 3)]]))
              _ _ eq_refl)
    as (ret & Hr & Hk & Hc).
  - constructor; [|constructor; [|constructor]];
      (split;
       [repeat constructor; simpl; intuition discriminate
       | intros k; simpl; intuition auto]).
  - exists ret. split; [exact Hr|]. split; [exact Hk|].
    apply Hc. simpl. auto.
Defined.

(** ** The gripper baseline of grasp_leg *)

Section GraspBaseline.

Variables (G : Geometry) (cfg : Config) (bk : Backend).




End GraspBaseline.

(** ** The further properties in the example furniture *)

(** After a reset the phase is move_eef_above_leg, where the gripper should
    be open: the step with the opening action passes both assertions and
    pays no gripper penalty. *)
Lemma step_assertion_errors_witness :
  exists st,
    Scenario.start false = Ok st /\
    exists st' rew info,
      _compute_reward Scenario.geometry (Scenario.config false)
        (Scenario.backend Scenario.at_rest) Scenario2.release st
      = Ok (st', (rew, false, info)) /\
      dict_get "gripper_penalty" info = Some (VNum 0).
Proof.
  eexists. split; [vm_compute; reflexivity|].
  match goal with
  | |- exists st' rew info, _compute_reward ?G ?c ?b ?a ?s = _ /\ _ =>
      assert (Hp : current_phase G c b s = Ok "move_eef_above_leg")
        by (vm_compute; reflexivity);
      apply (proj2 (proj2 (step_assertion_errors G c b a s _ Hp)))
  end.
  - vm_compute. discriminate.
  - simpl. auto.
Defined.

(** The gripped leg has reached lift_leg; in the next step it hangs at the
    lift target while the table site is 0.2 away from where it was. *)
Lemma table_disturbance_witness :
  exists st outs st' rew info b,
    Scenario.episode false [Scenario.gripped] = Ok (st, outs) /\
    _compute_reward Scenario.geometry (Scenario.config false)
      (Scenario.backend Scenario.lifted_table_moved) Scenario.hold st
    = Ok (st', (rew, true, info)) /\
    dict_get "phase_bonus" info = Some (VNum b) /\
    b == - _phase_bonus (Scenario.config false) / 2 /\
    _success st' = false.
Proof.
  do 2 eexists.
  assert (He : Scenario.episode false [Scenario.gripped] = Ok (?[st], ?[outs]))
    by (vm_compute; reflexivity).
  match type of He with
  | _ = Ok (?s, _) =>
      pose proof (table_disturbance Scenario.geometry (Scenario.config false)
                    (Scenario.backend Scenario.lifted_table_moved)
                    Scenario.hold s "lift_leg") as H
  end.
  assert (Ha : assertions_hold Scenario.geometry (Scenario.config false)
                 Scenario.hold) by (split; vm_compute; discriminate).
  specialize (H Ha eq_refl).
  destruct H as (st' & rew & info & b & H1 & H2 & H3 & H4 & _).
  - simpl. auto.
  - vm_compute. reflexivity.
  - exists st', rew, info, b. repeat split; assumption.
Defined.

(** The last connection: after the first leg is connected, the second leg
    sits at its table site and the simulator reports the connection. *)
Lemma episode_end_spec_witness :
  exists st outs st' rew info,
    Scenario.episode false [Scenario.at_site false true 1 0] = Ok (st, outs) /\
    _compute_reward Scenario.geometry (Scenario.config false)
      (Scenario.backend (Scenario.at_site false true 1 1)) Scenario.hold st
    = Ok (st', (rew, true, info)) /\
    _success st' = true.
Proof.
  do 2 eexists.
  assert (He : Scenario.episode false [Scenario.at_site false true 1 0]
               = Ok (?[st], ?[outs]))
    by (vm_compute; reflexivity).
  match type of He with
  | _ = Ok (?s, _) =>
      assert (Hs : _compute_reward Scenario.geometry (Scenario.config false)
                     (Scenario.backend (Scenario.at_site false true 1 1))
                     Scenario.hold s
                   = Ok (?[st'], (?[rew], true, ?[info])))
        by (vm_compute; reflexivity)
  end.
  do 3 eexists.
  split; [exact He|]. split; [exact Hs|].
  pose proof (episode_end_spec _ _ _ _ _ _ _ _ _ Hs) as (_ & H & _).
  rewrite H. vm_compute. reflexivity.
Defined.

(** After a reset the leg is held with a stable grip and stands upright, far
    from the table site: the early-picking check reaches lift_leg and the
    early-align check skips on to move_leg. *)
Lemma early_align_skip_witness :
  exists st,
    Scenario.start false = Ok st /\
    _phase_i (dispatch_state Scenario.geometry (Scenario.config false)
                (Scenario.backend Scenario.held_upright) st) = 5%nat /\
    current_phase Scenario.geometry (Scenario.config false)
      (Scenario.backend Scenario.held_upright) st = Ok "move_leg".
Proof.
  eexists. split; [vm_compute; reflexivity|].
  match goal with
  | |- context [dispatch_state ?G ?c ?b ?s] =>
      pose proof (early_align_skip G c b s) as H
  end.
  cbv zeta in H.
  assert (H' := H eq_refl eq_refl eq_refl).
  split; [exact (proj1 H') | exact (proj1 (proj2 H'))].
Defined.

(** The step of the last connection logs the phase 14: phase 0 of the
    subtask after the two of the recipe. *)
Lemma phase_logged_at_end_witness :
  exists st outs st' rew info,
    Scenario.episode false [Scenario.at_site false true 1 0] = Ok (st, outs) /\
    _compute_reward Scenario.geometry (Scenario.config false)
      (Scenario.backend (Scenario.at_site false true 1 1)) Scenario.hold st
    = Ok (st', (rew, true, info)) /\
    dict_get "phase" info = Some (VIdx 14) /\
    dict_get "phase_i" info = Some (VIdx 13).
Proof.
  do 2 eexists.
  assert (He : Scenario.episode false [Scenario.at_site false true 1 0]
               = Ok (?[st], ?[outs]))
    by (vm_compute; reflexivity).
  match type of He with
  | _ = Ok (?s, _) =>
      assert (Hs : _compute_reward Scenario.geometry (Scenario.config false)
                     (Scenario.backend (Scenario.at_site false true 1 1))
                     Scenario.hold s
                   = Ok (?[st'], (?[rew], true, ?[info])))
        by (vm_compute; reflexivity)
  end.
  do 3 eexists.
  split; [exact He|]. split; [exact Hs|].
  pose proof (phase_logged_at_end _ _ _ _ _ _ _ _ _ Hs) as (_ & _ & H1 & H2).
  split; [apply H2; vm_compute; reflexivity | exact H1].
Defined.

(** The gripped leg is in lift_leg and hangs at the lift target: the reward
    of the step is the sum of its logged terms. *)
Lemma reward_accounted_in_info_witness :
  exists st outs st' rew done info,
    Scenario.episode false [Scenario.gripped] = Ok (st, outs) /\
    _compute_reward Scenario.geometry (Scenario.config false)
      (Scenario.backend Scenario.lifted_table_moved) Scenario.hold st
    = Ok (st', (rew, done, info)) /\
    rew == dict_total reward_terms info.
Proof.
  do 2 eexists.
  assert (He : Scenario.episode false [Scenario.gripped] = Ok (?[st], ?[outs]))
    by (vm_compute; reflexivity).
  match type of He with
  | _ = Ok (?s, _) =>
      assert (Hs : _compute_reward Scenario.geometry (Scenario.config false)
                     (Scenario.backend Scenario.lifted_table_moved)
                     Scenario.hold s
                   = Ok (?[st'], (?[rew], ?[done], ?[info])))
        by (vm_compute; reflexivity)
  end.
  do 4 eexists.
  split; [exact He|]. split; [exact Hs|].
  exact (reward_accounted_in_info Scenario.geometry (Scenario.config false)
           (Scenario.backend Scenario.lifted_table_moved)
           (fun k _ => eq_refl) _ _ _ _ _ _ Hs).
Defined.

(** With three connections to make and a recipe of two, the step that
    connects the second leg raises IndexError. *)
Lemma connect_next_subtask_error_witness :
  exists st st1 out,
    _reset Scenario.geometry (Scenario2.config_three false)
      (Scenario.backend Scenario.at_rest) Scenario.blank = Ok st /\
    _compute_reward Scenario.geometry (Scenario2.config_three false)
      (Scenario.backend (Scenario.at_site false true 1 0)) Scenario.hold st
    = Ok (st1, out) /\
    _compute_reward Scenario.geometry (Scenario2.config_three false)
      (Scenario.backend (Scenario.at_site false true 1 1)) Scenario.hold st1
    = Raise IndexError.
Proof.
  eexists.
  assert (H0 : _reset Scenario.geometry (Scenario2.config_three false)
                 (Scenario.backend Scenario.at_rest) Scenario.blank
               = Ok ?[st])
    by (vm_compute; reflexivity).
  match type of H0 with
  | _ = Ok ?s =>
      assert (H1 : _compute_reward Scenario.geometry
                     (Scenario2.config_three false)
                     (Scenario.backend (Scenario.at_site false true 1 0))
                     Scenario.hold s
                   = Ok (?[st1], ?[out]))
        by (vm_compute; reflexivity)
  end.
  do 2 eexists.
  split; [exact H0|]. split; [exact H1|].
  match type of H1 with
  | _ = Ok (?s1, _) =>
      destruct (connect_next_subtask_error Scenario.geometry
                  (Scenario2.config_three false)
                  (Scenario.backend (Scenario.at_site false true 1 1))
                  Scenario.hold s1) as (e & He & _ & Hidx)
  end.
  - split; vm_compute; discriminate.
  - vm_compute. reflexivity.
  - reflexivity.
  - vm_compute. discriminate.
  - vm_compute. discriminate.
  - reflexivity.
  - rewrite He. f_equal. apply Hidx. left. vm_compute. lia.
Defined.

(** The reset of the example furniture. *)
Lemma reset_forgets_history_witness :
  exists st,
    Scenario.start false = Ok st /\
    _reset_reward_variables Scenario.geometry (Scenario.config false)
      (Scenario.backend Scenario.at_rest) st = Ok st /\
    _phase_i st = 0%nat.
Proof.
  eexists.
  assert (H0 : Scenario.start false = Ok ?[st]) by (vm_compute; reflexivity).
  split; [exact H0|].
  pose proof (reset_forgets_history Scenario.geometry (Scenario.config false)
                (Scenario.backend Scenario.at_rest) Scenario.blank _ H0)
    as (H1 & H2 & _).
  split; [exact H1 | exact H2].
Defined.

(** In differential mode the gripper has been lowered onto the leg
    (grasp_leg); in the next step
    both fingers touch the leg for the first time: the touch bonus is paid
    and the flag is set. *)
Lemma one_time_bonuses_witness :
  exists st outs st' rew done info,
    Scenario.episode true [Scenario.at_rest; Scenario.lowered]
    = Ok (st, outs) /\
    _compute_reward Scenario.geometry (Scenario.config true)
      (Scenario.backend Scenario.touched_unstable) Scenario.hold st
    = Ok (st', (rew, done, info)) /\
    dict_get "touch_rew" info = Some (VNum (0 + 1 * 10)) /\
    _leg_touched st' = true.
Proof.
  do 2 eexists.
  assert (He : Scenario.episode true [Scenario.at_rest; Scenario.lowered]
               = Ok (?[st], ?[outs]))
    by (vm_compute; reflexivity).
  match type of He with
  | _ = Ok (?s, _) =>
      assert (Hs : _compute_reward Scenario.geometry (Scenario.config true)
                     (Scenario.backend Scenario.touched_unstable)
                     Scenario.hold s
                   = Ok (?[st'], (?[rew], ?[done], ?[info])))
        by (vm_compute; reflexivity)
  end.
  do 4 eexists.
  split; [exact He|]. split; [exact Hs|].
  pose proof (one_time_bonuses _ _ _ _ _ _ _ _ _ Hs) as (H & _).
  cbv zeta in H.
  destruct (H eq_refl) as [H1 H2].
  split; [exact H1 | exact H2].
Defined.

(** In differential mode, the held upright leg has been skipped to move_leg
    with the baseline similarity 1; it then lies on its side (similarity 0)
    and stands upright again: the two angular rewards, -10 and 10, add up
    to (1 - 1) * 10. *)
Lemma potential_reward_telescopes_witness :
  exists st outs0 st' outs,
    Scenario.episode true [Scenario.held_upright] = Ok (st, outs0) /\
    run Scenario.geometry (Scenario.config true)
      [(Scenario.backend Scenario.gripped, Scenario.hold);
       (Scenario.backend Scenario.held_upright, Scenario.hold)] st
    = Ok (st', outs) /\
    map (info_num "move_ang_rew") outs = [(0 - 1) * 1 * 10; (1 - 0) * 1 * 10] /\
    Qsum (map (info_num "move_ang_rew") outs)
    == (last (map (info_num "move_ang_dist") outs) (_prev_move_ang_dist st)
        - _prev_move_ang_dist st)
       * (_move_rot_dist_coef (Scenario.config true) * 10).
Proof.
  do 2 eexists.
  assert (He : Scenario.episode true [Scenario.held_upright]
               = Ok (?[st], ?[outs0]))
    by (vm_compute; reflexivity).
  match type of He with
  | _ = Ok (?s, _) =>
      destruct (potential_reward_telescopes Scenario.geometry
                  (Scenario.config true)
                  {| p_phase := 5; p_val_key := "move_ang_dist";
                     p_rew_key := "move_ang_rew";
                     p_prev := _prev_move_ang_dist;
                     p_shape := fun _ x => x;
                     p_scale := fun cfg => _move_rot_dist_coef cfg * 10 |}
                  [(Scenario.backend Scenario.gripped, Scenario.hold);
                   (Scenario.backend Scenario.held_upright, Scenario.hold)] s)
        as (st' & outs & Hrun & _ & Hsum)
  end.
  - simpl. auto.
  - reflexivity.
  - vm_compute. repeat split; try reflexivity; try discriminate.
  - discriminate.
  - exists st', outs. split; [exact He|]. split; [exact Hrun|].
    split; [|exact Hsum].
    revert Hrun. vm_compute. intros Hrun. injection Hrun as _ <-.
    vm_compute. reflexivity.
Defined.

(** The leg site of the first subtask of the example furniture. *)
Lemma allowed_angles_spec_witness :
  exists s',
    _update_reward_variables Scenario.geometry (Scenario.config false)
      (Scenario.backend Scenario.at_rest) 0 Scenario.blank = Ok s' /\
    _leg_allowed_angles s' = ["0"; "90"; "180"; "270"].
Proof.
  eexists.
  assert (H0 : _update_reward_variables Scenario.geometry
                 (Scenario.config false) (Scenario.backend Scenario.at_rest)
                 0 Scenario.blank = Ok ?[s'])
    by (vm_compute; reflexivity).
  split; [exact H0|].
  exact (proj1 (allowed_angles_spec Scenario.geometry (Scenario.config false)
                  (Scenario.backend Scenario.at_rest) 0 Scenario.blank _
                  {| se_leg_site := Scenario.leg_site1;
                     se_table_site := Scenario.table_site1;
                     se_angle := Some 90 |}
                  "leg1-table" "conn_site1" ["0"; "90"; "180"; "270"]
                  H0 eq_refl eq_refl eq_refl)).
Defined.

(** The two legs of the example: the second one is placed 0.8 from the
    first. *)
Lemma placement_separated_witness :
  exists placed' pos_arr quat_arr n',
    Placement.place_all Scenario.geometry PlacementScenario.euler_to_quat
      PlacementScenario.draws PlacementScenario.sampler
      PlacementScenario.legs [] [] [] 0
    = Placement.Sampled (placed', pos_arr, quat_arr, n') /\
    exists p q,
      placed' = [p; q] /\
      Placement.separated Scenario.geometry p q.
Proof.
  assert (Hrun : Placement.place_all Scenario.geometry
                   PlacementScenario.euler_to_quat PlacementScenario.draws
                   PlacementScenario.sampler PlacementScenario.legs [] [] [] 0
                 = Placement.Sampled (?[placed'], ?[pos], ?[quat], ?[n']))
    by (vm_compute; reflexivity).
  do 4 eexists. split; [exact Hrun|].
  assert (Hnorm : forall a b c d, a == c -> b == d ->
            norm Scenario.geometry [a; b] == norm Scenario.geometry [c; d]).
  { intros a b c d H1 H2. cbn. rewrite H1, H2. reflexivity. }
  destruct (placement_separated Scenario.geometry
              PlacementScenario.euler_to_quat PlacementScenario.draws Hnorm
              PlacementScenario.sampler _ _ _ _ _ _ _ _ _ (Qeq_refl 0) Hrun)
    as (new & Hnew & _ & Hsep).
  cbn [app] in Hnew. subst new.
  do 2 eexists. split; [reflexivity|].
  match goal with
  | |- Placement.separated _ ?p ?q =>
      specialize (Hsep [p] q [] eq_refl)
  end.
  cbn [app] in Hsep. inversion Hsep; subst. assumption.
Defined.

(** A table top of radius 5 at the centre leaves no place within 1 of the
    centre for a generator that always draws 0.5. *)
Lemma placement_attempts_witness :
  Placement.sample Scenario.geometry PlacementScenario.euler_to_quat
    PlacementScenario.stuck PlacementScenario.sampler
    (Some [("leg1", 0.1)]) (Some [PlacementScenario.table_top]) 0
  = Placement.RandomizationError.
Proof.
  apply (proj2 (placement_attempts Scenario.geometry
                  PlacementScenario.euler_to_quat PlacementScenario.stuck
                  PlacementScenario.sampler "leg1" 0.1
                  [PlacementScenario.table_top] PlacementScenario.origin 0
                  eq_refl)).
  intros i _. vm_compute. reflexivity.
Defined.

(** The first draw of the example, 0.5, puts the offset in the middle of the
    range -1 .. 1. *)
Lemma sample_xy_within_range_witness :
  -1 <= fst (Placement.sample_x PlacementScenario.draws
               PlacementScenario.sampler 0.1 0) <= 1.
Proof.
  pose proof (sample_xy_within_range PlacementScenario.draws
                PlacementScenario.sampler 0.1 0) as H.
  cbv zeta in H.
  destruct H as (H & _).
  - split; vm_compute; discriminate.
  - split.
    + eapply Qle_trans; [|exact (proj1 H)]. vm_compute. discriminate.
    + eapply Qle_trans; [exact (proj2 H)|]. vm_compute. discriminate.
Defined.

(** [setup] of the example parts: the table top keeps its position, the leg
    is tried at the centre and then placed 1 to the left. *)
Lemma setup_establishes_witness :
  exists s' n',
    Placement.setup Scenario.geometry PlacementScenario.euler_to_quat
      PlacementScenario.draws PlacementScenario.fresh
      PlacementScenario.parts 0.8 [2; 2; 1] 0
    = Placement.Sampled (s', n') /\
    Placement.table_top_offset s' = 0 /\
    exists q, Placement.init_of s' "leg1" = Placement.Sampled q.
Proof.
  assert (Hs : Placement.setup Scenario.geometry
                 PlacementScenario.euler_to_quat PlacementScenario.draws
                 PlacementScenario.fresh PlacementScenario.parts 0.8
                 [2; 2; 1] 0
               = Placement.Sampled (?[s'], ?[n']))
    by (vm_compute; reflexivity).
  do 2 eexists. split; [exact Hs|].
  pose proof (setup_establishes _ _ _ _ _ _ _ _ _ _ Hs)
    as (H1 & _ & _ & _ & _ & _ & H2 & _).
  split; [exact H1|].
  apply (H2 "leg1" 0.1). simpl. auto.
Defined.

